(** * Plan Mode of nanocoder: phase state machine, question manager and
      plan file store, embedded from the TypeScript sources.

    Layout: the platform built-ins the sources call ([JS]), then one module
    per source file, then the theorems. *)

From Stdlib Require Import ZArith QArith List String Ascii Bool Lia DecimalString
  DecimalPos DecimalN DecimalFacts
  Sorting.Sorted Sorting.Permutation.
From stdpp Require Import gmap strings.

Import ListNotations.
Set Warnings "-register-all".
Local Open Scope string_scope.
Local Open Scope Z_scope.

(* ===================================================================== *)
(** ** Platform built-ins                                                  *)
(* ===================================================================== *)

Module JS.

(** Strings are the UTF-8 bytes of the text.  Thrown errors carry the name
    of their class and their message. *)
Record Error := MkError { errName : string; errMessage : string }.

Inductive Result (A : Type) : Type :=
| Ok (a : A)
| Throw (e : Error).
Arguments Ok {A} a.
Arguments Throw {A} e.

(** A [Date] object holds a time value in milliseconds since the epoch, or
    NaN ("Invalid Date"). *)
Inductive Date := DateOf (t : Z) | InvalidDate.

(** The values a plan record can hold: JSON data plus [Date] objects.
    Numbers are the integers; an object is the list of its own properties in
    enumeration order. *)
Inductive value :=
| VNull
| VBool (b : bool)
| VNum (n : Z)
| VStr (s : string)
| VArr (items : list value)
| VObj (props : list (string * value))
| VDate (d : Date).

(** [Array.prototype.indexOf]: the first index holding [x], or -1. *)
Fixpoint indexOf_from {A} (eqb : A -> A -> bool) (x : A) (l : list A) (i : Z) : Z :=
  match l with
  | [] => -1
  | y :: l' => if eqb y x then i else indexOf_from eqb x l' (i + 1)
  end.

Definition indexOf {A} (eqb : A -> A -> bool) (x : A) (l : list A) : Z :=
  indexOf_from eqb x l 0.

(** [arr[i]] for an integer index: [None] is [undefined]. *)
Definition at_index {A} (l : list A) (i : Z) : option A :=
  if i <? 0 then None else nth_error l (Z.to_nat i).

(** [Array.prototype.includes] on an array of strings. *)
Definition Array_includes (l : list string) (x : string) : bool :=
  existsb (String.eqb x) l.

(** [a.join(sep)] on an array of strings. *)
Fixpoint Array_join (sep : string) (l : list string) : string :=
  match l with
  | [] => ""
  | [x] => x
  | x :: l' => x ++ sep ++ Array_join sep l'
  end.

(** *** node:crypto

    The random source is the stream of bytes it will deliver. *)
Definition Rng := nat -> ascii.

Definition hexDigit (n : N) : ascii :=
  ascii_of_N (if (n <? 10)%N then 48 + n else 87 + n).

Definition hexOfByte (b : ascii) : string :=
  let n := N_of_ascii b in
  String (hexDigit (n / 16)) (String (hexDigit (n mod 16)) "").

(** [buf.toString('hex')] *)
Definition hexOfBytes (bs : list ascii) : string :=
  fold_right (fun b acc => hexOfByte b ++ acc) "" bs.

(** [randomBytes(n)]: the next [n] bytes of the source, and the source
    after them. *)
Definition randomBytes (n : nat) (rng : Rng) : list ascii * Rng :=
  (map rng (seq 0 n), fun i => rng (i + n)%nat).

(** [randomUUID()]: a version 4 UUID from 16 random bytes, printed
    8-4-4-4-12. *)
Definition uuidOfBytes (bs : list ascii) : string :=
  let b i := nth i bs zero in
  let v6 := ascii_of_N (N.lor (N.land (N_of_ascii (b 6%nat)) 15) 64) in
  let v8 := ascii_of_N (N.lor (N.land (N_of_ascii (b 8%nat)) 63) 128) in
  hexOfBytes [b 0%nat; b 1%nat; b 2%nat; b 3%nat] ++ "-" ++
  hexOfBytes [b 4%nat; b 5%nat] ++ "-" ++
  hexOfBytes [v6; b 7%nat] ++ "-" ++
  hexOfBytes [v8; b 9%nat] ++ "-" ++
  hexOfBytes [b 10%nat; b 11%nat; b 12%nat; b 13%nat; b 14%nat; b 15%nat].

Definition randomUUID (rng : Rng) : string * Rng :=
  let '(bs, rng') := randomBytes 16 rng in (uuidOfBytes bs, rng').

(** *** Strings *)

Definition nl : string := String "010"%char "".
Definition dquote : string := String "034"%char "".

Definition lowerChar (c : ascii) : ascii :=
  let n := N_of_ascii c in
  if ((65 <=? n) && (n <=? 90))%N then ascii_of_N (n + 32) else c.

(** [s.toLowerCase()], on the ASCII letters; other bytes are kept. *)
Fixpoint toLowerCase (s : string) : string :=
  match s with
  | EmptyString => EmptyString
  | String c s' => String (lowerChar c) (toLowerCase s')
  end.

(** [s.startsWith(p)] *)
Definition startsWith (s p : string) : bool := String.prefix p s.

(** [s.includes(sub)] *)
Fixpoint includes (s sub : string) : bool :=
  if String.prefix sub s then true
  else match s with
       | EmptyString => false
       | String _ s' => includes s' sub
       end.

(** [s.replace(/\\/g, '/')] *)
Fixpoint backslashesToSlashes (s : string) : string :=
  match s with
  | EmptyString => EmptyString
  | String c s' =>
      String (if Ascii.eqb c "\"%char then "/"%char else c) (backslashesToSlashes s')
  end.

(** [Number.prototype.toString] on an integer. *)
Definition numberToString (n : Z) : string :=
  NilZero.string_of_int (Z.to_int n).

Definition digitChar (d : Z) : ascii := ascii_of_N (48 + Z.to_N d).

(** The decimal digits of [n], padded with zeros to [width] digits. *)
Fixpoint padDigits (width : nat) (n : Z) : string :=
  match width with
  | O => ""
  | S w => padDigits w (n / 10) ++ String (digitChar (n mod 10)) ""
  end.

(** *** Date *)

Definition msPerDay : Z := 86400000.

(** Year, month and day of the day numbered [z] from 1970-01-01, in the
    proleptic Gregorian calendar. *)
Definition civilFromDays (z : Z) : Z * Z * Z :=
  let z := z + 719468 in
  let era := z / 146097 in
  let doe := z - era * 146097 in
  let yoe := (doe - doe / 1460 + doe / 36524 - doe / 146096) / 365 in
  let y := yoe + era * 400 in
  let doy := doe - (365 * yoe + yoe / 4 - yoe / 100) in
  let mp := (5 * doy + 2) / 153 in
  let d := doy - (153 * mp + 2) / 5 + 1 in
  let m := if mp <? 10 then mp + 3 else mp - 9 in
  (if m <=? 2 then y + 1 else y, m, d).

Definition daysFromCivil (y m d : Z) : Z :=
  let y := if m <=? 2 then y - 1 else y in
  let era := y / 400 in
  let yoe := y - era * 400 in
  let doy := (153 * (if 2 <? m then m - 3 else m + 9) + 2) / 5 + d - 1 in
  let doe := yoe * 365 + yoe / 4 - yoe / 100 + doy in
  era * 146097 + doe - 719468.

Definition isoYear (y : Z) : string :=
  if (0 <=? y) && (y <=? 9999) then padDigits 4 y
  else (if y <? 0 then "-" else "+") ++ padDigits 6 (Z.abs y).

(** The text [toISOString] gives for the time value [t]. *)
Definition isoOfTime (t : Z) : string :=
  let '(y, m, d) := civilFromDays (t / msPerDay) in
  let r := t mod msPerDay in
  isoYear y ++ "-" ++ padDigits 2 m ++ "-" ++ padDigits 2 d ++ "T" ++
  padDigits 2 (r / 3600000) ++ ":" ++ padDigits 2 (r / 60000 mod 60) ++ ":" ++
  padDigits 2 (r / 1000 mod 60) ++ "." ++ padDigits 3 (r mod 1000) ++ "Z".

(** [d.toISOString()]: a [RangeError] on an invalid date. *)
Definition toISOString (d : Date) : Result string :=
  match d with
  | DateOf t => Ok (isoOfTime t)
  | InvalidDate => Throw (MkError "RangeError" "Invalid time value")
  end.

(** *** JSON.stringify *)

Definition quoteChar (c : ascii) : string :=
  let n := N_of_ascii c in
  if (n =? 34)%N then "\" ++ dquote
  else if (n =? 92)%N then "\\"
  else if (n =? 8)%N then "\b"
  else if (n =? 9)%N then "\t"
  else if (n =? 10)%N then "\n"
  else if (n =? 12)%N then "\f"
  else if (n =? 13)%N then "\r"
  else if (n <? 32)%N then "\u00" ++ hexOfByte c
  else String c "".

Fixpoint quoteChars (s : string) : string :=
  match s with
  | EmptyString => EmptyString
  | String c s' => quoteChar c ++ quoteChars s'
  end.

(** A string as a JSON string literal. *)
Definition quoteJSONString (s : string) : string :=
  dquote ++ quoteChars s ++ dquote.

(** The text of an array or object from the texts of its parts. *)
Definition wrapJSON (opening closing gap indent : string) (partial : list string)
  : string :=
  match partial with
  | [] => opening ++ closing
  | _ =>
      if String.eqb gap "" then opening ++ Array_join "," partial ++ closing
      else
        let inner := indent ++ gap in
        opening ++ nl ++ inner ++ Array_join ("," ++ nl ++ inner) partial
        ++ nl ++ indent ++ closing
  end.

(** The text of [v] at indentation [indent], each level adding [gap].  A
    [Date] is written through its [toJSON]: the ISO text, or [null] when it
    is invalid. *)
Fixpoint serializeJSON (gap indent : string) (v : value) {struct v} : string :=
  match v with
  | VNull => "null"
  | VBool true => "true"
  | VBool false => "false"
  | VNum n => numberToString n
  | VStr s => quoteJSONString s
  | VDate (DateOf t) => quoteJSONString (isoOfTime t)
  | VDate InvalidDate => "null"
  | VArr items =>
      wrapJSON "[" "]" gap indent (map (serializeJSON gap (indent ++ gap)) items)
  | VObj props =>
      wrapJSON "{" "}" gap indent
        (map (fun kv : string * value =>
                let (k, x) := kv in
                quoteJSONString k ++ ":" ++ (if String.eqb gap "" then "" else " ")
                ++ serializeJSON gap (indent ++ gap) x) props)
  end.

(** [JSON.stringify(v)] *)
Definition JSON_stringify (v : value) : string := serializeJSON "" "" v.

(** [JSON.stringify(v, null, 2)] *)
Definition JSON_stringify_2 (v : value) : string := serializeJSON "  " "" v.

(** A property written on a list of own properties: an own property keeps
    its place, a new one goes last.  This is what JavaScript does for a name
    that is not an array index; [defineProperty] below covers those. *)
Fixpoint setProperty (props : list (string * value)) (key : string) (x : value)
  : list (string * value) :=
  match props with
  | [] => [(key, x)]
  | (k, y) :: props' =>
      if String.eqb k key then (k, x) :: props'
      else (k, y) :: setProperty props' key x
  end.

(** [obj[key]] for an own property, and for a name [Object.prototype] does
    not hold: [None] is [undefined]. *)
Fixpoint getProperty (props : list (string * value)) (key : string) : option value :=
  match props with
  | [] => None
  | (k, y) :: props' => if String.eqb k key then Some y else getProperty props' key
  end.

(** The array index a property name denotes: the decimal text, without
    leading zero, of an integer from 0 to 2^32 - 2. *)
Definition arrayIndex (key : string) : option Z :=
  match NilZero.uint_of_string key with
  | Some u =>
      let n := Z.of_N (N.of_uint u) in
      if String.eqb (numberToString n) key && (n <? 4294967295) then Some n else None
  | None => None
  end.

(** A new property named by the array index [i], put where the own keys are
    enumerated: after the array indices below [i], before everything else. *)
Fixpoint insertIndex (i : Z) (key : string) (x : value) (props : list (string * value))
  : list (string * value) :=
  match props with
  | [] => [(key, x)]
  | (k, y) :: props' =>
      match arrayIndex k with
      | Some j => if j <? i then (k, y) :: insertIndex i key x props' else (key, x) :: props
      | None => (key, x) :: props
      end
  end.

(** An own property created or given a new value: an own property keeps
    its place; a new array index goes among the array indices, in ascending
    order; any other new name goes last. *)
Definition defineProperty (props : list (string * value)) (key : string) (x : value)
  : list (string * value) :=
  if Array_includes (map fst props) key then setProperty props key x
  else match arrayIndex key with
       | Some i => insertIndex i key x props
       | None => setProperty props key x
       end.

(** [obj[key] = x] on a plain object, as the own properties show it.  The
    name [__proto__], unless it is an own property, reaches the accessor of
    [Object.prototype]: no own property is made (the prototype is replaced
    when [x] is an object or [null]; prototypes are not modelled). *)
Definition assignProperty (props : list (string * value)) (key : string) (x : value)
  : list (string * value) :=
  if String.eqb key "__proto__" && negb (Array_includes (map fst props) key) then props
  else defineProperty props key x.

(** [arr.slice(0, end)] *)
Definition Array_slice0 {A} (l : list A) (end_ : Z) : list A :=
  let len := Z.of_nat (length l) in
  let k := if end_ <? 0 then Z.max (len + end_) 0 else Z.min end_ len in
  firstn (Z.to_nat k) l.

(** [arr.findIndex(p)] *)
Fixpoint findIndex_from {A} (p : A -> bool) (l : list A) (i : Z) : Z :=
  match l with
  | [] => -1
  | y :: l' => if p y then i else findIndex_from p l' (i + 1)
  end.

Definition findIndex {A} (p : A -> bool) (l : list A) : Z := findIndex_from p l 0.

(** [arr.sort(cmp)]: the sort is stable, an element moves in front of
    another only when [cmp] puts it strictly before. *)
Fixpoint sortInsert {A} (cmp : A -> A -> Z) (x : A) (l : list A) : list A :=
  match l with
  | [] => [x]
  | y :: l' => if cmp x y <=? 0 then x :: l else y :: sortInsert cmp x l'
  end.

Definition Array_sort {A} (cmp : A -> A -> Z) (l : list A) : list A :=
  fold_right (sortInsert cmp) [] l.

(** *** Date parsing *)

Definition digitValue (c : ascii) : option Z :=
  let n := N_of_ascii c in
  if ((48 <=? n) && (n <=? 57))%N then Some (Z.of_N n - 48) else None.

(** Exactly [k] decimal digits at the head of [s]: their value on top of
    [acc], and the rest. *)
Fixpoint takeDigits (k : nat) (acc : Z) (s : string) : option (Z * string) :=
  match k with
  | O => Some (acc, s)
  | S k' =>
      match s with
      | EmptyString => None
      | String c s' =>
          match digitValue c with
          | Some d => takeDigits k' (acc * 10 + d) s'
          | None => None
          end
      end
  end.

Definition takeChar (c : ascii) (s : string) : option string :=
  match s with
  | String c' s' => if Ascii.eqb c c' then Some s' else None
  | EmptyString => None
  end.

Definition isLeapYear (y : Z) : bool :=
  ((y mod 4 =? 0) && negb (y mod 100 =? 0)) || (y mod 400 =? 0).

Definition daysInMonth (y m : Z) : Z :=
  if m =? 2 then (if isLeapYear y then 29 else 28)
  else if (m =? 4) || (m =? 6) || (m =? 9) || (m =? 11) then 30 else 31.

Definition maxTime : Z := 8640000000000000.

(** [TimeClip] *)
Definition timeClip (t : Z) : Date :=
  if Z.abs t <=? maxTime then DateOf t else InvalidDate.

(** A year of four digits, or a sign and six digits. *)
Definition takeYear (s : string) : option (Z * string) :=
  match s with
  | String c s' =>
      match digitValue c with
      | Some _ => takeDigits 4 0 s
      | None =>
          if Ascii.eqb c "+"%char then takeDigits 6 0 s'
          else if Ascii.eqb c "-"%char then
            match takeDigits 6 0 s' with
            | Some (y, r) => if y =? 0 then None else Some (- y, r)
            | None => None
            end
          else None
      end
  | EmptyString => None
  end.

(** The time value of a date-time text in the format [toISOString] writes;
    [None] for any other text. *)
Definition parseISO (s : string) : option Z :=
  match takeYear s with
  | Some (y, s) =>
  match takeChar "-" s with Some s =>
  match takeDigits 2 0 s with Some (m, s) =>
  match takeChar "-" s with Some s =>
  match takeDigits 2 0 s with Some (d, s) =>
  match takeChar "T" s with Some s =>
  match takeDigits 2 0 s with Some (hh, s) =>
  match takeChar ":" s with Some s =>
  match takeDigits 2 0 s with Some (mi, s) =>
  match takeChar ":" s with Some s =>
  match takeDigits 2 0 s with Some (ss, s) =>
  match takeChar "." s with Some s =>
  match takeDigits 3 0 s with Some (ms, s) =>
    if String.eqb s "Z"
       && (1 <=? m) && (m <=? 12) && (1 <=? d) && (d <=? daysInMonth y m)
       && ((hh <=? 23) || ((hh =? 24) && (mi =? 0) && (ss =? 0) && (ms =? 0)))
       && (mi <=? 59) && (ss <=? 59)
    then Some (daysFromCivil y m d * msPerDay
               + hh * 3600000 + mi * 60000 + ss * 1000 + ms)
    else None
  | None => None end | None => None end | None => None end | None => None end
  | None => None end | None => None end | None => None end | None => None end
  | None => None end | None => None end | None => None end | None => None end
  | None => None
  end.

(** [new Date(text)], for the format above. *)
Definition Date_ofString (s : string) : Date :=
  match parseISO s with
  | Some t => timeClip t
  | None => InvalidDate
  end.

(** [String(v)], as [new Date(v)] converts an object to a primitive. *)
Fixpoint toStringValue (v : value) : string :=
  match v with
  | VNull => "null"
  | VBool true => "true"
  | VBool false => "false"
  | VNum n => numberToString n
  | VStr s => s
  | VArr items =>
      Array_join ","
        (map (fun x => match x with VNull => "" | _ => toStringValue x end) items)
  | VObj _ => "[object Object]"
  | VDate (DateOf t) => isoOfTime t
  | VDate InvalidDate => "Invalid Date"
  end.

(** [new Date(x)] where [x] is a property read: [None] is [undefined]. *)
Definition Date_new (x : option value) : Date :=
  match x with
  | None => InvalidDate
  | Some VNull => DateOf 0
  | Some (VBool b) => DateOf (if b then 1 else 0)
  | Some (VNum n) => timeClip n
  | Some (VStr s) => Date_ofString s
  | Some (VDate d) => d
  | Some v => Date_ofString (toStringValue v)
  end.

(** *** JSON.parse

    The grammar of JSON, with one restriction of the model: a number is an
    integer literal (a fraction or an exponent is not read). *)

Definition isWhitespace (c : ascii) : bool :=
  let n := N_of_ascii c in
  ((n =? 32) || (n =? 9) || (n =? 10) || (n =? 13))%N.

Fixpoint skipWhitespace (s : string) : string :=
  match s with
  | String c s' => if isWhitespace c then skipWhitespace s' else s
  | EmptyString => EmptyString
  end.

Definition hexValue (c : ascii) : option N :=
  let n := N_of_ascii c in
  if ((48 <=? n) && (n <=? 57))%N then Some (n - 48)%N
  else if ((97 <=? n) && (n <=? 102))%N then Some (n - 87)%N
  else if ((65 <=? n) && (n <=? 70))%N then Some (n - 55)%N
  else None.

Definition hex4 (a b c d : ascii) : option N :=
  match hexValue a, hexValue b, hexValue c, hexValue d with
  | Some x, Some y, Some z, Some w => Some (((x * 16 + y) * 16 + z) * 16 + w)%N
  | _, _, _, _ => None
  end.

(** The UTF-8 bytes of a code point. *)
Definition utf8 (cp : N) : string :=
  let byte n := String (ascii_of_N n) "" in
  (if cp <? 128 then byte cp
   else if cp <? 2048 then byte (192 + cp / 64) ++ byte (128 + cp mod 64)
   else if cp <? 65536 then
     byte (224 + cp / 4096) ++ byte (128 + cp / 64 mod 64) ++ byte (128 + cp mod 64)
   else
     byte (240 + cp / 262144) ++ byte (128 + cp / 4096 mod 64)
     ++ byte (128 + cp / 64 mod 64) ++ byte (128 + cp mod 64))%N.

Definition isHighSurrogate (u : N) : bool := ((55296 <=? u) && (u <=? 56319))%N.
Definition isLowSurrogate (u : N) : bool := ((56320 <=? u) && (u <=? 57343))%N.

(** One character [c] of a string literal, or the escape it starts, in front
    of [r]; [self] reads the characters after it. *)
Definition parseChar (self : string -> option (string * string)) (c : ascii) (r : string)
  : option (string * string) :=
  let cons (bytes : string) (r : option (string * string)) :=
    match r with
    | Some (str, rest) => Some (bytes ++ str, rest)
    | None => None
    end in
  let n := N_of_ascii c in
  if (n =? 34)%N then Some ("", r)
  else if (n <? 32)%N then None
  else if negb (n =? 92)%N then cons (String c "") (self r)
  else
    match r with
    | EmptyString => None
    | String e r1 =>
        let k := N_of_ascii e in
        if (k =? 34)%N then cons dquote (self r1)
        else if (k =? 92)%N then cons "\" (self r1)
        else if (k =? 47)%N then cons "/" (self r1)
        else if (k =? 98)%N then cons (String "008"%char "") (self r1)
        else if (k =? 102)%N then cons (String "012"%char "") (self r1)
        else if (k =? 110)%N then cons nl (self r1)
        else if (k =? 114)%N then cons (String "013"%char "") (self r1)
        else if (k =? 116)%N then cons (String "009"%char "") (self r1)
        else if negb (k =? 117)%N then None
        else
          match r1 with
          | String h1 (String h2 (String h3 (String h4 r2))) =>
              match hex4 h1 h2 h3 h4 with
              | None => None
              | Some u =>
                  let single := cons (utf8 u) (self r2) in
                  if isHighSurrogate u then
                    match r2 with
                    | String b (String v (String l1 (String l2
                        (String l3 (String l4 r3))))) =>
                        match hex4 l1 l2 l3 l4 with
                        | Some w =>
                            if ((N_of_ascii b =? 92) && (N_of_ascii v =? 117))%N
                               && isLowSurrogate w
                            then cons (utf8 (65536 + (u - 55296) * 1024
                                             + (w - 56320))%N)
                                   (self r3)
                            else single
                        | None => single
                        end
                    | _ => single
                    end
                  else single
              end
          | _ => None
          end
    end.

(** The characters of a string literal after its opening quote: the string
    they denote, and the text after the closing quote. *)
Fixpoint parseChars (s : string) : option (string * string) :=
  match s with
  | EmptyString => None
  | String c r => parseChar parseChars c r
  end.

Fixpoint spanDigits (s : string) : string * string :=
  match s with
  | String c s' =>
      match digitValue c with
      | Some _ => let (ds, r) := spanDigits s' in (String c ds, r)
      | None => (EmptyString, s)
      end
  | EmptyString => (EmptyString, EmptyString)
  end.

Definition startsNumberTail (s : string) : bool :=
  match s with
  | String c _ =>
      let n := N_of_ascii c in ((n =? 46) || (n =? 101) || (n =? 69))%N
  | EmptyString => false
  end.

Definition parseDigits (negative : bool) (s : string) : option (value * string) :=
  let (ds, r) := spanDigits s in
  match ds with
  | EmptyString => None
  | String d ds' =>
      if (Ascii.eqb d "0"%char && negb (String.eqb ds' "")) || startsNumberTail r
      then None
      else
        match NilZero.uint_of_string ds with
        | Some u =>
            let n := Z.of_N (N.of_uint u) in
            Some (VNum (if negative then - n else n), r)
        | None => None
        end
  end.

Definition parseNumber (s : string) : option (value * string) :=
  match s with
  | String c s' => if Ascii.eqb c "-"%char then parseDigits true s' else parseDigits false s
  | EmptyString => None
  end.

(** [s] without the [word] at its head. *)
Fixpoint dropPrefix (word s : string) : option string :=
  match word with
  | EmptyString => Some s
  | String c word' =>
      match s with
      | String c' s' => if Ascii.eqb c c' then dropPrefix word' s' else None
      | EmptyString => None
      end
  end.

Definition parseLiteral (word : string) (v : value) (s : string)
  : option (value * string) :=
  match dropPrefix word s with
  | Some rest => Some (v, rest)
  | None => None
  end.

(** An object from its members in the order of the text: a repeated key
    keeps its first place and its last value. *)
Definition objectOfMembers (ms : list (string * value)) : list (string * value) :=
  fold_left (fun o kv => setProperty o (fst kv) (snd kv)) ms [].

Fixpoint parseValue (fuel : nat) (s : string) {struct fuel} : option (value * string) :=
  match fuel with
  | O => None
  | S fuel' =>
      match skipWhitespace s with
      | EmptyString => None
      | String c r as s0 =>
          let n := N_of_ascii c in
          if (n =? 123)%N then
            match skipWhitespace r with
            | String c2 r2 =>
                if (N_of_ascii c2 =? 125)%N then Some (VObj [], r2)
                else
                  match parseMembers fuel' r with
                  | Some (ms, rest) => Some (VObj (objectOfMembers ms), rest)
                  | None => None
                  end
            | EmptyString => None
            end
          else if (n =? 91)%N then
            match skipWhitespace r with
            | String c2 r2 =>
                if (N_of_ascii c2 =? 93)%N then Some (VArr [], r2)
                else
                  match parseElements fuel' r with
                  | Some (vs, rest) => Some (VArr vs, rest)
                  | None => None
                  end
            | EmptyString => None
            end
          else if (n =? 34)%N then
            match parseChars r with
            | Some (str, rest) => Some (VStr str, rest)
            | None => None
            end
          else if (n =? 116)%N then parseLiteral "true" (VBool true) s0
          else if (n =? 102)%N then parseLiteral "false" (VBool false) s0
          else if (n =? 110)%N then parseLiteral "null" VNull s0
          else parseNumber s0
      end
  end
with parseElements (fuel : nat) (s : string) {struct fuel}
  : option (list value * string) :=
  match fuel with
  | O => None
  | S fuel' =>
      match parseValue fuel' s with
      | Some (v, r) =>
          match skipWhitespace r with
          | String c r2 =>
              if (N_of_ascii c =? 44)%N then
                match parseElements fuel' r2 with
                | Some (vs, rest) => Some (v :: vs, rest)
                | None => None
                end
              else if (N_of_ascii c =? 93)%N then Some ([v], r2)
              else None
          | EmptyString => None
          end
      | None => None
      end
  end
with parseMembers (fuel : nat) (s : string) {struct fuel}
  : option (list (string * value) * string) :=
  match fuel with
  | O => None
  | S fuel' =>
      match skipWhitespace s with
      | String q r =>
          if negb (N_of_ascii q =? 34)%N then None
          else
            match parseChars r with
            | Some (k, r1) =>
                match skipWhitespace r1 with
                | String c1 r2 =>
                    if negb (N_of_ascii c1 =? 58)%N then None
                    else
                      match parseValue fuel' r2 with
                      | Some (v, r3) =>
                          match skipWhitespace r3 with
                          | String c3 r4 =>
                              if (N_of_ascii c3 =? 44)%N then
                                match parseMembers fuel' r4 with
                                | Some (ms, rest) => Some ((k, v) :: ms, rest)
                                | None => None
                                end
                              else if (N_of_ascii c3 =? 125)%N
                              then Some ([(k, v)], r4)
                              else None
                          | EmptyString => None
                          end
                      | None => None
                      end
                | EmptyString => None
                end
            | None => None
            end
      | EmptyString => None
      end
  end.

(** [JSON.parse(text)]: a [SyntaxError] unless the whole text is one value.
    A value takes at least as many characters as reading it takes fuel, so
    the length of the text is fuel enough ([parseValue_fuel] below). *)
Definition JSON_parse (text : string) : Result value :=
  match parseValue (S (String.length text)) text with
  | Some (v, rest) =>
      match skipWhitespace rest with
      | EmptyString => Ok v
      | _ => Throw (MkError "SyntaxError" "Unexpected non-whitespace character after JSON")
      end
  | None => Throw (MkError "SyntaxError" "Unexpected token in JSON")
  end.

(** *** node:path (POSIX) *)

(** [s.split('/')] *)
Fixpoint splitSlash (s : string) : list string :=
  match s with
  | EmptyString => [""]
  | String c s' =>
      let segs := splitSlash s' in
      if Ascii.eqb c "/"%char then "" :: segs
      else match segs with
           | seg :: rest => String c seg :: rest
           | [] => [String c ""]
           end
  end.

(** One segment against the segments kept so far (last first). *)
Definition normalizeStep (allowAboveRoot : bool) (kept : list string) (seg : string)
  : list string :=
  if String.eqb seg "" || String.eqb seg "." then kept
  else if String.eqb seg ".." then
    match kept with
    | top :: below =>
        if String.eqb top ".." then (if allowAboveRoot then ".." :: kept else kept)
        else below
    | [] => if allowAboveRoot then [".."] else []
    end
  else seg :: kept.

Definition normalizeSegments (allowAboveRoot : bool) (segs : list string) : list string :=
  rev (fold_left (normalizeStep allowAboveRoot) segs []).

Definition endsWithSlash (s : string) : bool :=
  match rev (splitSlash s) with
  | last :: _ :: _ => String.eqb last ""
  | _ => false
  end.

(** [path.normalize] *)
Definition normalize (path : string) : string :=
  if String.eqb path "" then "."
  else
    let isAbsolute := startsWith path "/" in
    let trailingSeparator := endsWithSlash path in
    let body := Array_join "/" (normalizeSegments (negb isAbsolute) (splitSlash path)) in
    if String.eqb body "" then
      (if isAbsolute then "/" else if trailingSeparator then "./" else ".")
    else
      let body := if trailingSeparator then body ++ "/" else body in
      if isAbsolute then "/" ++ body else body.

(** [path.join(a, b)] *)
Definition join (a b : string) : string :=
  match List.filter (fun part => negb (String.eqb part "")) [a; b] with
  | [] => "."
  | parts => normalize (Array_join "/" parts)
  end.

(** *** node:fs

    The file system is the text of every file and the set of directories,
    both by path; the root and the process's own directory always exist.
    Permissions and device errors are not modelled. *)
Record FileSystem := {
  files : gmap string string;
  dirs : gset string
}.

(** The directories on the way to [path], outermost first, [path] last. *)
Definition pathPrefixes (path : string) : list string :=
  let isAbsolute := startsWith path "/" in
  let segs := List.filter (fun seg => negb (String.eqb seg "")) (splitSlash path) in
  map (fun k =>
         (if isAbsolute then "/" else "") ++ Array_join "/" (firstn k segs))
      (seq 1 (length segs)).

Definition parentDirectory (path : string) : string :=
  match rev (pathPrefixes path) with
  | _ :: parent :: _ => parent
  | _ => if startsWith path "/" then "/" else "."
  end.

Definition isDirectory (fs : FileSystem) (path : string) : bool :=
  String.eqb path "/" || String.eqb path "." || bool_decide (path ∈ dirs fs).

Definition isFile (fs : FileSystem) (path : string) : bool :=
  bool_decide (is_Some (files fs !! path)).

Definition fsError (code : string) (path : string) : Error :=
  MkError "Error" (code ++ ": " ++ path).

(** [mkdir(path, {recursive: true})] *)
Definition mkdirRecursive (path : string) (fs : FileSystem) : Result unit * FileSystem :=
  if existsb (isFile fs) (pathPrefixes path) then (Throw (fsError "EEXIST" path), fs)
  else (Ok tt, {| files := files fs;
                  dirs := dirs fs ∪ list_to_set (pathPrefixes path) |}).

(** [writeFile(path, content, 'utf8')] *)
Definition writeFile (path content : string) (fs : FileSystem)
  : Result unit * FileSystem :=
  if isDirectory fs path then (Throw (fsError "EISDIR" path), fs)
  else if negb (isDirectory fs (parentDirectory path)) then
    (Throw (fsError "ENOENT" path), fs)
  else (Ok tt, {| files := <[path := content]> (files fs); dirs := dirs fs |}).

(** [readFile(path, 'utf8')] *)
Definition readFile (path : string) (fs : FileSystem) : Result string :=
  match files fs !! path with
  | Some content => Ok content
  | None => Throw (fsError (if isDirectory fs path then "EISDIR" else "ENOENT") path)
  end.


End JS.

(* ===================================================================== *)
(** ** planning/types.ts                                                   *)
(* ===================================================================== *)

Module Types.
Import JS.

Inductive PlanningPhase :=
| initial_understanding
| design
| review
| final_plan
| exit.

Definition PlanningPhase_eqb (a b : PlanningPhase) : bool :=
  match a, b with
  | initial_understanding, initial_understanding
  | design, design
  | review, review
  | final_plan, final_plan
  | exit, exit => true
  | _, _ => false
  end.

(** The string each phase is at run time. *)
Definition PlanningPhase_name (p : PlanningPhase) : string :=
  match p with
  | initial_understanding => "initial_understanding"
  | design => "design"
  | review => "review"
  | final_plan => "final_plan"
  | exit => "exit"
  end.

Definition PLANNING_PHASE_ORDER : list PlanningPhase :=
  [initial_understanding; design; review; final_plan; exit].

Definition PHASE_ALLOWED_TOOLS (p : PlanningPhase) : list string :=
  match p with
  | initial_understanding =>
      ["read_file"; "find_files"; "search_file_contents"; "list_directory"]
  | design =>
      ["read_file"; "find_files"; "search_file_contents"; "list_directory";
       "write_plan_file"]
  | review =>
      ["read_file"; "find_files"; "search_file_contents"; "list_directory"]
  | final_plan =>
      ["read_file"; "find_files"; "search_file_contents"; "list_directory"]
  | exit => []
  end.

Record PhaseProgress := {
  completed : bool;
  steps : list string;
  notes : option string
}.

Record PlanFile := {
  id : string;
  slug : string;
  createdAt : Date;
  updatedAt : Date;
  phase : PlanningPhase;
  userRequest : string;
  clarifications : list (string * value);
  implementationPlan : string;
  filesToModify : list string;
  verificationSteps : list string
}.

(** [Record<PlanningPhase, PhaseProgress>]: one entry per phase. *)
Record PhaseProgressTable := {
  of_initial_understanding : PhaseProgress;
  of_design : PhaseProgress;
  of_review : PhaseProgress;
  of_final_plan : PhaseProgress;
  of_exit : PhaseProgress
}.

Definition progress_get (t : PhaseProgressTable) (p : PlanningPhase) : PhaseProgress :=
  match p with
  | initial_understanding => of_initial_understanding t
  | design => of_design t
  | review => of_review t
  | final_plan => of_final_plan t
  | exit => of_exit t
  end.

Definition progress_set (t : PhaseProgressTable) (p : PlanningPhase) (x : PhaseProgress)
  : PhaseProgressTable :=
  match p with
  | initial_understanding =>
      {| of_initial_understanding := x; of_design := of_design t;
         of_review := of_review t; of_final_plan := of_final_plan t;
         of_exit := of_exit t |}
  | design =>
      {| of_initial_understanding := of_initial_understanding t; of_design := x;
         of_review := of_review t; of_final_plan := of_final_plan t;
         of_exit := of_exit t |}
  | review =>
      {| of_initial_understanding := of_initial_understanding t;
         of_design := of_design t; of_review := x;
         of_final_plan := of_final_plan t; of_exit := of_exit t |}
  | final_plan =>
      {| of_initial_understanding := of_initial_understanding t;
         of_design := of_design t; of_review := of_review t;
         of_final_plan := x; of_exit := of_exit t |}
  | exit =>
      {| of_initial_understanding := of_initial_understanding t;
         of_design := of_design t; of_review := of_review t;
         of_final_plan := of_final_plan t; of_exit := x |}
  end.

Record PlanningState := {
  currentPhase : PlanningPhase;
  planFile : option PlanFile;
  phaseProgress : PhaseProgressTable;
  enabled : bool
}.

Definition fresh_progress : PhaseProgress :=
  {| completed := false; steps := []; notes := None |}.

Definition createInitialPlanningState : PlanningState :=
  {| currentPhase := initial_understanding;
     planFile := None;
     enabled := false;
     phaseProgress :=
       {| of_initial_understanding := fresh_progress;
          of_design := fresh_progress;
          of_review := fresh_progress;
          of_final_plan := fresh_progress;
          of_exit := fresh_progress |} |}.

Definition isToolAllowedInPhase (toolName : string) (phase : PlanningPhase) : bool :=
  let allowedTools := PHASE_ALLOWED_TOOLS phase in
  Array_includes allowedTools toolName.

Definition getNextPhase (currentPhase : PlanningPhase) : option PlanningPhase :=
  let currentIndex := indexOf PlanningPhase_eqb currentPhase PLANNING_PHASE_ORDER in
  if (currentIndex =? -1) || (currentIndex =? Z.of_nat (length PLANNING_PHASE_ORDER) - 1)
  then None
  else at_index PLANNING_PHASE_ORDER (currentIndex + 1).

Definition canTransitionToPhase (from to : PlanningPhase) : bool :=
  let fromIndex := indexOf PlanningPhase_eqb from PLANNING_PHASE_ORDER in
  let toIndex := indexOf PlanningPhase_eqb to PLANNING_PHASE_ORDER in
  toIndex =? fromIndex + 1.

End Types.

(* ===================================================================== *)
(** ** planning/planning-manager.ts                                        *)
(* ===================================================================== *)

Module PlanningManager.
Import JS Types.

(** The notifications the manager emits, in emission order. *)
Inductive Event :=
| phaseChanged (phase : PlanningPhase)
| planCreated (planFile : PlanFile)
| planUpdated (planFile : PlanFile)
| enabledEvent
| disabledEvent.

Definition with_enabled (b : bool) (st : PlanningState) : PlanningState :=
  {| currentPhase := currentPhase st; planFile := planFile st;
     phaseProgress := phaseProgress st; enabled := b |}.

Definition with_currentPhase (p : PlanningPhase) (st : PlanningState) : PlanningState :=
  {| currentPhase := p; planFile := planFile st;
     phaseProgress := phaseProgress st; enabled := enabled st |}.

Definition with_planFile (pf : option PlanFile) (st : PlanningState) : PlanningState :=
  {| currentPhase := currentPhase st; planFile := pf;
     phaseProgress := phaseProgress st; enabled := enabled st |}.

Definition with_phaseProgress (t : PhaseProgressTable) (st : PlanningState) : PlanningState :=
  {| currentPhase := currentPhase st; planFile := planFile st;
     phaseProgress := t; enabled := enabled st |}.

(** [planFile.phase = p; planFile.updatedAt = new Date()] *)
Definition touch_phase (p : PlanningPhase) (now : Z) (pf : PlanFile) : PlanFile :=
  {| id := id pf; slug := slug pf; createdAt := createdAt pf;
     updatedAt := DateOf now; phase := p; userRequest := userRequest pf;
     clarifications := clarifications pf;
     implementationPlan := implementationPlan pf;
     filesToModify := filesToModify pf;
     verificationSteps := verificationSteps pf |}.

(** The constructor. *)
Definition new : PlanningState := createInitialPlanningState.

Definition enable (st : PlanningState) : PlanningState * list Event :=
  if enabled st then (st, [])
  else (with_currentPhase initial_understanding (with_enabled true st),
        [enabledEvent]).

Definition disable (st : PlanningState) : PlanningState * list Event :=
  if negb (enabled st) then (st, [])
  else (createInitialPlanningState, [disabledEvent]).

(** Every operation below takes the manager's state and returns its result,
    the state after it and the notifications it emitted; [now] is what
    [new Date()] reads. *)
Definition transitionToNextPhase (now : Z) (st : PlanningState)
  : bool * PlanningState * list Event :=
  if negb (enabled st) then (false, st, [])
  else
    (* Mark current phase as completed *)
    let cur := progress_get (phaseProgress st) (currentPhase st) in
    let st1 :=
      with_phaseProgress
        (progress_set (phaseProgress st) (currentPhase st)
           {| completed := true; steps := steps cur; notes := notes cur |}) st in
    (* Get next phase *)
    match getNextPhase (currentPhase st1) with
    | None => (false, st1, [])
    | Some nextPhase =>
        let st2 := with_currentPhase nextPhase st1 in
        match planFile st2 with
        | Some pf =>
            let pf' := touch_phase nextPhase now pf in
            (true, with_planFile (Some pf') st2,
             [planUpdated pf'; phaseChanged nextPhase])
        | None => (true, st2, [phaseChanged nextPhase])
        end
    end.

Definition setPhase (now : Z) (phase : PlanningPhase) (st : PlanningState)
  : Result unit * PlanningState * list Event :=
  if negb (enabled st) then (Ok tt, st, [])
  else if negb (canTransitionToPhase (currentPhase st) phase) then
    (Throw (MkError "Error"
       ("Cannot transition from " ++ PlanningPhase_name (currentPhase st)
        ++ " to " ++ PlanningPhase_name phase)), st, [])
  else
    let st1 := with_currentPhase phase st in
    match planFile st1 with
    | Some pf =>
        let pf' := touch_phase phase now pf in
        (Ok tt, with_planFile (Some pf') st1, [planUpdated pf'; phaseChanged phase])
    | None => (Ok tt, st1, [phaseChanged phase])
    end.

Definition isToolAllowed (toolName : string) (st : PlanningState) : bool :=
  if negb (enabled st) then true
  else isToolAllowedInPhase toolName (currentPhase st).

Definition getAllowedTools (st : PlanningState) : list string :=
  if negb (enabled st) then []
  else PHASE_ALLOWED_TOOLS (currentPhase st).

Definition addStep (step : string) (st : PlanningState) : PlanningState :=
  let cur := progress_get (phaseProgress st) (currentPhase st) in
  with_phaseProgress
    (progress_set (phaseProgress st) (currentPhase st)
       {| completed := completed cur; steps := steps cur ++ [step];
          notes := notes cur |}) st.

Definition setNotes (text : string) (st : PlanningState) : PlanningState :=
  let cur := progress_get (phaseProgress st) (currentPhase st) in
  with_phaseProgress
    (progress_set (phaseProgress st) (currentPhase st)
       {| completed := completed cur; steps := steps cur;
          notes := Some text |}) st.

Definition generateSlug (rng : Rng) : string * Rng :=
  let '(bs, rng') := randomBytes 6 rng in (hexOfBytes bs, rng').

Definition createPlanFile (rng : Rng) (now : Z) (userRequest : string)
    (st : PlanningState) : PlanFile * PlanningState * list Event * Rng :=
  let '(slug, rng1) := generateSlug rng in
  let '(uuid, rng2) := randomUUID rng1 in
  let planFile :=
    {| id := uuid;
       slug := slug;
       createdAt := DateOf now;
       updatedAt := DateOf now;
       phase := currentPhase st;
       userRequest := userRequest;
       clarifications := [];
       implementationPlan := "";
       filesToModify := [];
       verificationSteps := [] |} in
  (planFile, with_planFile (Some planFile) st, [planCreated planFile], rng2).

(** [Partial<Omit<PlanFile, 'id' | 'slug' | 'createdAt'>>]: each remaining
    field is present ([Some]) or absent. *)
Record PlanFileUpdates := {
  new_updatedAt : option Date;
  new_phase : option PlanningPhase;
  new_userRequest : option string;
  new_clarifications : option (list (string * value));
  new_implementationPlan : option string;
  new_filesToModify : option (list string);
  new_verificationSteps : option (list string)
}.

(** One field of [{...planFile, ...updates}]. *)
Definition spread {A} (old : A) (upd : option A) : A :=
  match upd with Some x => x | None => old end.

Definition updatePlanFile (now : Z) (updates : PlanFileUpdates) (st : PlanningState)
  : PlanningState * list Event :=
  match planFile st with
  | None => (st, [])
  | Some pf =>
      let pf' :=
        {| id := id pf;
           slug := slug pf;
           createdAt := createdAt pf;
           updatedAt := DateOf now;
           phase := spread (phase pf) (new_phase updates);
           userRequest := spread (userRequest pf) (new_userRequest updates);
           clarifications := spread (clarifications pf) (new_clarifications updates);
           implementationPlan :=
             spread (implementationPlan pf) (new_implementationPlan updates);
           filesToModify := spread (filesToModify pf) (new_filesToModify updates);
           verificationSteps :=
             spread (verificationSteps pf) (new_verificationSteps updates) |} in
      (with_planFile (Some pf') st, [planUpdated pf'])
  end.

Definition clearPlanFile (st : PlanningState) : PlanningState :=
  with_planFile None st.

Definition addClarification (now : Z) (key : string) (x : value) (st : PlanningState)
  : PlanningState * list Event :=
  match planFile st with
  | None => (st, [])
  | Some pf =>
      let pf' :=
        {| id := id pf; slug := slug pf; createdAt := createdAt pf;
           updatedAt := DateOf now; phase := phase pf;
           userRequest := userRequest pf;
           clarifications := assignProperty (clarifications pf) key x;
           implementationPlan := implementationPlan pf;
           filesToModify := filesToModify pf;
           verificationSteps := verificationSteps pf |} in
      (with_planFile (Some pf') st, [planUpdated pf'])
  end.

End PlanningManager.

(* ===================================================================== *)
(** ** planning/questions/types.ts                                         *)
(* ===================================================================== *)

Module Questions.
Import JS.

Inductive QuestionType := ambiguity | decision | confirmation.

Definition QuestionType_eqb (a b : QuestionType) : bool :=
  match a, b with
  | ambiguity, ambiguity | decision, decision | confirmation, confirmation => true
  | _, _ => false
  end.

(** Optional properties are [option]s: [None] is an absent property. *)
Record QuestionOption := {
  opt_id : string;
  opt_text : string;
  opt_description : option string;
  opt_pros : option (list string);
  opt_cons : option (list string);
  opt_followupQuestions : option (list string)
}.

Record Question := {
  id : string;
  type : QuestionType;
  template : string;
  options : option (list QuestionOption);
  followupQuestions : option (list string);
  allowSkip : option bool;
  allowMultiple : option bool
}.

Record QuestionAnswer := {
  questionId : string;
  selectedOptionIds : list string;
  customText : option string;
  timestamp : Date
}.

Record QuestionState := {
  questionQueue : list Question;
  currentQuestion : option Question;
  answeredQuestions : gmap string QuestionAnswer;
  completed : bool
}.

Record AmbiguityTemplate := {
  amb_id : string;
  amb_keywords : list string;
  amb_template : string -> string;
  amb_options : list QuestionOption;
  amb_allowSkip : option bool
}.

Record DecisionTemplate := {
  dec_id : string;
  dec_keywords : list string;
  dec_template : string -> string;
  dec_options : list QuestionOption;
  dec_allowMultiple : bool
}.

Record ConfirmationTemplate := {
  conf_id : string;
  conf_triggers : list string;
  conf_template : list (string * value) -> string;
  confirmLabel : string;
  modifyLabel : string
}.

Record QuestionContext := {
  ctx_userRequest : string;
  projectFiles : list string;
  existingCode : option string;
  previousAnswers : option (gmap string QuestionAnswer)
}.

Record QuestionConfig := {
  maxQuestions : Z;
  cfg_allowSkip : bool;
  confidenceThreshold : Q
}.

Definition DEFAULT_QUESTION_CONFIG : QuestionConfig :=
  {| maxQuestions := 10; cfg_allowSkip := true; confidenceThreshold := (7 # 10)%Q |}.

Definition described (i t d : string) : QuestionOption :=
  {| opt_id := i; opt_text := t; opt_description := Some d;
     opt_pros := None; opt_cons := None; opt_followupQuestions := None |}.

Definition weighed (i t d : string) (p c : list string) : QuestionOption :=
  {| opt_id := i; opt_text := t; opt_description := Some d;
     opt_pros := Some p; opt_cons := Some c; opt_followupQuestions := None |}.

Definition AMBIGUITY_TEMPLATES : list AmbiguityTemplate :=
  [ {| amb_id := "performance-requirements";
       amb_keywords := ["optimize"; "performance"; "fast"; "efficient"];
       amb_template := fun _ =>
         "When you say " ++ dquote ++ "optimize performance" ++ dquote
         ++ ", I need to understand your priorities better." ++ nl ++ nl
         ++ "Which metrics are most important?" ++ nl
         ++ "[1] Response time / latency" ++ nl
         ++ "[2] Memory usage" ++ nl
         ++ "[3] CPU utilization" ++ nl
         ++ "[4] Database query performance" ++ nl
         ++ "[5] Network bandwidth" ++ nl ++ nl
         ++ "What's your target improvement?" ++ nl
         ++ "[1] 2x faster" ++ nl
         ++ "[2] 50% memory reduction" ++ nl
         ++ "[3] Handle 10x more users" ++ nl
         ++ "[4] Other specific target";
       amb_options :=
         [ described "response-time" "Response time" "Focus on latency and speed";
           described "memory" "Memory usage" "Focus on memory efficiency";
           described "cpu" "CPU utilization" "Focus on CPU efficiency";
           described "database" "Database performance" "Focus on query optimization" ];
       amb_allowSkip := Some true |};
    {| amb_id := "error-handling";
       amb_keywords := ["error handling"; "robust"; "reliable"];
       amb_template := fun _ =>
         "How should we handle errors and failures?" ++ nl ++ nl
         ++ "What's your preferred approach?" ++ nl
         ++ "[1] Graceful degradation with fallbacks" ++ nl
         ++ "[2] Fail fast with detailed error messages" ++ nl
         ++ "[3] Retry mechanisms with exponential backoff" ++ nl
         ++ "[4] Circuit breaker pattern" ++ nl ++ nl
         ++ "Should errors be:" ++ nl
         ++ "[1] Logged for debugging" ++ nl
         ++ "[2] Shown to users (sanitized)" ++ nl
         ++ "[3] Sent to monitoring service" ++ nl
         ++ "[4] All of the above";
       amb_options :=
         [ described "graceful" "Graceful degradation"
             "Continue operating with reduced functionality";
           described "fail-fast" "Fail fast" "Stop immediately and show detailed errors";
           described "retry" "Retry mechanisms" "Automatically retry failed operations";
           described "circuit-breaker" "Circuit breaker" "Stop calling failing services" ];
       amb_allowSkip := Some true |} ].

Definition DECISION_TEMPLATES : list DecisionTemplate :=
  [ {| dec_id := "architecture-pattern";
       dec_keywords := ["build"; "create"; "implement"; "architecture"; "structure"];
       dec_template := fun _ =>
         "What architectural pattern would you prefer?" ++ nl ++ nl
         ++ "[1] Monolithic - Single application with all components" ++ nl
         ++ "    Pros: Simple to develop, easier debugging, lower complexity" ++ nl
         ++ "    Cons: Harder to scale, tight coupling" ++ nl ++ nl
         ++ "[2] Microservices - Separate services for different functions" ++ nl
         ++ "    Pros: Scalable, independent deployment, technology diversity" ++ nl
         ++ "    Cons: Network complexity, data consistency challenges" ++ nl ++ nl
         ++ "[3] Modular Monolith - Single app with clear module boundaries" ++ nl
         ++ "    Pros: Balanced approach, future migration path" ++ nl
         ++ "    Cons: Still single deployment unit";
       dec_options :=
         [ weighed "monolithic" "Monolithic" "Simple, single-unit application"
             ["Simple to develop"; "Easier debugging"] ["Harder to scale"];
           weighed "microservices" "Microservices" "Distributed, independent services"
             ["Scalable"; "Independent deployment"]
             ["Network complexity"; "Data consistency"];
           weighed "modular-monolith" "Modular Monolith"
             "Single app with module boundaries"
             ["Balanced approach"; "Future migration path"]
             ["Single deployment unit"] ];
       dec_allowMultiple := false |};
    {| dec_id := "database-choice";
       dec_keywords := ["database"; "storage"; "persistence"; "data"];
       dec_template := fun _ =>
         "What type of database would you prefer?" ++ nl ++ nl
         ++ "[1] PostgreSQL - Relational database with strong consistency" ++ nl
         ++ "    Pros: ACID compliance, complex queries, data integrity" ++ nl
         ++ "    Cons: Vertical scaling, schema migrations" ++ nl ++ nl
         ++ "[2] MongoDB - Document database with flexible schema" ++ nl
         ++ "    Pros: Schema flexibility, horizontal scaling, JSON native" ++ nl
         ++ "    Cons: Eventual consistency, no joins" ++ nl ++ nl
         ++ "[3] SQLite - File-based relational database" ++ nl
         ++ "    Pros: Simple setup, zero configuration, portable" ++ nl
         ++ "    Cons: Single writer, limited scaling";
       dec_options :=
         [ described "postgresql" "PostgreSQL" "Strong consistency, complex queries";
           described "mongodb" "MongoDB" "Flexible schema, horizontal scaling";
           described "sqlite" "SQLite" "Simple, portable, embedded" ];
       dec_allowMultiple := false |};
    {| dec_id := "authentication-method";
       dec_keywords := ["authentication"; "login"; "auth"; "user"; "security"];
       dec_template := fun _ =>
         "What authentication approach should I implement?" ++ nl ++ nl
         ++ "[1] JWT Tokens - Stateless tokens with digital signatures" ++ nl
         ++ "    Pros: Scalable, standard approach, no server state" ++ nl
         ++ "    Cons: Token management, cannot revoke easily" ++ nl ++ nl
         ++ "[2] Session-based - Server-side session storage" ++ nl
         ++ "    Pros: Easy to revoke, secure, simple" ++ nl
         ++ "    Cons: Server memory usage, not scalable" ++ nl ++ nl
         ++ "[3] OAuth2 Integration - Third-party authentication" ++ nl
         ++ "    Pros: No password management, social login, trusted" ++ nl
         ++ "    Cons: External dependency, complex setup";
       dec_options :=
         [ described "jwt" "JWT Tokens" "Stateless, scalable";
           described "session" "Session-based" "Server-controlled, easy to revoke";
           described "oauth2" "OAuth2" "Third-party authentication" ];
       dec_allowMultiple := false |} ].

Definition CONFIRMATION_TEMPLATES : list ConfirmationTemplate :=
  [ {| conf_id := "assumptions-confirmation";
       conf_triggers := ["create"; "build"; "implement"];
       conf_template := fun assumptions =>
         let items :=
           Array_join nl
             (map (fun kv : string * value =>
                     "- " ++ fst kv ++ ": " ++ JSON_stringify (snd kv)) assumptions) in
         "Before I start implementing, I want to confirm my understanding:"
         ++ nl ++ nl ++ "Current Requirements:" ++ nl ++ items ++ nl ++ nl
         ++ "Are these assumptions correct? Should I proceed with this understanding?";
       confirmLabel := "Yes, proceed";
       modifyLabel := "No, let me clarify" |} ].

End Questions.

(* ===================================================================== *)
(** ** planning/questions/question-manager.ts                              *)
(* ===================================================================== *)

Module QuestionManager.
Import JS Questions.

(** The private fields of a [QuestionManager]. *)
Record t := {
  state : QuestionState;
  context : option QuestionContext;
  config : QuestionConfig
}.

Definition emptyState : QuestionState :=
  {| questionQueue := []; currentQuestion := None;
     answeredQuestions := ∅; completed := false |}.

(** [new QuestionManager(context, config)]; [config] is the default
    configuration with the caller's overrides spread over it. *)
Definition new (context : option QuestionContext) (config : QuestionConfig) : t :=
  {| state := emptyState; context := context; config := config |}.

Definition with_state (s : QuestionState) (m : t) : t :=
  {| state := s; context := context m; config := config m |}.

Definition setContext (c : QuestionContext) (m : t) : t :=
  {| state := state m; context := Some c; config := config m |}.

Definition matchesAny (lowerRequest : string) (keywords : list string) : bool :=
  existsb (fun kw => includes lowerRequest kw) keywords.

Definition findMatchingQuestions (userRequest : string) : list Question :=
  let lowerRequest := toLowerCase userRequest in
  (* Check ambiguity templates *)
  let fromAmbiguity :=
    flat_map (fun template =>
      if matchesAny lowerRequest (amb_keywords template) then
        [ {| id := amb_id template;
             type := ambiguity;
             template := amb_template template userRequest;
             options := Some (amb_options template);
             followupQuestions := None;
             allowSkip := Some true;
             allowMultiple := None |} ]
      else []) AMBIGUITY_TEMPLATES in
  (* Check decision templates *)
  let fromDecision :=
    flat_map (fun template =>
      if matchesAny lowerRequest (dec_keywords template) then
        [ {| id := dec_id template;
             type := decision;
             template := dec_template template userRequest;
             options := Some (dec_options template);
             followupQuestions := None;
             allowSkip := Some true;
             allowMultiple := Some (dec_allowMultiple template) |} ]
      else []) DECISION_TEMPLATES in
  (* Always add assumptions confirmation for create/build/implement requests *)
  let confirmKeywords := ["create"; "build"; "implement"; "add"; "develop"] in
  let fromConfirmation :=
    if matchesAny lowerRequest confirmKeywords then
      match find (fun t => String.eqb (conf_id t) "assumptions-confirmation")
              CONFIRMATION_TEMPLATES with
      | Some confirmTemplate =>
          [ {| id := conf_id confirmTemplate;
               type := confirmation;
               template :=
                 conf_template confirmTemplate
                   [("request", VStr userRequest); ("scope", VStr "current task")];
               options := None;
               followupQuestions := None;
               allowSkip := Some false;
               allowMultiple := None |} ]
      | None => []
      end
    else [] in
  fromAmbiguity ++ fromDecision ++ fromConfirmation.

Definition getKeywordCount (questionId userRequest : string) : Z :=
  let lowerRequest := toLowerCase userRequest in
  match find (fun t => String.eqb (amb_id t) questionId) AMBIGUITY_TEMPLATES with
  | Some ambTemplate =>
      Z.of_nat (length (List.filter (fun kw => includes lowerRequest kw)
                          (amb_keywords ambTemplate)))
  | None =>
      match find (fun t => String.eqb (dec_id t) questionId) DECISION_TEMPLATES with
      | Some decTemplate =>
          Z.of_nat (length (List.filter (fun kw => includes lowerRequest kw)
                              (dec_keywords decTemplate)))
      | None => 0
      end
  end.

Definition prioritizeQuestions (questions : list Question) (userRequest : string)
  : list Question :=
  let confirmationQuestions :=
    List.filter (fun q => QuestionType_eqb (type q) confirmation) questions in
  let decisionQuestions :=
    List.filter (fun q => QuestionType_eqb (type q) decision) questions in
  let ambiguityQuestions :=
    List.filter (fun q => QuestionType_eqb (type q) ambiguity) questions in
  let sortByKeywordMatch (a b : Question) : Z :=
    let aKeywords := getKeywordCount (id a) userRequest in
    let bKeywords := getKeywordCount (id b) userRequest in
    bKeywords - aKeywords in
  confirmationQuestions
  ++ Array_sort sortByKeywordMatch decisionQuestions
  ++ Array_sort sortByKeywordMatch ambiguityQuestions.

Definition generateQuestions (userRequest : string) (projectFiles : list string)
    (m : t) : t :=
  let context' :=
    match context m with
    | None =>
        Some {| ctx_userRequest := userRequest; projectFiles := projectFiles;
                existingCode := None; previousAnswers := Some ∅ |}
    | Some c => Some c
    end in
  let matchedQuestions := findMatchingQuestions userRequest in
  let prioritizedQuestions := prioritizeQuestions matchedQuestions userRequest in
  let queue := Array_slice0 prioritizedQuestions (maxQuestions (config m)) in
  let st := state m in
  {| state :=
       match queue with
       | first :: _ =>
           {| questionQueue := queue; currentQuestion := Some first;
              answeredQuestions := answeredQuestions st; completed := completed st |}
       | [] =>
           {| questionQueue := queue; currentQuestion := currentQuestion st;
              answeredQuestions := answeredQuestions st; completed := true |}
       end;
     context := context';
     config := config m |}.

(** The follow-up ids an answer selects; the caller drops them. *)
Definition processFollowUpQuestions (answer : QuestionAnswer) (question : Question)
  : list string :=
  let fromOptions :=
    match options question with
    | Some opts =>
        flat_map (fun optionId =>
          match find (fun opt => String.eqb (opt_id opt) optionId) opts with
          | Some opt =>
              match opt_followupQuestions opt with Some l => l | None => [] end
          | None => []
          end) (selectedOptionIds answer)
    | None => []
    end in
  fromOptions ++ match followupQuestions question with Some l => l | None => [] end.

Definition moveToNextQuestion (st : QuestionState) : QuestionState :=
  let currentIndex :=
    findIndex (fun q =>
      match currentQuestion st with
      | Some c => String.eqb (id q) (id c)
      | None => false
      end) (questionQueue st) in
  if (0 <=? currentIndex) && (currentIndex <? Z.of_nat (length (questionQueue st)) - 1)
  then
    {| questionQueue := questionQueue st;
       currentQuestion := at_index (questionQueue st) (currentIndex + 1);
       answeredQuestions := answeredQuestions st;
       completed := completed st |}
  else
    {| questionQueue := questionQueue st;
       currentQuestion := None;
       answeredQuestions := answeredQuestions st;
       completed := true |}.

Definition recordAnswer (a : QuestionAnswer) (st : QuestionState) : QuestionState :=
  {| questionQueue := questionQueue st;
     currentQuestion := currentQuestion st;
     answeredQuestions := <[questionId a := a]> (answeredQuestions st);
     completed := completed st |}.

(** A throwing call returns the manager as it was when the error was
    thrown. *)
Definition submitAnswer (answer : QuestionAnswer) (m : t) : Result unit * t :=
  match currentQuestion (state m) with
  | None => (Throw (MkError "Error" "No current question to answer"), m)
  | Some current =>
      if negb (String.eqb (questionId answer) (id current)) then
        (Throw (MkError "Error"
           ("Answer question ID " ++ questionId answer
            ++ " does not match current question " ++ id current)), m)
      else
        let st1 := recordAnswer answer (state m) in
        let _ := processFollowUpQuestions answer current in
        (Ok tt, with_state (moveToNextQuestion st1) m)
  end.

Definition skipCurrentQuestion (now : Z) (m : t) : Result unit * t :=
  match currentQuestion (state m) with
  | None => (Throw (MkError "Error" "No current question to skip"), m)
  | Some current =>
      match allowSkip current with
      | Some true =>
          let st1 :=
            recordAnswer
              {| questionId := id current; selectedOptionIds := [];
                 customText := None; timestamp := DateOf now |} (state m) in
          (Ok tt, with_state (moveToNextQuestion st1) m)
      | _ => (Throw (MkError "Error" "This question cannot be skipped"), m)
      end
  end.

Definition getAnswer (questionId : string) (m : t) : option QuestionAnswer :=
  answeredQuestions (state m) !! questionId.

Definition reset (m : t) : t :=
  {| state := emptyState; context := None; config := config m |}.

Definition isCompleted (m : t) : bool := completed (state m).

Definition totalQuestions (m : t) : Z := Z.of_nat (length (questionQueue (state m))).

Definition answeredCount (m : t) : Z := Z.of_nat (size (answeredQuestions (state m))).

End QuestionManager.

(* ===================================================================== *)
(** ** planning/plan-file.ts                                               *)
(* ===================================================================== *)

Module PlanFileStore.
Import JS Types.

Definition PLAN_DIR : string := ".nanocoder/plans".
Definition PLAN_MD_EXT : string := ".plan.md".
Definition PLAN_JSON_EXT : string := ".plan.json".

(** [home] is what [homedir()] returns. *)
Definition isValidProjectDirectory (home cwd : string) : bool :=
  let normalizedCwd := backslashesToSlashes cwd in
  let normalizedHome := backslashesToSlashes home in
  (* Cannot be home directory itself *)
  if String.eqb normalizedCwd normalizedHome then false
  (* Cannot be a subdirectory of home *)
  else if startsWith normalizedCwd (normalizedHome ++ "/") then false
  else true.

Definition getPlanDirectory (cwd : string) : string := join cwd PLAN_DIR.

Definition invalidDirectoryError : Error :=
  MkError "Error"
    "Plan files can only be created in project directories, not in home directory".

Definition ensurePlanDirectory (home cwd : string) (fs : FileSystem)
  : Result unit * FileSystem :=
  if negb (isValidProjectDirectory home cwd) then (Throw invalidDirectoryError, fs)
  else mkdirRecursive (getPlanDirectory cwd) fs.

Definition getPlanMdPath (cwd slug : string) : string :=
  join (getPlanDirectory cwd) (slug ++ PLAN_MD_EXT).

Definition getPlanJsonPath (cwd slug : string) : string :=
  join (getPlanDirectory cwd) (slug ++ PLAN_JSON_EXT).

(** The properties of the object a [PlanFile] is at run time, in the order
    of the interface. *)
Definition PlanFile_properties (planFile : PlanFile) : list (string * value) :=
  [ ("id", VStr (id planFile));
    ("slug", VStr (slug planFile));
    ("createdAt", VDate (createdAt planFile));
    ("updatedAt", VDate (updatedAt planFile));
    ("phase", VStr (PlanningPhase_name (phase planFile)));
    ("userRequest", VStr (userRequest planFile));
    ("clarifications", VObj (clarifications planFile));
    ("implementationPlan", VStr (implementationPlan planFile));
    ("filesToModify", VArr (map VStr (filesToModify planFile)));
    ("verificationSteps", VArr (map VStr (verificationSteps planFile))) ].

Definition PlanFile_toValue (planFile : PlanFile) : value :=
  VObj (PlanFile_properties planFile).

(** [x || fallback] on strings. *)
Definition orElse (x fallback : string) : string :=
  if String.eqb x "" then fallback else x.

Fixpoint numbered (i : Z) (l : list string) : list string :=
  match l with
  | [] => []
  | step :: l' => (numberToString i ++ ". " ++ step) :: numbered (i + 1) l'
  end.

Definition generatePlanMarkdown (planFile : PlanFile) : Result string :=
  let clarificationLines :=
    Array_join nl
      (map (fun kv : string * value =>
              "**" ++ fst kv ++ "**: " ++ JSON_stringify (snd kv))
         (clarifications planFile)) in
  let filesList :=
    Array_join nl (map (fun file => "- `" ++ file ++ "`") (filesToModify planFile)) in
  let verification := Array_join nl (numbered 1 (verificationSteps planFile)) in
  match toISOString (createdAt planFile) with
  | Throw e => Throw e
  | Ok created =>
      match toISOString (updatedAt planFile) with
      | Throw e => Throw e
      | Ok updated =>
          Ok ("# Plan: " ++ slug planFile ++ nl
              ++ nl
              ++ "**Created:** " ++ created ++ nl
              ++ "**Updated:** " ++ updated ++ nl
              ++ "**Phase:** " ++ PlanningPhase_name (phase planFile) ++ nl
              ++ nl
              ++ "## User Request" ++ nl
              ++ userRequest planFile ++ nl
              ++ nl
              ++ "## Clarifications" ++ nl
              ++ orElse clarificationLines "None" ++ nl
              ++ nl
              ++ "## Implementation Plan" ++ nl
              ++ orElse (implementationPlan planFile) "To be determined..." ++ nl
              ++ nl
              ++ "## Files to Modify" ++ nl
              ++ orElse filesList "None identified yet" ++ nl
              ++ nl
              ++ "## Verification" ++ nl
              ++ orElse verification "To be determined..." ++ nl)
      end
  end.

(** [markdownContent] is [None] when the argument is left out. *)
Definition savePlanFile (home cwd : string) (planFile : PlanFile)
    (markdownContent : option string) (fs : FileSystem) : Result unit * FileSystem :=
  match ensurePlanDirectory home cwd fs with
  | (Throw e, fs1) => (Throw e, fs1)
  | (Ok _, fs1) =>
      let mdPath := getPlanMdPath cwd (slug planFile) in
      let jsonPath := getPlanJsonPath cwd (slug planFile) in
      (* Save markdown content *)
      let content :=
        match markdownContent with
        | Some md => if String.eqb md "" then generatePlanMarkdown planFile else Ok md
        | None => generatePlanMarkdown planFile
        end in
      match content with
      | Throw e => (Throw e, fs1)
      | Ok content =>
          match writeFile mdPath content fs1 with
          | (Throw e, fs2) => (Throw e, fs2)
          | (Ok _, fs2) =>
              (* Save JSON metadata *)
              writeFile jsonPath (JSON_stringify_2 (PlanFile_toValue planFile)) fs2
          end
      end
  end.

(** [{...data}]: the own enumerable properties of a parsed value; [None]
    where reading a property of [data] throws. *)
Definition spreadProperties (data : value) : option (list (string * value)) :=
  match data with
  | VNull => None
  | VObj props => Some props
  | VArr items =>
      Some (map (fun iv : nat * value => (numberToString (Z.of_nat (fst iv)), snd iv))
              (combine (seq 0 (length items)) items))
  | VStr s =>
      Some (map (fun ic : nat * ascii =>
                   (numberToString (Z.of_nat (fst ic)), VStr (String (snd ic) "")))
              (combine (seq 0 (String.length s)) (list_ascii_of_string s)))
  | _ => Some []
  end.

Definition readProperty (data : value) (key : string) : option value :=
  match data with
  | VObj props => getProperty props key
  | _ => None
  end.

(** The loaded plan is the object read from the file, with its two dates
    revived; [None] is [null]. *)
Definition loadPlanFile (cwd slug : string) (fs : FileSystem)
  : option (list (string * value)) :=
  let jsonPath := getPlanJsonPath cwd slug in
  match readFile jsonPath fs with
  | Throw _ => None
  | Ok content =>
      match JSON_parse content with
      | Throw _ => None
      | Ok data =>
          match spreadProperties data with
          | None => None
          | Some props =>
              Some (setProperty
                      (setProperty props "createdAt"
                         (VDate (Date_new (readProperty data "createdAt"))))
                      "updatedAt" (VDate (Date_new (readProperty data "updatedAt"))))
          end
      end
  end.

Definition loadPlanMarkdown (cwd slug : string) (fs : FileSystem) : option string :=
  match readFile (getPlanMdPath cwd slug) fs with
  | Ok content => Some content
  | Throw _ => None
  end.


Definition updatePlanMarkdown (now : Z) (cwd slug markdownContent : string)
    (fs : FileSystem) : Result unit * FileSystem :=
  match writeFile (getPlanMdPath cwd slug) markdownContent fs with
  | (Throw e, fs1) => (Throw e, fs1)
  | (Ok _, fs1) =>
      match loadPlanFile cwd slug fs1 with
      | Some planFile =>
          let planFile' := setProperty planFile "updatedAt" (VDate (DateOf now)) in
          writeFile (getPlanJsonPath cwd slug) (JSON_stringify_2 (VObj planFile')) fs1
      | None => (Ok tt, fs1)
      end
  end.

End PlanFileStore.

(* ===================================================================== *)
(** ** planning/plan-manager.ts                                            *)
(* ===================================================================== *)

Module PlanManager.
Import JS Types PlanFileStore.

Definition generateSlug (rng : Rng) : string * Rng :=
  let '(bs, rng') := randomBytes 6 rng in (hexOfBytes bs, rng').

(** [cwd] is the directory the manager was constructed with.  The result is
    the plan returned, or the error thrown. *)
Definition createPlan (home cwd : string) (rng : Rng) (now : Z) (userRequest : string)
    (fs : FileSystem) : Result PlanFile * FileSystem * Rng :=
  if negb (isValidProjectDirectory home cwd) then
    (Throw invalidDirectoryError, fs, rng)
  else
    let '(slug, rng1) := generateSlug rng in
    let planFile :=
      {| id := slug;
         slug := slug;
         userRequest := userRequest;
         phase := initial_understanding;
         clarifications := [];
         implementationPlan := "";
         filesToModify := [];
         verificationSteps := [];
         createdAt := DateOf now;
         updatedAt := DateOf now |} in
    match savePlanFile home cwd planFile None fs with
    | (Throw e, fs1) => (Throw e, fs1, rng1)
    | (Ok _, fs1) => (Ok planFile, fs1, rng1)
    end.

Definition with_updatedAt (d : Date) (pf : PlanFile) : PlanFile :=
  {| id := id pf; slug := slug pf; createdAt := createdAt pf; updatedAt := d;
     phase := phase pf; userRequest := userRequest pf;
     clarifications := clarifications pf;
     implementationPlan := implementationPlan pf;
     filesToModify := filesToModify pf;
     verificationSteps := verificationSteps pf |}.

Definition updatePlan (home cwd : string) (now : Z) (planFile : PlanFile)
    (fs : FileSystem) : Result unit * FileSystem :=
  savePlanFile home cwd (with_updatedAt (DateOf now) planFile) None fs.

Definition savePlanWithMarkdown (home cwd : string) (now : Z) (planFile : PlanFile)
    (markdownContent : string) (fs : FileSystem) : Result unit * FileSystem :=
  savePlanFile home cwd (with_updatedAt (DateOf now) planFile) (Some markdownContent) fs.

Definition loadPlan (cwd slug : string) (fs : FileSystem)
  : option (list (string * value)) :=
  loadPlanFile cwd slug fs.

End PlanManager.

(* ===================================================================== *)
(** ** Vocabulary of the statements                                        *)
(* ===================================================================== *)

Module Scenario.
Import JS Types.

(** A planning manager driven to the terminal phase: enabled, then moved
    forward four times. *)
Definition advance (now : Z) (st : PlanningState) : PlanningState :=
  snd (fst (PlanningManager.transitionToNextPhase now st)).

Definition atExit : PlanningState :=
  advance 4 (advance 3 (advance 2 (advance 1 (fst (PlanningManager.enable PlanningManager.new))))).

(** The progress table with the terminal phase marked completed. *)
Definition exitCompleted (t : PhaseProgressTable) : PhaseProgressTable :=
  progress_set t exit
    {| completed := true; steps := steps (of_exit t); notes := notes (of_exit t) |}.

(** A random source for the examples. *)
Definition sampleRng : Rng := fun n => ascii_of_nat (n * 37 + 11).

(** The question managers a session can reach: a new manager, then any
    sequence of calls. *)
Inductive reachable : QuestionManager.t -> Prop :=
| reach_new context config : reachable (QuestionManager.new context config)
| reach_setContext c m : reachable m -> reachable (QuestionManager.setContext c m)
| reach_generate userRequest projectFiles m :
    reachable m -> reachable (QuestionManager.generateQuestions userRequest projectFiles m)
| reach_submit answer m :
    reachable m -> reachable (snd (QuestionManager.submitAnswer answer m))
| reach_skip now m :
    reachable m -> reachable (snd (QuestionManager.skipCurrentQuestion now m))
| reach_reset m : reachable m -> reachable (QuestionManager.reset m).

(** How many of the keywords occur in the lower-cased request. *)
Definition matchedKeywords (userRequest : string) (keywords : list string) : Z :=
  Z.of_nat (length (List.filter (fun kw => includes (toLowerCase userRequest) kw) keywords)).

(** The place of a question's template in the catalog. *)
Definition catalogPosition (q : Questions.Question) : Z :=
  indexOf String.eqb (Questions.id q)
    (map Questions.amb_id Questions.AMBIGUITY_TEMPLATES
     ++ map Questions.dec_id Questions.DECISION_TEMPLATES).

(** [a] is ranked before [b]: more matched keywords, or as many and earlier
    in the catalog. *)
Definition ranksBefore (userRequest : string) (a b : Questions.Question) : Prop :=
  let count q := QuestionManager.getKeywordCount (Questions.id q) userRequest in
  count b < count a \/ (count a = count b /\ catalogPosition a < catalogPosition b).

Definition ofType (ty : Questions.QuestionType) (q : Questions.Question) : bool :=
  Questions.QuestionType_eqb (Questions.type q) ty.


(** The directories an absolute path leads through, from the root: empty
    segments and [.] dropped, [..] resolved. *)
Definition directorySegments (path : string) : list string :=
  normalizeSegments false (splitSlash path).

Fixpoint segmentsPrefix (dir path : list string) : bool :=
  match dir, path with
  | [], _ => true
  | d :: dir', p :: path' => String.eqb d p && segmentsPrefix dir' path'
  | _ :: _, [] => false
  end.

(** The claim's words: the directory [cwd] is the home directory or a
    subdirectory of it, for absolute paths on a file system without links. *)
Definition isHomeOrBelow (home cwd : string) : bool :=
  startsWith home "/" && startsWith cwd "/"
  && segmentsPrefix (directorySegments home) (directorySegments cwd).

(** An absolute path in its plain spelling: normalized, with no separator at
    its end and no backslash. *)
Definition plainAbsolute (path : string) : bool :=
  startsWith path "/" && String.eqb (normalize path) path
  && negb (endsWithSlash path) && String.eqb (backslashesToSlashes path) path.

Definition emptyFileSystem : FileSystem := {| files := ∅; dirs := ∅ |}.

(** A project holding one plan whose JSON sidecar is not JSON. *)
Definition corruptSidecar : FileSystem :=
  {| files := {[ "/work/shop/.nanocoder/plans/0b30557a9fc4.plan.json" := "{ not json" ]};
     dirs := list_to_set (pathPrefixes "/work/shop/.nanocoder/plans") |}.

(** The three parts of [findMatchingQuestions], one per catalog. *)
Definition ambiguityMatches (userRequest : string) : list Questions.Question :=
  flat_map (fun template =>
    if QuestionManager.matchesAny (toLowerCase userRequest) (Questions.amb_keywords template)
    then [ {| Questions.id := Questions.amb_id template;
              Questions.type := Questions.ambiguity;
              Questions.template := Questions.amb_template template userRequest;
              Questions.options := Some (Questions.amb_options template);
              Questions.followupQuestions := None;
              Questions.allowSkip := Some true;
              Questions.allowMultiple := None |} ]
    else []) Questions.AMBIGUITY_TEMPLATES.

Definition decisionMatches (userRequest : string) : list Questions.Question :=
  flat_map (fun template =>
    if QuestionManager.matchesAny (toLowerCase userRequest) (Questions.dec_keywords template)
    then [ {| Questions.id := Questions.dec_id template;
              Questions.type := Questions.decision;
              Questions.template := Questions.dec_template template userRequest;
              Questions.options := Some (Questions.dec_options template);
              Questions.followupQuestions := None;
              Questions.allowSkip := Some true;
              Questions.allowMultiple := Some (Questions.dec_allowMultiple template) |} ]
    else []) Questions.DECISION_TEMPLATES.

Definition confirmationMatches (userRequest : string) : list Questions.Question :=
  skipn (length (ambiguityMatches userRequest ++ decisionMatches userRequest)%list)
    (QuestionManager.findMatchingQuestions userRequest).

(** What every question built from a template looks like. *)
Definition wellFormedSkip (q : Questions.Question) : Prop :=
  (Questions.type q = Questions.ambiguity \/ Questions.type q = Questions.decision ->
   Questions.allowSkip q = Some true)
  /\ (Questions.type q = Questions.confirmation -> Questions.allowSkip q = Some false)
  /\ (Questions.id q = "assumptions-confirmation" ->
      Questions.type q = Questions.confirmation).

(** Every queued question and the current question were built from a
    template. *)
Definition fromTemplates (m : QuestionManager.t) : Prop :=
  Forall wellFormedSkip (Questions.questionQueue (QuestionManager.state m))
  /\ (forall q, Questions.currentQuestion (QuestionManager.state m) = Some q ->
        wellFormedSkip q).

(** *** JSON texts *)

(** What [JSON.stringify] makes of a value: a date becomes its ISO text, an
    invalid date [null]. *)
Fixpoint jsonView (v : value) : value :=
  match v with
  | VDate (DateOf t) => VStr (isoOfTime t)
  | VDate InvalidDate => VNull
  | VArr items => VArr (map jsonView items)
  | VObj props => VObj (map (fun kv : string * value => (fst kv, jsonView (snd kv))) props)
  | _ => v
  end.

Fixpoint distinct (keys : list string) : bool :=
  match keys with
  | [] => true
  | k :: keys' => negb (Array_includes keys' k) && distinct keys'
  end.

(** No object in the value has two properties of the same name. *)
Fixpoint distinctKeys (v : value) : bool :=
  match v with
  | VArr items => forallb distinctKeys items
  | VObj props =>
      distinct (map fst props)
      && forallb (fun kv : string * value => distinctKeys (snd kv)) props
  | _ => true
  end.

(** JSON data: no date inside, and no repeated property name. *)
Fixpoint isJSONData (v : value) : bool :=
  match v with
  | VDate _ => false
  | VArr items => forallb isJSONData items
  | VObj props =>
      distinct (map fst props)
      && forallb (fun kv : string * value => isJSONData (snd kv)) props
  | _ => true
  end.

(** The parsing steps a value takes. *)
Fixpoint weight (v : value) : nat :=
  match v with
  | VArr items => S (fold_right (fun x acc => S (weight x + acc)) O items)
  | VObj props =>
      S (fold_right (fun (kv : string * value) acc => S (weight (snd kv) + acc)) O props)
  | _ => 1
  end.

Fixpoint blank (s : string) : bool :=
  match s with
  | EmptyString => true
  | String c s' => isWhitespace c && blank s'
  end.

(** The text after a number does not continue the number. *)
Definition endsNumber (rest : string) : bool :=
  match rest with
  | EmptyString => true
  | String c _ =>
      match digitValue c with
      | Some _ => false
      | None => negb (startsNumberTail rest)
      end
  end.

Definition consChar (c : ascii) (r : option (string * string)) : option (string * string) :=
  match r with
  | Some (str, rest) => Some (String c str, rest)
  | None => None
  end.

Definition numberStarts : list ascii :=
  ["-"; "0"; "1"; "2"; "3"; "4"; "5"; "6"; "7"; "8"; "9"]%char.

Definition gap2 : string := "  ".

(** What is proved of each value, by induction. *)
Definition readsBack (v : value) : Prop :=
  distinctKeys v = true ->
  forall fuel ws indent rest,
    blank ws = true -> blank indent = true -> endsNumber rest = true ->
    (weight v <= fuel)%nat ->
    parseValue fuel (ws ++ serializeJSON gap2 indent v ++ rest) = Some (jsonView v, rest).

Definition elementsWeight (items : list value) : nat :=
  fold_right (fun x acc => S (weight x + acc)) O items.

Definition memberText (inner : string) (kv : string * value) : string :=
  quoteJSONString (fst kv) ++ String ":" (String " " (serializeJSON gap2 inner (snd kv))).

Definition membersWeight (props : list (string * value)) : nat :=
  fold_right (fun (kv : string * value) acc => S (weight (snd kv) + acc)) O props.

Definition memberView (kv : string * value) : string * value :=
  (fst kv, jsonView (snd kv)).

Definition textsLength (texts : list string) : nat :=
  fold_right (fun t acc => S (String.length t + acc)) O texts.


(** A date [toISOString] can write. *)
Definition validDate (d : Date) : bool :=
  match d with
  | DateOf t => Z.abs t <=? maxTime
  | InvalidDate => false
  end.

(** A plan whose field values JSON represents: two valid dates, and
    clarifications that are JSON data. *)
Definition jsonRepresentable (planFile : PlanFile) : bool :=
  validDate (createdAt planFile) && validDate (updatedAt planFile)
  && isJSONData (VObj (clarifications planFile)).

(** A plan with clarifications of every JSON kind. *)
Definition samplePlan : PlanFile :=
  {| id := "0b30557a9fc4";
     slug := "0b30557a9fc4";
     createdAt := DateOf 1700000000123;
     updatedAt := DateOf 1700000360000;
     phase := design;
     userRequest := "build a " ++ dquote ++ "login" ++ dquote ++ " page" ++ nl ++ "fast";
     clarifications :=
       [ ("database-choice", VStr "postgresql");
         ("limits", VObj [("users", VNum 10000); ("budget", VNum (-5)); ("none", VNull)]);
         ("tags", VArr [VStr "a\b"; VBool true; VArr []; VObj []]) ];
     implementationPlan := "1. schema" ++ nl ++ "2. routes";
     filesToModify := ["src/auth.ts"; "src/db.ts"];
     verificationSteps := ["run the tests"] |}.

End Scenario.

(* ===================================================================== *)
(** ** Further platform built-ins                                          *)
(* ===================================================================== *)

Module Platform.
Import JS.

(** [s.slice(n)] for [n] within the string. *)
Fixpoint dropChars (n : nat) (s : string) : string :=
  match n, s with
  | S n', String _ s' => dropChars n' s'
  | _, _ => s
  end.

(** [s.endsWith(suffix)] *)
Definition endsWith (s suffix : string) : bool :=
  (String.length suffix <=? String.length s)%nat
  && String.eqb (dropChars (String.length s - String.length suffix) s) suffix.

(** [s.replace(pattern, '')] with a string for pattern: the first occurrence
    of [pattern] is taken out. *)
Fixpoint removeFirst (pattern s : string) : string :=
  if String.prefix pattern s then dropChars (String.length pattern) s
  else match s with
       | EmptyString => EmptyString
       | String c s' => String c (removeFirst pattern s')
       end.

(** [d.getTime()]: [None] is NaN. *)
Definition getTime (d : Date) : option Z :=
  match d with
  | DateOf t => Some t
  | InvalidDate => None
  end.

Fixpoint noSlash (s : string) : bool :=
  match s with
  | EmptyString => true
  | String c s' => negb (Ascii.eqb c "/"%char) && noSlash s'
  end.

(** A path segment that [normalize] keeps: a name, not empty, [.] or [..]. *)
Definition regularSegment (seg : string) : bool :=
  negb (String.eqb seg "" || String.eqb seg "." || String.eqb seg "..") && noSlash seg.

(** [name] is a file or a directory right inside [dir]. *)
Definition isEntry (fs : FileSystem) (dir name : string) : Prop :=
  regularSegment name = true
  /\ (isFile fs (join dir name) = true \/ join dir name ∈ dirs fs).

(** [readdir(dir)]: the names inside the directory, each once, in the order
    the system lists them, which is not specified; an error when [dir] is
    not a directory. *)
Inductive readdir (dir : string) (fs : FileSystem) : Result (list string) -> Prop :=
| readdir_names names :
    isDirectory fs dir = true ->
    List.NoDup names ->
    (forall name, In name names <-> isEntry fs dir name) ->
    readdir dir fs (Ok names)
| readdir_error :
    isDirectory fs dir = false ->
    readdir dir fs
      (Throw (fsError (if isFile fs dir then "ENOTDIR" else "ENOENT") dir)).

End Platform.

(* ===================================================================== *)
(** ** planning/plan-file.ts: the listing                                  *)
(* ===================================================================== *)

Module PlanListing.
Import JS Platform Types PlanFileStore.

(** [planFile.createdAt] of a loaded plan; [loadPlanFile] always puts a
    [Date] there. *)
Definition createdAtOf (planFile : list (string * value)) : Date :=
  match getProperty planFile "createdAt" with
  | Some (VDate d) => d
  | _ => InvalidDate
  end.

(** The comparator of the listing; a NaN difference counts as 0. *)
Definition byNewest (a b : string * list (string * value)) : Z :=
  match getTime (createdAtOf (snd b)), getTime (createdAtOf (snd a)) with
  | Some tb, Some ta => tb - ta
  | _, _ => 0
  end.

(** [listing] is what [readdir(planDir)] gave. *)
Definition listPlanFiles (cwd : string) (listing : Result (list string))
    (fs : FileSystem) : list (string * list (string * value)) :=
  match listing with
  | Throw _ => []
  | Ok entries =>
      (* Filter for .plan.json files and extract slugs *)
      let jsonFiles := List.filter (fun entry => endsWith entry PLAN_JSON_EXT) entries in
      let slugs := map (fun file => removeFirst PLAN_JSON_EXT file) jsonFiles in
      (* Load metadata for each plan *)
      let plans :=
        flat_map (fun slug =>
                    match loadPlanFile cwd slug fs with
                    | Some planFile => [(slug, planFile)]
                    | None => []
                    end) slugs in
      (* Sort by creation date (newest first) *)
      Array_sort byNewest plans
  end.

End PlanListing.

Module QuestionCounters.
Import JS Questions QuestionManager.

Definition remainingCount (m : QuestionManager.t) : Z :=
  Z.of_nat (length (questionQueue (state m)))
  - Z.of_nat (size (answeredQuestions (state m))).

End QuestionCounters.

Module PlanQueries.
Import JS Types PlanFileStore PlanManager.

Definition loadMarkdown (cwd slug : string) (fs : FileSystem) : option string :=
  loadPlanMarkdown cwd slug fs.

Definition loadPlanWithMarkdown (cwd slug : string) (fs : FileSystem)
  : option (list (string * value) * string) :=
  match loadPlanFile cwd slug fs with
  | None => None
  | Some planFile =>
      let markdown := loadPlanMarkdown cwd slug fs in
      Some (planFile, match markdown with Some md => md | None => "" end)
  end.

Definition listPlans (cwd : string) (listing : Result (list string)) (fs : FileSystem)
  : list (string * list (string * value)) :=
  PlanListing.listPlanFiles cwd listing fs.

(** A value is truthy. *)
Definition truthy (v : value) : bool :=
  match v with
  | VNull | VBool false | VStr EmptyString => false
  | VNum n => negb (n =? 0)
  | _ => true
  end.

(** [Object.entries(x)]: [None] where it throws, on [undefined] and
    [null]. *)
Definition Object_entries (x : option value) : option (list (string * value)) :=
  match x with
  | None | Some VNull => None
  | Some (VObj props) => Some props
  | Some (VArr items) =>
      Some (map (fun iv : nat * value => (numberToString (Z.of_nat (fst iv)), snd iv))
              (combine (seq 0 (length items)) items))
  | Some (VStr s) =>
      Some (map (fun ic : nat * ascii =>
                   (numberToString (Z.of_nat (fst ic)), VStr (String (snd ic) "")))
              (combine (seq 0 (String.length s)) (list_ascii_of_string s)))
  | Some _ => Some []
  end.

(** [x.toLowerCase()] on a property read: a [TypeError] unless [x] is a
    string. *)
Definition toLowerCaseOf (what : string) (x : option value) : Result string :=
  match x with
  | Some (VStr s) => Ok (toLowerCase s)
  | None =>
      Throw (MkError "TypeError"
               "Cannot read properties of undefined (reading 'toLowerCase')")
  | Some VNull =>
      Throw (MkError "TypeError" "Cannot read properties of null (reading 'toLowerCase')")
  | Some _ => Throw (MkError "TypeError" (what ++ ".toLowerCase is not a function"))
  end.

(** The test [searchPlans] filters with: does the plan hold the lower-cased
    keyword. *)
Definition holdsKeyword (lowerKeyword : string) (planFile : list (string * value))
  : Result bool :=
  (* in the user request *)
  match toLowerCaseOf "planFile.userRequest" (getProperty planFile "userRequest") with
  | Throw e => Throw e
  | Ok userRequest =>
      if includes userRequest lowerKeyword then Ok true
      else
        (* in the implementation plan *)
        let implementationPlan := getProperty planFile "implementationPlan" in
        let inPlan :=
          if match implementationPlan with Some v => truthy v | None => false end
          then
            match toLowerCaseOf "planFile.implementationPlan" implementationPlan with
            | Throw e => Throw e
            | Ok text => Ok (includes text lowerKeyword)
            end
          else Ok false in
        match inPlan with
        | Throw e => Throw e
        | Ok true => Ok true
        | Ok false =>
            (* in the clarifications *)
            match Object_entries (getProperty planFile "clarifications") with
            | None =>
                Throw (MkError "TypeError"
                         "Cannot convert undefined or null to object")
            | Some entries =>
                Ok (existsb (fun kv : string * value =>
                               includes (toLowerCase (fst kv)) lowerKeyword
                               || includes (toLowerCase (toStringValue (snd kv)))
                                    lowerKeyword) entries)
            end
        end
  end.

(** [plans.filter(p)] with a test that can throw: the first throw ends
    it. *)
Fixpoint filterThrowing {A} (p : A -> Result bool) (l : list A) : Result (list A) :=
  match l with
  | [] => Ok []
  | x :: l' =>
      match p x with
      | Throw e => Throw e
      | Ok keep =>
          match filterThrowing p l' with
          | Throw e => Throw e
          | Ok kept => Ok (if keep then x :: kept else kept)
          end
      end
  end.

Definition searchPlans (cwd keyword : string) (listing : Result (list string))
    (fs : FileSystem) : Result (list (string * list (string * value))) :=
  let plans := listPlans cwd listing fs in
  let lowerKeyword := toLowerCase keyword in
  filterThrowing (fun plan => holdsKeyword lowerKeyword (snd plan)) plans.

End PlanQueries.

(* ===================================================================== *)
(** ** mode-state: the development mode and the planning manager           *)
(* ===================================================================== *)

Module ModeState.
Import JS Types.

(** The module's variable [currentMode] and the planning manager
    [getPlanningManager()] returns.  [DevelopmentMode] is a union of string
    literals; the code compares it with ['plan'] only. *)
Record t := {
  currentMode : string;
  planningManager : PlanningState
}.

(** The module as loaded: mode ['normal'], and the manager as constructed on
    its first use. *)
Definition initial : t :=
  {| currentMode := "normal"; planningManager := PlanningManager.new |}.

Definition getCurrentMode (s : t) : string := currentMode s.

Definition setCurrentMode (mode : string) (s : t) : t * list PlanningManager.Event :=
  (* Sync planning state based on mode *)
  let '(manager, events) :=
    if String.eqb mode "plan" then PlanningManager.enable (planningManager s)
    else PlanningManager.disable (planningManager s) in
  ({| currentMode := mode; planningManager := manager |}, events).

Definition isToolAllowed (toolName : string) (s : t) : bool :=
  let mode := getCurrentMode s in
  (* When planning mode is enabled, check phase-specific restrictions *)
  if String.eqb mode "plan" && enabled (planningManager s)
  then PlanningManager.isToolAllowed toolName (planningManager s)
  else true.

Definition getCurrentPlanningPhase (s : t) : option PlanningPhase :=
  if enabled (planningManager s) then Some (currentPhase (planningManager s)) else None.

End ModeState.

(* ===================================================================== *)
(** ** Vocabulary of the further statements                                *)
(* ===================================================================== *)

Module Sessions.
Import JS Platform Types.

(** The place of a phase in [PLANNING_PHASE_ORDER]. *)
Definition phaseIndex (p : PlanningPhase) : Z :=
  indexOf PlanningPhase_eqb p PLANNING_PHASE_ORDER.

(** The progress table with the current phase marked completed. *)
Definition markCompleted (st : PlanningState) : PhaseProgressTable :=
  progress_set (phaseProgress st) (currentPhase st)
    {| completed := true;
       steps := steps (progress_get (phaseProgress st) (currentPhase st));
       notes := notes (progress_get (phaseProgress st) (currentPhase st)) |}.

(** [transitionToNextPhase] called once per clock reading. *)
Fixpoint transitions (clock : list Z) (st : PlanningState) : PlanningState :=
  match clock with
  | [] => st
  | now :: clock' =>
      transitions clock' (snd (fst (PlanningManager.transitionToNextPhase now st)))
  end.

(** One call of a method of the planning manager, from the state before to
    the state after; [allowed] says which updates [updatePlanFile] is called
    with. *)
Inductive call (allowed : PlanningManager.PlanFileUpdates -> Prop)
  : PlanningState -> PlanningState -> Prop :=
| call_enable st : call allowed st (fst (PlanningManager.enable st))
| call_disable st : call allowed st (fst (PlanningManager.disable st))
| call_transition now st :
    call allowed st (snd (fst (PlanningManager.transitionToNextPhase now st)))
| call_setPhase now phase st :
    call allowed st (snd (fst (PlanningManager.setPhase now phase st)))
| call_addStep step st : call allowed st (PlanningManager.addStep step st)
| call_setNotes text st : call allowed st (PlanningManager.setNotes text st)
| call_createPlanFile rng now userRequest st :
    call allowed st
      (snd (fst (fst (PlanningManager.createPlanFile rng now userRequest st))))
| call_updatePlanFile now updates st :
    allowed updates ->
    call allowed st (fst (PlanningManager.updatePlanFile now updates st))
| call_clearPlanFile st : call allowed st (PlanningManager.clearPlanFile st)
| call_addClarification now key x st :
    call allowed st (fst (PlanningManager.addClarification now key x st)).

(** The states of a planning manager: as constructed, then after any
    sequence of calls. *)
Inductive managed (allowed : PlanningManager.PlanFileUpdates -> Prop)
  : PlanningState -> Prop :=
| managed_new : managed allowed PlanningManager.new
| managed_call st st' :
    managed allowed st -> call allowed st st' -> managed allowed st'.

Definition anyUpdate (updates : PlanningManager.PlanFileUpdates) : Prop := True.

Definition keepsPhase (updates : PlanningManager.PlanFileUpdates) : Prop :=
  PlanningManager.new_phase updates = None.

(** The answers submitted one after the other, until one is refused. *)
Fixpoint submitAll (answers : list Questions.QuestionAnswer) (m : QuestionManager.t)
  : Result unit * QuestionManager.t :=
  match answers with
  | [] => (Ok tt, m)
  | answer :: answers' =>
      match QuestionManager.submitAnswer answer m with
      | (Ok _, m') => submitAll answers' m'
      | (Throw e, m') => (Throw e, m')
      end
  end.

(** Every keyword that makes [findMatchingQuestions] add a question. *)
Definition triggerKeywords : list string :=
  (flat_map Questions.amb_keywords Questions.AMBIGUITY_TEMPLATES
   ++ flat_map Questions.dec_keywords Questions.DECISION_TEMPLATES
   ++ ["create"; "build"; "implement"; "add"; "develop"])%list.

(** The Markdown [savePlanFile] writes:
    [markdownContent || generatePlanMarkdown(planFile)]. *)
Definition writtenMarkdown (planFile : PlanFile) (markdownContent : option string)
  : Result string :=
  match markdownContent with
  | Some md =>
      if String.eqb md "" then PlanFileStore.generatePlanMarkdown planFile else Ok md
  | None => PlanFileStore.generatePlanMarkdown planFile
  end.



(** *** Listings *)

(** The creation time of a listed plan; [None] for an invalid date. *)
Definition createdTime (plan : string * list (string * value)) : option Z :=
  Platform.getTime (PlanListing.createdAtOf (snd plan)).

(** [a] was created no earlier than [b]. *)
Definition notOlder (a b : string * list (string * value)) : Prop :=
  exists ta tb, createdTime a = Some ta /\ createdTime b = Some tb /\ tb <= ta.

(** *** Paths *)

(** The segments [normalize] has kept so far, last first: names on top of
    the [..] that climb out of a relative path. *)
Fixpoint normalStack (allowAboveRoot : bool) (kept : list string) : bool :=
  match kept with
  | [] => true
  | top :: below =>
      if String.eqb top ".."
      then allowAboveRoot && forallb (String.eqb "..") below
      else regularSegment top && normalStack allowAboveRoot below
  end.

(** The text of a path from its segments. *)
Definition renderPath (isAbsolute : bool) (segs : list string) : string :=
  (if isAbsolute then "/" else "") ++ Array_join "/" segs.

(** A slug with no [/] and no [.] in it, as [generateSlug] makes them. *)
Fixpoint plainSlug (s : string) : bool :=
  match s with
  | EmptyString => true
  | String c s' =>
      negb (Ascii.eqb c "/"%char) && negb (Ascii.eqb c "."%char) && plainSlug s'
  end.

End Sessions.

(* ===================================================================== *)
(** ** Planning manager: phases and the tool gate                          *)
(* ===================================================================== *)

Section PlanningManagerFacts.
Import JS Types PlanningManager Scenario.

Lemma getNextPhase_exit : getNextPhase exit = None.
Proof. reflexivity. Qed.

Lemma append_length (a b : string) :
  String.length (a ++ b) = (String.length a + String.length b)%nat.
Proof. induction a as [|c a IH]; simpl; [reflexivity | now f_equal]. Qed.

Lemma hexOfBytes_length (bs : list ascii) :
  String.length (hexOfBytes bs) = (2 * length bs)%nat.
Proof.
  induction bs as [|b bs IH]; [reflexivity|].
  change (hexOfBytes (b :: bs)) with (hexOfByte b ++ hexOfBytes bs).
  rewrite append_length, IH. cbn [hexOfByte String.length length]. lia.
Qed.

Lemma randomBytes_length (n : nat) (rng : Rng) : length (fst (randomBytes n rng)) = n.
Proof. unfold randomBytes. cbn [fst]. now rewrite length_map, length_seq. Qed.

Lemma generateSlug_length (rng : Rng) :
  String.length (fst (PlanningManager.generateSlug rng)) = 12%nat.
Proof.
  unfold PlanningManager.generateSlug, randomBytes. cbn [fst].
  rewrite hexOfBytes_length. now rewrite length_map, length_seq.
Qed.

Lemma randomUUID_length (rng : Rng) : String.length (fst (randomUUID rng)) = 36%nat.
Proof.
  unfold randomUUID, randomBytes, uuidOfBytes. cbn [fst].
  repeat rewrite append_length. repeat rewrite hexOfBytes_length. reflexivity.
Qed.

(** C1, as found in the code: at the terminal phase the call returns [false],
    emits nothing and keeps [currentPhase], [planFile] and [enabled]; of
    [phaseProgress] it sets the [completed] flag of the [exit] entry and
    keeps everything else. *)
Theorem transitionToNextPhase_at_exit (now : Z) (st : PlanningState) :
  enabled st = true ->
  currentPhase st = exit ->
  transitionToNextPhase now st
  = (false, with_phaseProgress (exitCompleted (phaseProgress st)) st, [])
  /\ (let st' := snd (fst (transitionToNextPhase now st)) in
      currentPhase st' = currentPhase st
      /\ planFile st' = planFile st
      /\ enabled st' = enabled st
      /\ (forall p, p <> exit ->
            progress_get (phaseProgress st') p = progress_get (phaseProgress st) p)
      /\ steps (progress_get (phaseProgress st') exit)
         = steps (progress_get (phaseProgress st) exit)
      /\ notes (progress_get (phaseProgress st') exit)
         = notes (progress_get (phaseProgress st) exit)
      /\ completed (progress_get (phaseProgress st') exit) = true).
Proof.
  intros Hen Hph.
  assert (Hrun : transitionToNextPhase now st
                 = (false, with_phaseProgress (exitCompleted (phaseProgress st)) st, [])).
  { unfold transitionToNextPhase. rewrite Hen. cbn [negb].
    cbn [with_phaseProgress currentPhase]. rewrite Hph, getNextPhase_exit.
    reflexivity. }
  split; [exact Hrun|]. rewrite Hrun. cbn [fst snd].
  repeat split; try reflexivity.
  intros p Hp. destruct p; try reflexivity. now elim Hp.
Qed.

Lemma transitionToNextPhase_at_exit_witness :
  enabled atExit = true /\ currentPhase atExit = exit
  /\ fst (fst (transitionToNextPhase 5 atExit)) = false.
Proof.
  split; [reflexivity|]. split; [reflexivity|].
  now rewrite (proj1 (transitionToNextPhase_at_exit 5 atExit eq_refl eq_refl)).
Defined.

(** C1 as stated fails: a manager that has just reached [exit] is enabled,
    the call returns [false], and [phaseProgress] is not what it was. *)
Lemma transitionToNextPhase_at_exit_mutates :
  enabled atExit = true
  /\ currentPhase atExit = exit
  /\ fst (fst (transitionToNextPhase 5 atExit)) = false
  /\ completed (of_exit (phaseProgress atExit)) = false
  /\ completed (of_exit (phaseProgress (snd (fst (transitionToNextPhase 5 atExit))))) = true
  /\ snd (fst (transitionToNextPhase 5 atExit)) <> atExit.
Proof.
  repeat split; try reflexivity.
  intros H. apply (f_equal (fun s => completed (of_exit (phaseProgress s)))) in H.
  vm_compute in H. discriminate H.
Qed.

Lemma Array_includes_In (l : list string) (x : string) :
  Array_includes l x = true <-> In x l.
Proof.
  unfold Array_includes. rewrite existsb_exists. split.
  - intros [y [Hy Heq]]. apply String.eqb_eq in Heq. now subst.
  - intros H. exists x. split; [exact H | apply String.eqb_refl].
Qed.

(** C2: with planning disabled every tool is allowed and the list of allowed
    tools is empty; with planning enabled a tool is allowed exactly when it
    is in the list of the current phase, [write_plan_file] is allowed in the
    [design] phase only, every phase but [exit] has a non-empty list holding
    [read_file], and in [exit] no tool is allowed. *)
Theorem tool_gate (st : PlanningState) (t : string) :
  (enabled st = false -> isToolAllowed t st = true /\ getAllowedTools st = [])
  /\ (enabled st = true ->
        (isToolAllowed t st = true <-> In t (PHASE_ALLOWED_TOOLS (currentPhase st)))
        /\ getAllowedTools st = PHASE_ALLOWED_TOOLS (currentPhase st)
        /\ (isToolAllowed "write_plan_file" st = true <-> currentPhase st = design)
        /\ (currentPhase st <> exit ->
              getAllowedTools st <> [] /\ In "read_file" (getAllowedTools st)
              /\ isToolAllowed "read_file" st = true)
        /\ (currentPhase st = exit ->
              isToolAllowed t st = false /\ getAllowedTools st = []))
  /\ (forall p, In "write_plan_file" (PHASE_ALLOWED_TOOLS p) <-> p = design)
  /\ (forall p, p <> exit ->
        PHASE_ALLOWED_TOOLS p <> [] /\ In "read_file" (PHASE_ALLOWED_TOOLS p))
  /\ PHASE_ALLOWED_TOOLS exit = [].
Proof.
  unfold isToolAllowed, getAllowedTools.
  split; [|split; [|split; [|split; [|reflexivity]]]].
  - intros Hen. rewrite Hen. split; reflexivity.
  - intros Hen. rewrite Hen. cbn [negb].
    split; [apply Array_includes_In|]. split; [reflexivity|]. split.
    + destruct (currentPhase st); cbn; split; intros H;
        try reflexivity; try discriminate H.
    + split.
      * intros Hne. destruct (currentPhase st); try (now elim Hne);
          (split; [discriminate | split; [now left | reflexivity]]).
      * intros Hex. rewrite Hex. split; reflexivity.
  - intros p. destruct p; cbn [PHASE_ALLOWED_TOOLS In]; split; intros H;
      try reflexivity; try discriminate H;
      repeat (destruct H as [H|H]; try discriminate H); try contradiction; tauto.
  - intros p Hne. destruct p; try (now elim Hne); (split; [discriminate | now left]).
Qed.

(** C4, as found in the code: a plan created by the facade's [createPlan]
    has [id] equal to [slug]; a plan created by the planning manager's
    [createPlanFile] has for [slug] the 12 hexadecimal digits of six random
    bytes and for [id] a fresh UUID of 36 characters, so the two differ. *)
Theorem created_plan_identifiers :
  (forall home cwd rng now userRequest fs created fs' rng',
      PlanManager.createPlan home cwd rng now userRequest fs = (Ok created, fs', rng') ->
      id created = slug created)
  /\ (forall rng now userRequest st,
        let created := fst (fst (fst (createPlanFile rng now userRequest st))) in
        slug created = fst (generateSlug rng)
        /\ id created = fst (randomUUID (snd (generateSlug rng)))
        /\ String.length (slug created) = 12%nat
        /\ String.length (id created) = 36%nat
        /\ id created <> slug created).
Proof.
  split.
  - intros home cwd rng now userRequest fs created fs' rng'.
    unfold PlanManager.createPlan.
    destruct (negb (PlanFileStore.isValidProjectDirectory home cwd)); [discriminate|].
    destruct (PlanManager.generateSlug rng) as [sl rng1].
    destruct (PlanFileStore.savePlanFile _ _ _ _ _) as [[u|e] fs1]; [|discriminate].
    intros H. injection H as <- _ _. reflexivity.
  - intros rng now userRequest st.
    assert (Hs : slug (fst (fst (fst (createPlanFile rng now userRequest st))))
                 = fst (generateSlug rng)).
    { unfold createPlanFile. destruct (generateSlug rng) as [sl rng1].
      destruct (randomUUID rng1) as [uuid rng2]. reflexivity. }
    assert (Hi : id (fst (fst (fst (createPlanFile rng now userRequest st))))
                 = fst (randomUUID (snd (generateSlug rng)))).
    { unfold createPlanFile. destruct (generateSlug rng) as [sl rng1].
      cbn [snd]. destruct (randomUUID rng1) as [uuid rng2]. reflexivity. }
    cbv zeta. rewrite Hs, Hi, generateSlug_length, randomUUID_length.
    repeat split; try reflexivity.
    intros Heq. apply (f_equal String.length) in Heq.
    rewrite generateSlug_length, randomUUID_length in Heq. discriminate Heq.
Qed.

Lemma created_plan_identifiers_witness :
  let run :=
    PlanManager.createPlan "/home/alice" "/work/shop" sampleRng 1700000000123
      "build a login page" {| files := ∅; dirs := ∅ |} in
  exists created, fst (fst run) = Ok created /\ id created = slug created.
Proof.
  cbv zeta.
  set (run := PlanManager.createPlan "/home/alice" "/work/shop" sampleRng
                1700000000123 "build a login page" {| files := ∅; dirs := ∅ |}).
  exists {| id := "0b30557a9fc4"; slug := "0b30557a9fc4";
            createdAt := DateOf 1700000000123; updatedAt := DateOf 1700000000123;
            phase := initial_understanding; userRequest := "build a login page";
            clarifications := []; implementationPlan := "";
            filesToModify := []; verificationSteps := [] |}.
  split; [vm_compute; reflexivity|].
  apply (proj1 created_plan_identifiers "/home/alice" "/work/shop" sampleRng
           1700000000123 "build a login page" {| files := ∅; dirs := ∅ |}
           _ (snd (fst run)) (snd run)).
  vm_compute. reflexivity.
Defined.

(** C4 as stated fails for [createPlanFile]: the plan it returns has a UUID
    for [id] and twelve hexadecimal digits for [slug]. *)
Lemma createPlanFile_id_is_not_slug :
  let created :=
    fst (fst (fst (createPlanFile sampleRng 1700000000123 "build a login page"
                     PlanningManager.new))) in
  id created = "e90e3358-7da2-47ec-9136-5b80a5caef14"
  /\ slug created = "0b30557a9fc4"
  /\ id created <> slug created.
Proof.
  cbv zeta. split; [vm_compute; reflexivity|]. split; [vm_compute; reflexivity|].
  intros H. vm_compute in H. discriminate H.
Qed.


End PlanningManagerFacts.

(* ===================================================================== *)
(** ** Question manager                                                    *)
(* ===================================================================== *)

Section QuestionManagerFacts.
Import JS Questions QuestionManager Scenario.

(** C8: [submitAnswer] throws when there is no current question and when the
    answer names another question than the current one; the manager is then
    exactly as before: no answer recorded, same current question, same
    queue. *)
Theorem submitAnswer_rejects (answer : QuestionAnswer) (m : QuestionManager.t) :
  (currentQuestion (state m) = None ->
     submitAnswer answer m
     = (Throw (MkError "Error" "No current question to answer"), m))
  /\ (forall q, currentQuestion (state m) = Some q -> questionId answer <> id q ->
        submitAnswer answer m
        = (Throw (MkError "Error"
             ("Answer question ID " ++ questionId answer
              ++ " does not match current question " ++ id q)), m)
        /\ answeredQuestions (state (snd (submitAnswer answer m)))
           = answeredQuestions (state m)
        /\ currentQuestion (state (snd (submitAnswer answer m))) = Some q
        /\ questionQueue (state (snd (submitAnswer answer m)))
           = questionQueue (state m)).
Proof.
  unfold submitAnswer. split.
  - intros Hnone. now rewrite Hnone.
  - intros q Hq Hne. rewrite Hq.
    destruct (String.eqb (questionId answer) (id q)) eqn:E.
    + apply String.eqb_eq in E. contradiction.
    + cbn [negb snd]. repeat split; try assumption; reflexivity.
Qed.

Lemma sortInsert_In {A} (cmp : A -> A -> Z) (x z : A) (l : list A) :
  In z (sortInsert cmp x l) <-> z = x \/ In z l.
Proof.
  induction l as [|y l IH]; cbn.
  - intuition.
  - destruct (cmp x y <=? 0); cbn; [intuition | rewrite IH; intuition].
Qed.

Lemma sortInsert_Permutation {A} (cmp : A -> A -> Z) (x : A) (l : list A) :
  Permutation (sortInsert cmp x l) (x :: l).
Proof.
  induction l as [|y l IH]; cbn; [reflexivity|].
  destruct (cmp x y <=? 0); [reflexivity|].
  rewrite IH. apply perm_swap.
Qed.

Lemma Array_sort_Permutation {A} (cmp : A -> A -> Z) (l : list A) :
  Permutation (Array_sort cmp l) l.
Proof.
  induction l as [|x l IH]; cbn; [reflexivity|].
  change (fold_right (sortInsert cmp) [] l) with (Array_sort cmp l).
  rewrite sortInsert_Permutation. now constructor.
Qed.

Lemma Array_sort_In {A} (cmp : A -> A -> Z) (z : A) (l : list A) :
  In z (Array_sort cmp l) <-> In z l.
Proof.
  split; apply Permutation_in; [|symmetry]; apply Array_sort_Permutation.
Qed.

Lemma firstn_In_inv {A} (n : nat) (l : list A) (x : A) : In x (firstn n l) -> In x l.
Proof.
  revert l; induction n as [|n IH]; intros [|y l]; cbn; try tauto.
  intros [H|H]; [now left | right; now apply IH].
Qed.

Lemma Array_slice0_In {A} (l : list A) (e : Z) (x : A) : In x (Array_slice0 l e) -> In x l.
Proof. unfold Array_slice0. apply firstn_In_inv. Qed.

Lemma Array_slice0_firstn {A} (l : list A) (e : Z) :
  0 <= e -> Array_slice0 l e = firstn (Z.to_nat e) l.
Proof.
  intros He. unfold Array_slice0.
  destruct (e <? 0) eqn:E; [apply Z.ltb_lt in E; lia|].
  destruct (Z.le_ge_cases e (Z.of_nat (length l))) as [H|H].
  - now rewrite Z.min_l.
  - rewrite Z.min_r by assumption. rewrite Nat2Z.id.
    rewrite !firstn_all2; [reflexivity | lia | lia].
Qed.

Lemma at_index_In {A} (l : list A) (i : Z) (x : A) : at_index l i = Some x -> In x l.
Proof.
  unfold at_index. destruct (i <? 0); [discriminate|]. apply nth_error_In.
Qed.

(** Sorting by descending count a list that is in catalog order gives a list
    ranked by count, ties in catalog order. *)
Lemma sortInsert_ranked (userRequest : string) (x : Question) (l : list Question) :
  let cmp a b := getKeywordCount (id b) userRequest - getKeywordCount (id a) userRequest in
  StronglySorted (ranksBefore userRequest) l ->
  Forall (fun y => catalogPosition x < catalogPosition y) l ->
  StronglySorted (ranksBefore userRequest) (sortInsert cmp x l).
Proof.
  intros cmp Hs Hpos. induction Hs as [|y l Hs IH Hy]; cbn.
  - repeat constructor.
  - apply Forall_cons_iff in Hpos as [Hxy Hpos].
    unfold cmp at 1. destruct (_ <=? 0) eqn:E.
    + apply Z.leb_le in E. constructor; [now constructor|].
      constructor.
      * unfold ranksBefore. lia.
      * rewrite List.Forall_forall in *. intros z Hz.
        specialize (Hy z Hz). specialize (Hpos z Hz).
        unfold ranksBefore in *. lia.
    + apply Z.leb_gt in E. constructor; [now apply IH|].
      rewrite List.Forall_forall in *. intros z Hz.
      apply sortInsert_In in Hz as [->|Hz]; [|now apply Hy].
      unfold ranksBefore. lia.
Qed.

Lemma Array_sort_ranked (userRequest : string) (l : list Question) :
  let cmp a b := getKeywordCount (id b) userRequest - getKeywordCount (id a) userRequest in
  StronglySorted (fun a b => catalogPosition a < catalogPosition b) l ->
  StronglySorted (ranksBefore userRequest) (Array_sort cmp l).
Proof.
  intros cmp Hs. induction Hs as [|x l Hs IH Hx]; cbn; [constructor|].
  apply sortInsert_ranked; [exact IH|].
  rewrite List.Forall_forall in *. intros y Hy. apply Hx.
  now apply (Array_sort_In cmp).
Qed.

Lemma findMatchingQuestions_parts (userRequest : string) :
  findMatchingQuestions userRequest
  = (ambiguityMatches userRequest ++ decisionMatches userRequest
     ++ confirmationMatches userRequest)%list.
Proof.
  unfold confirmationMatches.
  change (findMatchingQuestions userRequest)
    with ((ambiguityMatches userRequest ++ decisionMatches userRequest
          ++ (if matchesAny (toLowerCase userRequest)
                   ["create"; "build"; "implement"; "add"; "develop"]
              then match find (fun t => String.eqb (conf_id t) "assumptions-confirmation")
                           CONFIRMATION_TEMPLATES with
                   | Some confirmTemplate =>
                       [ {| id := conf_id confirmTemplate;
                            type := confirmation;
                            template :=
                              conf_template confirmTemplate
                                [("request", VStr userRequest);
                                 ("scope", VStr "current task")];
                            options := None;
                            followupQuestions := None;
                            allowSkip := Some false;
                            allowMultiple := None |} ]
                   | None => []
                   end
              else []))%list).
  match goal with
  | |- (_ ++ _ ++ ?X)%list = _ =>
      assert (H : skipn (length (ambiguityMatches userRequest
                                 ++ decisionMatches userRequest)%list)
                    (ambiguityMatches userRequest ++ decisionMatches userRequest ++ X)%list
                  = X)
        by (rewrite app_assoc, skipn_app, Nat.sub_diag, skipn_all; reflexivity);
      now rewrite H
  end.
Qed.

Lemma ambiguityMatches_shape (userRequest : string) (q : Question) :
  In q (ambiguityMatches userRequest) ->
  type q = ambiguity /\ allowSkip q = Some true
  /\ exists t, In t AMBIGUITY_TEMPLATES /\ id q = amb_id t.
Proof.
  unfold ambiguityMatches. rewrite in_flat_map. intros [t [Ht Hq]].
  destruct (matchesAny _ _); [|contradiction].
  destruct Hq as [<-|[]]. cbn [type allowSkip id]. eauto.
Qed.

Lemma decisionMatches_shape (userRequest : string) (q : Question) :
  In q (decisionMatches userRequest) ->
  type q = decision /\ allowSkip q = Some true
  /\ exists t, In t DECISION_TEMPLATES /\ id q = dec_id t.
Proof.
  unfold decisionMatches. rewrite in_flat_map. intros [t [Ht Hq]].
  destruct (matchesAny _ _); [|contradiction].
  destruct Hq as [<-|[]]. cbn [type allowSkip id]. eauto.
Qed.

Lemma confirmationMatches_shape (userRequest : string) (q : Question) :
  In q (confirmationMatches userRequest) ->
  type q = confirmation /\ allowSkip q = Some false.
Proof.
  unfold confirmationMatches, findMatchingQuestions.
  change (flat_map _ AMBIGUITY_TEMPLATES) with (ambiguityMatches userRequest).
  change (flat_map _ DECISION_TEMPLATES) with (decisionMatches userRequest).
  rewrite app_assoc, skipn_app, Nat.sub_diag, skipn_all. cbn [skipn app].
  destruct (matchesAny _ _); [|contradiction].
  cbn [find CONFIRMATION_TEMPLATES conf_id String.eqb Ascii.eqb Bool.eqb].
  intros [<-|[]]. split; reflexivity.
Qed.

Lemma findMatchingQuestions_wellFormed (userRequest : string) (q : Question) :
  In q (findMatchingQuestions userRequest) -> wellFormedSkip q.
Proof.
  rewrite findMatchingQuestions_parts, !in_app_iff. intros [H|[H|H]].
  - apply ambiguityMatches_shape in H as (Hty & Hskip & t & Ht & Hid).
    unfold wellFormedSkip. rewrite Hty, Hskip, Hid.
    repeat split; try discriminate; try reflexivity.
    cbn [AMBIGUITY_TEMPLATES In] in Ht.
    repeat (destruct Ht as [<-|Ht]); try contradiction; discriminate.
  - apply decisionMatches_shape in H as (Hty & Hskip & t & Ht & Hid).
    unfold wellFormedSkip. rewrite Hty, Hskip, Hid.
    repeat split; try discriminate; try reflexivity.
    cbn [DECISION_TEMPLATES In] in Ht.
    repeat (destruct Ht as [<-|Ht]); try contradiction; discriminate.
  - apply confirmationMatches_shape in H as (Hty & Hskip).
    unfold wellFormedSkip. rewrite Hty, Hskip.
    repeat split; try discriminate; try reflexivity.
    intros [H|H]; discriminate H.
Qed.

Lemma prioritizeQuestions_In (questions : list Question) (userRequest : string)
    (q : Question) :
  In q (prioritizeQuestions questions userRequest) -> In q questions.
Proof.
  unfold prioritizeQuestions. rewrite !in_app_iff, !Array_sort_In, !filter_In. tauto.
Qed.

Lemma generateQuestions_queue (userRequest : string) (projectFiles : list string)
    (m : QuestionManager.t) :
  questionQueue (state (generateQuestions userRequest projectFiles m))
  = Array_slice0 (prioritizeQuestions (findMatchingQuestions userRequest) userRequest)
      (maxQuestions (config m)).
Proof.
  unfold generateQuestions. cbn [state].
  destruct (Array_slice0 _ _); reflexivity.
Qed.

Lemma generateQuestions_queue_wellFormed (userRequest : string)
    (projectFiles : list string) (m : QuestionManager.t) (q : Question) :
  In q (questionQueue (state (generateQuestions userRequest projectFiles m))) ->
  wellFormedSkip q.
Proof.
  rewrite generateQuestions_queue. intros H.
  apply Array_slice0_In, prioritizeQuestions_In in H.
  now apply findMatchingQuestions_wellFormed in H.
Qed.

Lemma moveToNextQuestion_fromTemplates (st : QuestionState) :
  Forall wellFormedSkip (questionQueue st) ->
  Forall wellFormedSkip (questionQueue (moveToNextQuestion st))
  /\ (forall q, currentQuestion (moveToNextQuestion st) = Some q -> wellFormedSkip q).
Proof.
  intros Hq. unfold moveToNextQuestion.
  destruct (_ && _); cbn [questionQueue currentQuestion]; split; try assumption.
  - intros q H. apply at_index_In in H. rewrite List.Forall_forall in Hq. now apply Hq.
  - discriminate.
Qed.

Lemma reachable_fromTemplates (m : QuestionManager.t) : reachable m -> fromTemplates m.
Proof.
  induction 1 as [context config | c m _ IH | userRequest projectFiles m _ IH
                 | answer m _ IH | now m _ IH | m _ IH].
  - split; [constructor | discriminate].
  - exact IH.
  - assert (Hq : Forall wellFormedSkip
                   (questionQueue (state (generateQuestions userRequest projectFiles m)))).
    { apply List.Forall_forall. intros q. apply generateQuestions_queue_wellFormed. }
    split; [exact Hq|]. revert Hq. unfold generateQuestions. cbn [state].
    destruct (Array_slice0 _ _) as [|first rest];
      cbn [questionQueue currentQuestion]; intros Hq q Hcur.
    + now apply IH.
    + injection Hcur as <-. now apply Forall_cons_iff in Hq as [Hq _].
  - unfold submitAnswer. destruct (currentQuestion (state m)) as [cur|]; [|exact IH].
    destruct (negb _); [exact IH|]. destruct IH as [IHq IHc].
    cbn [snd with_state state]. now apply moveToNextQuestion_fromTemplates.
  - unfold skipCurrentQuestion.
    destruct (currentQuestion (state m)) as [cur|]; [|exact IH].
    destruct (allowSkip cur) as [[|]|]; try exact IH. destruct IH as [IHq IHc].
    cbn [snd with_state state]. now apply moveToNextQuestion_fromTemplates.
  - split; [constructor | discriminate].
Qed.

(** C10: every question [generateQuestions] queues can be skipped when it is
    an ambiguity or a decision question and cannot when it is a
    confirmation question; and in any manager a session can reach, when the
    current question is the assumptions confirmation, [skipCurrentQuestion]
    throws and leaves the manager as it was, no answer recorded. *)
Theorem skip_follows_question_type :
  (forall userRequest projectFiles m q,
      In q (questionQueue (state (generateQuestions userRequest projectFiles m))) ->
      (type q = ambiguity \/ type q = decision -> allowSkip q = Some true)
      /\ (type q = confirmation -> allowSkip q = Some false))
  /\ (forall m q now,
        reachable m ->
        currentQuestion (state m) = Some q ->
        id q = "assumptions-confirmation" ->
        skipCurrentQuestion now m
        = (Throw (MkError "Error" "This question cannot be skipped"), m)
        /\ answeredQuestions (state (snd (skipCurrentQuestion now m)))
           = answeredQuestions (state m)).
Proof.
  split.
  - intros userRequest projectFiles m q H.
    apply generateQuestions_queue_wellFormed in H as (H1 & H2 & _). now split.
  - intros m q now Hreach Hcur Hid.
    apply reachable_fromTemplates in Hreach as [_ Hc].
    destruct (Hc q Hcur) as (_ & Hconf & Hty).
    assert (Hskip : allowSkip q = Some false) by auto.
    unfold skipCurrentQuestion. rewrite Hcur, Hskip. now split.
Qed.

Lemma filter_none {A} (f : A -> bool) (l : list A) :
  (forall x, In x l -> f x = false) -> List.filter f l = [].
Proof.
  induction l as [|x l IH]; intros H; cbn; [reflexivity|].
  rewrite (H x) by now left. apply IH. intros y Hy. apply H. now right.
Qed.

Lemma filter_all {A} (f : A -> bool) (l : list A) :
  (forall x, In x l -> f x = true) -> List.filter f l = l.
Proof.
  induction l as [|x l IH]; intros H; cbn; [reflexivity|].
  rewrite (H x) by now left. f_equal. apply IH. intros y Hy. apply H. now right.
Qed.

Lemma filter_matches (userRequest : string) (ty : QuestionType) :
  List.filter (ofType ty) (findMatchingQuestions userRequest)
  = match ty with
    | ambiguity => ambiguityMatches userRequest
    | decision => decisionMatches userRequest
    | confirmation => confirmationMatches userRequest
    end.
Proof.
  rewrite findMatchingQuestions_parts, !List.filter_app.
  assert (Ha : forall q, In q (ambiguityMatches userRequest) -> type q = ambiguity)
    by (intros q H; now apply ambiguityMatches_shape in H).
  assert (Hd : forall q, In q (decisionMatches userRequest) -> type q = decision)
    by (intros q H; now apply decisionMatches_shape in H).
  assert (Hc : forall q, In q (confirmationMatches userRequest) -> type q = confirmation)
    by (intros q H; now apply confirmationMatches_shape in H).
  assert (Hf : forall ty ty' l, (forall q, In q l -> type q = ty') ->
             List.filter (ofType ty) l = if QuestionType_eqb ty' ty then l else []).
  { intros ty1 ty2 l Hl. destruct (QuestionType_eqb ty2 ty1) eqn:E.
    - apply filter_all. intros q H. unfold ofType. now rewrite (Hl q H).
    - apply filter_none. intros q H. unfold ofType. now rewrite (Hl q H). }
  rewrite (Hf ty _ _ Ha), (Hf ty _ _ Hd), (Hf ty _ _ Hc).
  destruct ty; cbn [QuestionType_eqb app]; now rewrite ?app_nil_r.
Qed.

Lemma matched_in_catalog_order (userRequest : string) (ty : QuestionType) :
  StronglySorted (fun a b => catalogPosition a < catalogPosition b)
    (List.filter (ofType ty) (findMatchingQuestions userRequest)).
Proof.
  rewrite filter_matches. destruct ty.
  - unfold ambiguityMatches. cbn [flat_map AMBIGUITY_TEMPLATES].
    repeat match goal with
           | |- context [matchesAny ?a ?b] => destruct (matchesAny a b)
           end; cbn [app];
      repeat (constructor; try (vm_compute; reflexivity)).
  - unfold decisionMatches. cbn [flat_map DECISION_TEMPLATES].
    repeat match goal with
           | |- context [matchesAny ?a ?b] => destruct (matchesAny a b)
           end; cbn [app];
      repeat (constructor; try (vm_compute; reflexivity)).
  - assert (H : forall q, In q (confirmationMatches userRequest) ->
                          catalogPosition q = -1 /\ length (confirmationMatches userRequest) = 1%nat).
    { unfold confirmationMatches, findMatchingQuestions.
      change (flat_map _ AMBIGUITY_TEMPLATES) with (ambiguityMatches userRequest).
      change (flat_map _ DECISION_TEMPLATES) with (decisionMatches userRequest).
      rewrite app_assoc, skipn_app, Nat.sub_diag, skipn_all. cbn [skipn app].
      destruct (matchesAny _ _); [|contradiction].
      cbn [find CONFIRMATION_TEMPLATES conf_id String.eqb Ascii.eqb Bool.eqb].
      intros q [<-|[]]. split; reflexivity. }
    destruct (confirmationMatches userRequest) as [|q [|q' l]].
    + constructor.
    + repeat constructor.
    + destruct (H q (or_introl eq_refl)) as [_ Hl]. discriminate Hl.
Qed.

Lemma getKeywordCount_matched (userRequest : string) :
  (forall t, In t DECISION_TEMPLATES ->
     getKeywordCount (dec_id t) userRequest = matchedKeywords userRequest (dec_keywords t))
  /\ (forall t, In t AMBIGUITY_TEMPLATES ->
        getKeywordCount (amb_id t) userRequest
        = matchedKeywords userRequest (amb_keywords t)).
Proof.
  split; intros t Ht; cbn [DECISION_TEMPLATES AMBIGUITY_TEMPLATES In] in Ht;
    repeat (destruct Ht as [<-|Ht]); try contradiction; reflexivity.
Qed.

(** C5: the queue is the confirmation questions, then the decision
    questions, then the ambiguity questions that the request matches, cut to
    the configured maximum (10 by default); decision and ambiguity questions
    are each ranked by their count of matched keywords, the higher first, and
    in catalog order among equals.  For the request "optimize performance of
    the database layer" the queue is the database-choice decision question
    followed by the performance-requirements ambiguity question, with no
    confirmation question. *)
Theorem generateQuestions_priority_order :
  (forall userRequest projectFiles m,
      0 <= maxQuestions (config m) ->
      exists confirmations decisions ambiguities,
        questionQueue (state (generateQuestions userRequest projectFiles m))
        = firstn (Z.to_nat (maxQuestions (config m)))
            (confirmations ++ decisions ++ ambiguities)
        /\ confirmations
           = List.filter (ofType confirmation) (findMatchingQuestions userRequest)
        /\ Permutation decisions
             (List.filter (ofType decision) (findMatchingQuestions userRequest))
        /\ Permutation ambiguities
             (List.filter (ofType ambiguity) (findMatchingQuestions userRequest))
        /\ StronglySorted (ranksBefore userRequest) decisions
        /\ StronglySorted (ranksBefore userRequest) ambiguities)
  /\ (forall userRequest t, In t DECISION_TEMPLATES ->
        getKeywordCount (dec_id t) userRequest
        = matchedKeywords userRequest (dec_keywords t))
  /\ (forall userRequest t, In t AMBIGUITY_TEMPLATES ->
        getKeywordCount (amb_id t) userRequest
        = matchedKeywords userRequest (amb_keywords t))
  /\ maxQuestions DEFAULT_QUESTION_CONFIG = 10
  /\ (forall projectFiles,
        map (fun q => (id q, type q))
          (questionQueue
             (state (generateQuestions "optimize performance of the database layer"
                       projectFiles (QuestionManager.new None DEFAULT_QUESTION_CONFIG))))
        = [("database-choice", decision); ("performance-requirements", ambiguity)]).
Proof.
  split; [|split; [|split; [|split]]].
  - intros userRequest projectFiles m Hmax.
    rewrite generateQuestions_queue, Array_slice0_firstn by assumption.
    unfold prioritizeQuestions. do 3 eexists. split; [reflexivity|].
    split; [reflexivity|].
    split; [apply Array_sort_Permutation|]. split; [apply Array_sort_Permutation|].
    split; apply Array_sort_ranked; apply matched_in_catalog_order.
  - intros userRequest. apply getKeywordCount_matched.
  - intros userRequest. apply getKeywordCount_matched.
  - reflexivity.
  - intros projectFiles. vm_compute. reflexivity.
Qed.

Lemma generateQuestions_priority_order_witness :
  exists confirmations decisions ambiguities,
    questionQueue
      (state (generateQuestions "build a fast login with database storage" []
                (QuestionManager.new None DEFAULT_QUESTION_CONFIG)))
    = firstn 10 (confirmations ++ decisions ++ ambiguities)
    /\ map id confirmations = ["assumptions-confirmation"]
    /\ Permutation (map id decisions)
         ["architecture-pattern"; "database-choice"; "authentication-method"]
    /\ Permutation (map id ambiguities) ["performance-requirements"].
Proof.
  destruct (proj1 generateQuestions_priority_order
              "build a fast login with database storage" []
              (QuestionManager.new None DEFAULT_QUESTION_CONFIG))
    as (cs & ds & qs & Hq & Hc & Hd & Ha & _); [cbn; lia|].
  exists cs, ds, qs. split; [exact Hq|].
  split; [rewrite Hc; vm_compute; reflexivity|].
  split; [rewrite Hd | rewrite Ha]; vm_compute; reflexivity.
Defined.

End QuestionManagerFacts.

(* ===================================================================== *)
(** ** Plan file store                                                     *)
(* ===================================================================== *)

Section PlanFileStoreFacts.
Import JS Types PlanFileStore Scenario.
#[local] Arguments String.append !_ _ / : simpl nomatch.

Lemma prefix_append (p rest : string) : String.prefix p (p ++ rest) = true.
Proof.
  induction p as [|c p IH]; simpl; [now destruct rest|].
  destruct (ascii_dec c c) as [_|Hne]; [exact IH | now elim Hne].
Qed.

Lemma append_assoc (a b c : string) : (a ++ b) ++ c = a ++ (b ++ c).
Proof. induction a as [|x a IH]; simpl; [reflexivity | now f_equal]. Qed.





(** C3, as found in the code: [loadPlanFile] answers [null] when the JSON
    sidecar exists and its text does not parse, as it does when the file is
    absent; no error leaves the call. *)
Theorem loadPlanFile_null_when_unparsable (cwd slug : string) (fs : FileSystem) :
  (forall content e,
      files fs !! getPlanJsonPath cwd slug = Some content ->
      JSON_parse content = Throw e ->
      loadPlanFile cwd slug fs = None)
  /\ (files fs !! getPlanJsonPath cwd slug = None -> loadPlanFile cwd slug fs = None).
Proof.
  unfold loadPlanFile, readFile. split.
  - intros content e Hfile Hparse. now rewrite Hfile, Hparse.
  - intros Hfile. now rewrite Hfile.
Qed.

Lemma loadPlanFile_null_when_unparsable_witness :
  files corruptSidecar !! getPlanJsonPath "/work/shop" "0b30557a9fc4" = Some "{ not json"
  /\ loadPlanFile "/work/shop" "0b30557a9fc4" corruptSidecar = None.
Proof.
  split; [vm_compute; reflexivity|].
  eapply (proj1 (loadPlanFile_null_when_unparsable "/work/shop" "0b30557a9fc4"
                   corruptSidecar) "{ not json");
    vm_compute; reflexivity.
Defined.

(** C3 as stated fails: the sidecar of this plan exists, its text is not
    JSON, and the load returns [null], the answer for a missing file. *)
Lemma loadPlanFile_corrupt_sidecar_is_null :
  readFile (getPlanJsonPath "/work/shop" "0b30557a9fc4") corruptSidecar = Ok "{ not json"
  /\ JSON_parse "{ not json" = Throw (MkError "SyntaxError" "Unexpected token in JSON")
  /\ loadPlanFile "/work/shop" "0b30557a9fc4" corruptSidecar = None
  /\ loadPlanFile "/work/shop" "0b30557a9fc4" emptyFileSystem = None.
Proof. repeat split; vm_compute; reflexivity. Qed.

End PlanFileStoreFacts.

(* ===================================================================== *)
(** ** Dates: what [toISOString] writes is read back                       *)
(* ===================================================================== *)

Section DateFacts.
Import JS Scenario.
#[local] Arguments String.append !_ _ / : simpl nomatch.

Lemma digitValue_digitChar (d : Z) : 0 <= d <= 9 -> digitValue (digitChar d) = Some d.
Proof.
  intros H.
  assert (Hd : d = 0 \/ d = 1 \/ d = 2 \/ d = 3 \/ d = 4 \/ d = 5 \/ d = 6 \/ d = 7
               \/ d = 8 \/ d = 9) by lia.
  repeat (destruct Hd as [->|Hd]); try subst d; reflexivity.
Qed.

Lemma takeDigits_app (a b : nat) (acc : Z) (s : string) :
  takeDigits (a + b) acc s
  = match takeDigits a acc s with
    | Some (acc', r) => takeDigits b acc' r
    | None => None
    end.
Proof.
  revert acc s. induction a as [|a IH]; intros acc s; [reflexivity|].
  cbn [Nat.add takeDigits]. destruct s as [|c s]; [reflexivity|].
  destruct (digitValue c); [apply IH | reflexivity].
Qed.

Lemma takeDigits_padDigits (k : nat) (n acc : Z) (rest : string) :
  0 <= n < 10 ^ Z.of_nat k ->
  takeDigits k acc (padDigits k n ++ rest) = Some (acc * 10 ^ Z.of_nat k + n, rest).
Proof.
  revert n acc rest. induction k as [|k IH]; intros n acc rest Hn.
  - cbn in *. f_equal. f_equal. lia.
  - rewrite Nat2Z.inj_succ, Z.pow_succ_r in * by lia.
    cbn [padDigits]. rewrite append_assoc. cbn [String.append].
    replace (S k) with (k + 1)%nat by lia.
    rewrite takeDigits_app, IH by (split; [apply Z.div_pos; lia | apply Z.div_lt_upper_bound; lia]).
    cbn [takeDigits]. rewrite digitValue_digitChar by (pose proof (Z.mod_pos_bound n 10); lia).
    f_equal. f_equal. pose proof (Z.div_mod n 10). lia.
Qed.

Lemma takeDigits_padDigits0 (k : nat) (n : Z) (rest : string) :
  0 <= n < 10 ^ Z.of_nat k ->
  takeDigits k 0 (padDigits k n ++ rest) = Some (n, rest).
Proof. intros H. now rewrite takeDigits_padDigits. Qed.

Lemma takeYear_digits (s : string) (r : Z * string) :
  takeDigits 4 0 s = Some r -> takeYear s = Some r.
Proof.
  destruct s as [|c s]; [discriminate|]. intros H. unfold takeYear.
  destruct (digitValue c) eqn:E; [exact H|].
  exfalso. cbn [takeDigits] in H. rewrite E in H. discriminate H.
Qed.

Lemma takeYear_isoYear (y : Z) (rest : string) :
  Z.abs y <= 999999 -> takeYear (isoYear y ++ rest) = Some (y, rest).
Proof.
  intros Hy. unfold isoYear.
  destruct ((0 <=? y) && (y <=? 9999)) eqn:E.
  - apply andb_true_iff in E as [E1 E2]. apply Z.leb_le in E1, E2.
    apply takeYear_digits, takeDigits_padDigits0. cbn. lia.
  - assert (Hout : y < 0 \/ 9999 < y).
    { apply andb_false_iff in E as [E|E]; [apply Z.leb_gt in E | apply Z.leb_gt in E]; lia. }
    destruct (y <? 0) eqn:Eneg.
    + apply Z.ltb_lt in Eneg. cbn [String.append takeYear].
      change (digitValue "-") with (@None Z). cbn [Ascii.eqb Bool.eqb].
      rewrite takeDigits_padDigits0 by (cbn; lia).
      destruct (Z.abs y =? 0) eqn:E0; [apply Z.eqb_eq in E0; lia|].
      f_equal. f_equal. lia.
    + apply Z.ltb_ge in Eneg. cbn [String.append takeYear].
      change (digitValue "+") with (@None Z). cbn [Ascii.eqb Bool.eqb].
      rewrite takeDigits_padDigits0 by (cbn; lia).
      f_equal. f_equal. lia.
Qed.

Lemma isLeapYear_spec (y : Z) :
  isLeapYear y = true <-> (y mod 4 = 0 /\ y mod 100 <> 0) \/ y mod 400 = 0.
Proof.
  unfold isLeapYear.
  rewrite orb_true_iff, andb_true_iff, negb_true_iff, !Z.eqb_eq, Z.eqb_neq. tauto.
Qed.

(** Month and day from the day of a year that starts in March. *)
Lemma month_day (doy mp d y : Z) :
  0 <= doy <= 365 ->
  mp = (5 * doy + 2) / 153 ->
  d = doy - (153 * mp + 2) / 5 + 1 ->
  let m := if mp <? 10 then mp + 3 else mp - 9 in
  1 <= m <= 12 /\ 1 <= d
  /\ (d <= daysInMonth y m \/ (m = 2 /\ d = 29 /\ doy = 365))
  /\ (if 2 <? m then m - 3 else m + 9) = mp.
Proof.
  intros Hdoy Hmp Hd.
  assert (Hcase : mp = 0 \/ mp = 1 \/ mp = 2 \/ mp = 3 \/ mp = 4 \/ mp = 5 \/ mp = 6
                  \/ mp = 7 \/ mp = 8 \/ mp = 9 \/ mp = 10 \/ mp = 11)
    by (Z.div_mod_to_equations; lia).
  repeat (destruct Hcase as [Hc|Hcase]); try rename Hcase into Hc;
    rewrite Hc in *; cbv zeta;
    cbv [daysInMonth Z.ltb Z.eqb Z.add Z.sub Z.opp Z.compare Pos.compare
         Pos.compare_cont Pos.eqb Pos.add Pos.succ Z.pos_sub Pos.pred_double
         Z.pred_double Z.succ_double Z.double orb Pos.add_carry];
    try destruct (isLeapYear y);
    repeat split; try lia; Z.div_mod_to_equations; lia.
Qed.

(** The calendar date of a day number, read back, is the day number, and it
    is a date of the calendar. *)
Lemma civil_roundtrip (z : Z) :
  let '(y, m, d) := civilFromDays z in
  daysFromCivil y m d = z /\ 1 <= m <= 12 /\ 1 <= d <= daysInMonth y m.
Proof.
  unfold civilFromDays.
  remember (z + 719468) as z' eqn:Ez'.
  remember (z' / 146097) as era eqn:Eera.
  remember (z' - era * 146097) as doe eqn:Edoe.
  remember ((doe - doe / 1460 + doe / 36524 - doe / 146096) / 365) as yoe eqn:Eyoe.
  remember (doe - (365 * yoe + yoe / 4 - yoe / 100)) as doy eqn:Edoy.
  remember ((5 * doy + 2) / 153) as mp eqn:Emp.
  remember (doy - (153 * mp + 2) / 5 + 1) as d eqn:Ed.
  cbv zeta.
  assert (Hdoe : 0 <= doe < 146097) by (clear - Edoe Eera; Z.div_mod_to_equations; lia).
  assert (Hyoe : 0 <= yoe <= 399 /\ 0 <= doy <= 365)
    by (clear - Hdoe Eyoe Edoy; Z.div_mod_to_equations; lia).
  assert (Hleap : doy = 365 -> (yoe + 1) mod 4 = 0
                               /\ ((yoe + 1) mod 100 <> 0 \/ (yoe + 1) mod 400 = 0))
    by (clear - Hdoe Eyoe Edoy; Z.div_mod_to_equations; lia).
  assert (Hera : (yoe + era * 400) / 400 = era)
    by (clear - Hyoe; Z.div_mod_to_equations; lia).
  set (m := if mp <? 10 then mp + 3 else mp - 9).
  set (y := if m <=? 2 then yoe + era * 400 + 1 else yoe + era * 400).
  destruct (month_day doy mp d y (proj2 Hyoe) Emp Ed) as (Hm & Hd1 & Hd2 & Hback).
  fold m in Hm, Hd2, Hback.
  split; [|split; [exact Hm|split; [exact Hd1|]]].
  - unfold daysFromCivil. rewrite Hback.
    assert (Hy : (if m <=? 2 then y - 1 else y) = yoe + era * 400)
      by (subst y; destruct (m <=? 2); lia).
    rewrite Hy, Hera.
    replace (yoe + era * 400 - era * 400) with yoe by lia.
    clear - Ed Edoy Edoe Ez'. lia.
  - destruct Hd2 as [Hd2|(Hm2 & Hd29 & Hdoy)]; [exact Hd2|].
    destruct (Hleap Hdoy) as [H4 H100].
    assert (Hl : isLeapYear y = true).
    { apply isLeapYear_spec. subst y. rewrite Hm2. cbn [Z.leb Z.compare Pos.compare Pos.compare_cont].
      clear - H4 H100 Hyoe. Z.div_mod_to_equations. lia. }
    rewrite Hm2, Hd29. unfold daysInMonth. cbn [Z.eqb Pos.eqb]. rewrite Hl. lia.
Qed.

Lemma civil_year_bound (z : Z) :
  -100000001 <= z <= 100000001 -> Z.abs (fst (fst (civilFromDays z))) <= 999999.
Proof.
  intros Hz. unfold civilFromDays. cbn [fst].
  remember (z + 719468) as z' eqn:Ez'.
  remember (z' / 146097) as era eqn:Eera.
  remember (z' - era * 146097) as doe eqn:Edoe.
  remember ((doe - doe / 1460 + doe / 36524 - doe / 146096) / 365) as yoe eqn:Eyoe.
  assert (Hdoe : 0 <= doe < 146097) by (clear - Edoe Eera; Z.div_mod_to_equations; lia).
  assert (Hyoe : 0 <= yoe <= 399) by (clear - Hdoe Eyoe; Z.div_mod_to_equations; lia).
  assert (Hera : -700 <= era <= 700) by (clear - Hz Ez' Eera; Z.div_mod_to_equations; lia).
  destruct (_ <=? 2); lia.
Qed.

(** A valid date written by [toISOString] is read back as itself. *)
Lemma parseISO_isoOfTime (t : Z) :
  Z.abs t <= maxTime -> parseISO (isoOfTime t) = Some t.
Proof.
  intros Ht. unfold maxTime in Ht. unfold isoOfTime.
  pose proof (civil_roundtrip (t / msPerDay)) as Hcivil.
  pose proof (civil_year_bound (t / msPerDay)) as Hyear.
  destruct (civilFromDays (t / msPerDay)) as [[y m] d]. cbn [fst] in Hyear.
  destruct Hcivil as (Hback & Hm & Hd).
  assert (Hy : Z.abs y <= 999999).
  { apply Hyear. unfold msPerDay. clear - Ht. Z.div_mod_to_equations. lia. }
  assert (Hdm : daysInMonth y m <= 31).
  { unfold daysInMonth. repeat destruct (_ =? _); try destruct (isLeapYear y);
      cbn [orb]; try destruct (_ || _); lia. }
  remember (t mod msPerDay) as r eqn:Er.
  assert (Hr : 0 <= r < 86400000)
    by (subst r; unfold msPerDay; apply Z.mod_pos_bound; lia).
  cbv zeta. unfold parseISO.
  rewrite takeYear_isoYear by exact Hy.
  cbn [String.append takeChar Ascii.eqb Bool.eqb].
  rewrite takeDigits_padDigits0 by (cbn; lia).
  cbn [String.append takeChar Ascii.eqb Bool.eqb].
  rewrite takeDigits_padDigits0 by (cbn; lia).
  cbn [String.append takeChar Ascii.eqb Bool.eqb].
  rewrite takeDigits_padDigits0
    by (cbn; clear - Hr; Z.div_mod_to_equations; lia).
  cbn [String.append takeChar Ascii.eqb Bool.eqb].
  rewrite takeDigits_padDigits0
    by (cbn; clear - Hr; Z.div_mod_to_equations; lia).
  cbn [String.append takeChar Ascii.eqb Bool.eqb].
  rewrite takeDigits_padDigits0
    by (cbn; clear - Hr; Z.div_mod_to_equations; lia).
  cbn [String.append takeChar Ascii.eqb Bool.eqb].
  replace "Z" with ("" ++ "Z") at 1 by reflexivity.
  rewrite <- (append_assoc (padDigits 3 (r mod 1000)) "" "Z").
  rewrite append_assoc.
  rewrite takeDigits_padDigits0
    by (cbn; clear - Hr; Z.div_mod_to_equations; lia).
  cbn [String.append String.eqb Ascii.eqb Bool.eqb andb].
  assert (Hcond :
    (1 <=? m) && (m <=? 12) && (1 <=? d) && (d <=? daysInMonth y m)
    && ((r / 3600000 <=? 23)
        || ((r / 3600000 =? 24) && (r / 60000 mod 60 =? 0)
            && (r / 1000 mod 60 =? 0) && (r mod 1000 =? 0)))
    && (r / 60000 mod 60 <=? 59) && (r / 1000 mod 60 <=? 59) = true).
  { repeat (apply andb_true_intro; split); try (apply Z.leb_le; lia).
    - apply orb_true_intro. left. apply Z.leb_le. clear - Hr. Z.div_mod_to_equations. lia.
    - apply Z.leb_le. clear - Hr. Z.div_mod_to_equations. lia.
    - apply Z.leb_le. clear - Hr. Z.div_mod_to_equations. lia. }
  rewrite Hcond, Hback. f_equal.
  subst r. unfold msPerDay. clear. Z.div_mod_to_equations. lia.
Qed.

Lemma Date_roundtrip (t : Z) :
  Z.abs t <= maxTime -> Date_ofString (isoOfTime t) = DateOf t.
Proof.
  intros Ht. unfold Date_ofString. rewrite parseISO_isoOfTime by exact Ht.
  unfold timeClip. apply Z.leb_le in Ht. now rewrite Ht.
Qed.

End DateFacts.

(* ===================================================================== *)
(** ** The fuel of the JSON reader                                         *)
(* ===================================================================== *)

Section ParserFuel.
Import JS.
#[local] Open Scope nat_scope.

Lemma skipWhitespace_length (s : string) :
  String.length (skipWhitespace s) <= String.length s.
Proof.
  induction s as [|c s IH]; cbn [skipWhitespace String.length]; [lia|].
  destruct (isWhitespace c); cbn [String.length]; lia.
Qed.

Lemma skipWhitespace_shorter (s r : string) (c : ascii) :
  skipWhitespace s = String c r -> String.length r < String.length s.
Proof.
  intros H. pose proof (skipWhitespace_length s) as Hl. rewrite H in Hl.
  cbn [String.length] in Hl. lia.
Qed.

Lemma parseChars_shorter (s str rest : string) :
  parseChars s = Some (str, rest) -> String.length rest < String.length s.
Proof.
  remember (String.length s) as n eqn:Hn.
  assert (Hle : String.length s <= n) by lia. clear Hn.
  revert s str rest Hle. induction n as [|n IH]; intros s str rest Hle H.
  - destruct s; [discriminate H | cbn [String.length] in Hle; lia].
  - destruct s as [|c r]; [discriminate H|].
    cbn [parseChars] in H. unfold parseChar in H. cbv zeta in H.
    cbn [String.length] in Hle.
    repeat match type of H with
    | (if ?b then _ else _) = _ => destruct b
    | match ?x with _ => _ end = _ => destruct x eqn:?
    end; try discriminate H; injection H as <- <-;
    try match goal with
    | E : parseChars ?r' = Some (_, ?rest') |- _ =>
        apply IH in E; cbn [String.length] in *; lia
    end.
    all: cbn [String.length] in *; try lia.
Qed.

Lemma dropPrefix_length (word s rest : string) :
  dropPrefix word s = Some rest ->
  String.length s = String.length word + String.length rest.
Proof.
  revert s. induction word as [|c word IH]; intros s H; cbn [dropPrefix] in H.
  - injection H as <-. reflexivity.
  - destruct s as [|c' s]; [discriminate H|].
    destruct (Ascii.eqb c c'); [|discriminate H].
    cbn [String.length]. rewrite (IH _ H). reflexivity.
Qed.

Lemma parseLiteral_shorter (word : string) (v v' : value) (s rest : string) :
  word <> "" -> parseLiteral word v s = Some (v', rest) ->
  String.length rest < String.length s.
Proof.
  unfold parseLiteral. intros Hw H.
  destruct (dropPrefix word s) as [r|] eqn:E; [|discriminate H].
  injection H as _ <-. apply dropPrefix_length in E.
  destruct word; [now elim Hw | cbn [String.length] in E; lia].
Qed.

Lemma spanDigits_length (s : string) :
  String.length s
  = String.length (fst (spanDigits s)) + String.length (snd (spanDigits s)).
Proof.
  induction s as [|c s IH]; [reflexivity|].
  cbn [spanDigits]. destruct (digitValue c); [|reflexivity].
  destruct (spanDigits s) as [ds r]. cbn [fst snd String.length] in *. lia.
Qed.

Lemma parseDigits_shorter (negative : bool) (s rest : string) (v : value) :
  parseDigits negative s = Some (v, rest) -> String.length rest < String.length s.
Proof.
  unfold parseDigits. intros H. pose proof (spanDigits_length s) as Hl.
  destruct (spanDigits s) as [ds r]. cbn [fst snd] in Hl.
  destruct ds as [|d ds]; [discriminate H|].
  destruct (_ || _); [discriminate H|].
  destruct (NilZero.uint_of_string _); [|discriminate H].
  injection H as _ <-. cbn [String.length] in Hl. lia.
Qed.

Lemma parseNumber_shorter (s rest : string) (v : value) :
  parseNumber s = Some (v, rest) -> String.length rest < String.length s.
Proof.
  unfold parseNumber. intros H. destruct s as [|c s]; [discriminate H|].
  destruct (Ascii.eqb c "-"%char).
  - apply parseDigits_shorter in H. cbn [String.length]. lia.
  - now apply parseDigits_shorter in H.
Qed.

Ltac parse_case :=
  match goal with
  | |- None = Some _ -> _ => discriminate
  | |- context [match skipWhitespace ?s with _ => _ end] =>
      let E := fresh "Hws" in
      destruct (skipWhitespace s) eqn:E;
      [| apply skipWhitespace_shorter in E]
  | |- context [match parseChars ?r with _ => _ end] =>
      let E := fresh "Hchars" in
      destruct (parseChars r) as [[? ?]|] eqn:E;
      [apply parseChars_shorter in E |]
  | |- context [if ?b then _ else _] => destruct b
  end; cbv beta iota.

(** A value that is read is read with any fuel from the number of characters
    it takes on. *)
Lemma parse_fuel (fuel : nat) :
  (forall s v rest, parseValue fuel s = Some (v, rest) ->
     String.length rest < String.length s
     /\ forall fuel', String.length s - String.length rest <= fuel' ->
          parseValue fuel' s = Some (v, rest))
  /\ (forall s vs rest, parseElements fuel s = Some (vs, rest) ->
        String.length rest < String.length s
        /\ forall fuel', String.length s - String.length rest <= fuel' ->
             parseElements fuel' s = Some (vs, rest))
  /\ (forall s ms rest, parseMembers fuel s = Some (ms, rest) ->
        String.length rest < String.length s
        /\ forall fuel', String.length s - String.length rest <= fuel' ->
             parseMembers fuel' s = Some (ms, rest)).
Proof.
  induction fuel as [|fuel (IHV & IHE & IHM)];
    [repeat split; discriminate|].
  split; [|split].
  - intros s v rest H.
    assert (Hlen : String.length rest < String.length s).
    { revert H. cbn [parseValue]. repeat parse_case.
      all: try (intros [= <- <-]; lia).
      all: try match goal with
        | |- match parseMembers ?f ?r with _ => _ end = _ -> _ =>
            destruct (parseMembers f r) as [[? ?]|] eqn:E; [|discriminate];
            intros [= <- <-]; apply IHM in E; lia
        | |- match parseElements ?f ?r with _ => _ end = _ -> _ =>
            destruct (parseElements f r) as [[? ?]|] eqn:E; [|discriminate];
            intros [= <- <-]; apply IHE in E; lia
        | |- parseLiteral _ _ _ = _ -> _ =>
            intros E; apply parseLiteral_shorter in E; [|discriminate];
            cbn [String.length] in *; lia
        | |- parseNumber _ = _ -> _ =>
            intros E; apply parseNumber_shorter in E;
            cbn [String.length] in *; lia
        end. }
    split; [exact Hlen|]. intros [|k] Hk; [lia|].
    revert H. cbn [parseValue]. repeat parse_case.
    all: try (intros [= <- <-]; reflexivity).
    all: try match goal with
      | |- match parseMembers ?f ?r with _ => _ end = _ -> _ =>
          destruct (parseMembers f r) as [[? ?]|] eqn:E; [|discriminate];
          intros [= <- <-]; apply IHM in E; destruct E as [? E];
          rewrite E by lia; reflexivity
      | |- match parseElements ?f ?r with _ => _ end = _ -> _ =>
          destruct (parseElements f r) as [[? ?]|] eqn:E; [|discriminate];
          intros [= <- <-]; apply IHE in E; destruct E as [? E];
          rewrite E by lia; reflexivity
      | |- _ => intros E; exact E
      end.
  - intros s vs rest H. cbn [parseElements] in H.
    destruct (parseValue fuel s) as [[v r]|] eqn:EV; [|discriminate H].
    apply IHV in EV as [Hv EV].
    destruct (skipWhitespace r) as [|c r2] eqn:Hws; [discriminate H|].
    pose proof (skipWhitespace_shorter _ _ _ Hws) as Hr2.
    destruct (N_of_ascii c =? 44)%N eqn:Hc.
    + destruct (parseElements fuel r2) as [[vs' rest']|] eqn:EE; [|discriminate H].
      injection H as <- <-. apply IHE in EE as [He EE].
      split; [lia|]. intros [|k] Hk; [lia|].
      cbn [parseElements]. rewrite EV, Hws, Hc, EE by lia. reflexivity.
    + destruct (N_of_ascii c =? 93)%N eqn:Hc'; [|discriminate H].
      injection H as <- <-.
      split; [lia|]. intros [|k] Hk; [lia|].
      cbn [parseElements]. rewrite EV, Hws, Hc, Hc' by lia. reflexivity.
  - intros s ms rest H. cbn [parseMembers] in H.
    destruct (skipWhitespace s) as [|q r] eqn:Hs; [discriminate H|].
    pose proof (skipWhitespace_shorter _ _ _ Hs) as Hr.
    destruct (negb (N_of_ascii q =? 34)%N) eqn:Hq; [discriminate H|].
    destruct (parseChars r) as [[k r1]|] eqn:Hk; [|discriminate H].
    pose proof (parseChars_shorter _ _ _ Hk) as Hr1.
    destruct (skipWhitespace r1) as [|c1 r2] eqn:Hs1; [discriminate H|].
    pose proof (skipWhitespace_shorter _ _ _ Hs1) as Hr2.
    destruct (negb (N_of_ascii c1 =? 58)%N) eqn:Hc1; [discriminate H|].
    destruct (parseValue fuel r2) as [[v r3]|] eqn:EV; [|discriminate H].
    apply IHV in EV as [Hv EV].
    destruct (skipWhitespace r3) as [|c3 r4] eqn:Hs3; [discriminate H|].
    pose proof (skipWhitespace_shorter _ _ _ Hs3) as Hr4.
    destruct (N_of_ascii c3 =? 44)%N eqn:Hc3.
    + destruct (parseMembers fuel r4) as [[ms' rest']|] eqn:EM; [|discriminate H].
      injection H as <- <-. apply IHM in EM as [Hm EM].
      split; [lia|]. intros [|n] Hn; [lia|].
      cbn [parseMembers]. rewrite Hs, Hq, Hk, Hs1, Hc1, EV, Hs3, Hc3, EM by lia.
      reflexivity.
    + destruct (N_of_ascii c3 =? 125)%N eqn:Hc3'; [|discriminate H].
      injection H as <- <-.
      split; [lia|]. intros [|n] Hn; [lia|].
      cbn [parseMembers]. rewrite Hs, Hq, Hk, Hs1, Hc1, EV, Hs3, Hc3, Hc3' by lia.
      reflexivity.
Qed.

(** The fuel [JSON_parse] gives is enough for every text: more fuel changes
    nothing. *)
Lemma parseValue_fuel (fuel : nat) (text : string) :
  String.length text < fuel ->
  parseValue fuel text = parseValue (S (String.length text)) text.
Proof.
  intros Hf.
  destruct (parseValue fuel text) as [[v r]|] eqn:E.
  - apply parse_fuel in E as [_ E]. symmetry. apply E. lia.
  - destruct (parseValue (S (String.length text)) text) as [[v r]|] eqn:E';
      [|reflexivity].
    apply parse_fuel in E' as [_ E']. rewrite E' in E by lia. discriminate E.
Qed.

End ParserFuel.

(* ===================================================================== *)
(** ** JSON: what [JSON.stringify] writes is read back                     *)
(* ===================================================================== *)

Section JsonFacts.
Import JS Scenario.
#[local] Arguments String.append !_ _ / : simpl nomatch.


Lemma value_induction (P : value -> Prop) :
  P VNull ->
  (forall b, P (VBool b)) ->
  (forall n, P (VNum n)) ->
  (forall s, P (VStr s)) ->
  (forall items, Forall P items -> P (VArr items)) ->
  (forall props, Forall (fun kv => P (snd kv)) props -> P (VObj props)) ->
  (forall d, P (VDate d)) ->
  forall v, P v.
Proof.
  intros Hnull Hbool Hnum Hstr Harr Hobj Hdate.
  fix IH 1. intros [ | b | n | s | items | props | d].
  - exact Hnull.
  - apply Hbool.
  - apply Hnum.
  - apply Hstr.
  - apply Harr. induction items as [|x items IHitems]; constructor; [apply IH | exact IHitems].
  - apply Hobj. induction props as [|[k x] props IHprops]; constructor;
      [apply IH | exact IHprops].
  - apply Hdate.
Qed.

Lemma skipWhitespace_blank (ws s : string) :
  blank ws = true -> skipWhitespace (ws ++ s) = skipWhitespace s.
Proof.
  induction ws as [|c ws IH]; cbn [blank String.append]; [reflexivity|].
  intros H. apply andb_true_iff in H as [Hc Hws].
  cbn [skipWhitespace]. rewrite Hc. now apply IH.
Qed.

Lemma blank_append (a b : string) : blank a = true -> blank b = true -> blank (a ++ b) = true.
Proof.
  induction a as [|c a IH]; cbn [blank String.append]; [auto|].
  intros H Hb. apply andb_true_iff in H as [Hc Ha]. rewrite Hc. now apply IH.
Qed.

(** *** Numbers *)

Lemma to_uint_no_leading_zero (p : positive) (u : Decimal.uint) :
  Pos.to_uint p <> Decimal.D0 u.
Proof.
  intros H.
  assert (Hn : Decimal.unorm (Pos.to_uint p) = Pos.to_uint p).
  { rewrite <- (DecimalPos.Unsigned.to_of (Pos.to_uint p)).
    now rewrite DecimalPos.Unsigned.of_to. }
  rewrite H, unorm_D0 in Hn.
  destruct (Decimal.uint_eq_dec u Decimal.Nil) as [->|Hne].
  - now apply (Unsigned.to_uint_nonzero p).
  - pose proof (nb_digits_unorm u Hne) as Hle.
    rewrite Hn in Hle. cbn [Decimal.nb_digits] in Hle. lia.
Qed.

(** *** String literals *)

Lemma parseChars_cons (c : ascii) (r : string) :
  parseChars (String c r) = parseChar parseChars c r.
Proof. reflexivity. Qed.

Lemma parseChars_quoteChar_at (n : N) (Y : string) :
  In n (([34; 92]%N ++ map N.of_nat (seq 0 32))%list) ->
  parseChars (quoteChar (ascii_of_N n) ++ Y) = consChar (ascii_of_N n) (parseChars Y).
Proof.
  revert n. apply List.Forall_forall.
  repeat (constructor;
          [ match goal with
            | |- parseChars (quoteChar ?c ++ Y) = _ =>
                let q := eval vm_compute in (quoteChar c) in
                change (quoteChar c) with q
            end;
            cbn [String.append]; rewrite parseChars_cons;
            lazy -[parseChars]; reflexivity |]).
  constructor.
Qed.

Lemma parseChars_quoteChar (c : ascii) (Y : string) :
  parseChars (quoteChar c ++ Y) = consChar c (parseChars Y).
Proof.
  destruct (N.eqb_spec (N_of_ascii c) 34) as [E34|E34];
    [|destruct (N.ltb_spec (N_of_ascii c) 32) as [E32|E32];
      [|destruct (N.eqb_spec (N_of_ascii c) 92) as [E92|E92]]].
  1-3: rewrite <- (ascii_N_embedding c); apply parseChars_quoteChar_at;
    apply in_app_iff; cbn [In].
  - rewrite E34. tauto.
  - right. apply in_map_iff. exists (N.to_nat (N_of_ascii c)). split; [lia|].
    apply in_seq. lia.
  - rewrite E92. tauto.
  - assert (Hq : quoteChar c = String c "").
    { unfold quoteChar.
      apply N.eqb_neq in E34, E92. rewrite E34, E92.
      repeat match goal with
             | |- context [(N_of_ascii c =? ?k)%N] =>
                 destruct (N.eqb_spec (N_of_ascii c) k); [lia|]
             end.
      apply N.ltb_ge in E32. now rewrite E32. }
    rewrite Hq. cbn [String.append]. rewrite parseChars_cons. unfold parseChar.
    apply N.eqb_neq in E34, E92. apply N.ltb_ge in E32. rewrite E34, E32, E92.
    cbn [negb]. destruct (parseChars Y) as [[str rest]|]; reflexivity.
Qed.

Lemma parseChars_quoteChars (s rest : string) :
  parseChars (quoteChars s ++ String "034" rest) = Some (s, rest).
Proof.
  induction s as [|c s IH].
  - reflexivity.
  - cbn [quoteChars]. rewrite append_assoc, parseChars_quoteChar, IH. reflexivity.
Qed.

(** *** Numbers, continued *)

Lemma endsNumber_tail (rest : string) :
  endsNumber rest = true -> startsNumberTail rest = false.
Proof.
  destruct rest as [|c rest]; [reflexivity|]. unfold endsNumber.
  destruct (digitValue c); [discriminate|]. now rewrite negb_true_iff.
Qed.

Lemma spanDigits_stop (rest : string) :
  endsNumber rest = true -> spanDigits rest = (EmptyString, rest).
Proof.
  destruct rest as [|c rest]; [reflexivity|]. unfold endsNumber. cbn [spanDigits].
  destruct (digitValue c); [discriminate | reflexivity].
Qed.

Ltac compute_digit :=
  repeat match goal with
         | |- context [digitValue (Ascii ?a ?b ?c ?d ?e ?f ?g ?h)] =>
             let v := eval vm_compute in (digitValue (Ascii a b c d e f g h)) in
             change (digitValue (Ascii a b c d e f g h)) with v
         end.

Lemma spanDigits_uint (u : Decimal.uint) (rest : string) :
  endsNumber rest = true ->
  spanDigits (NilEmpty.string_of_uint u ++ rest) = (NilEmpty.string_of_uint u, rest).
Proof.
  intros Hrest.
  induction u as [|u IH|u IH|u IH|u IH|u IH|u IH|u IH|u IH|u IH|u IH];
    cbn [NilEmpty.string_of_uint String.append];
    [now apply spanDigits_stop | ..];
    cbn [spanDigits]; compute_digit; cbv beta iota; now rewrite IH.
Qed.

Lemma parseDigits_uint (u : Decimal.uint) (negative : bool) (rest : string) :
  u <> Decimal.Nil ->
  (forall u', u = Decimal.D0 u' -> u' = Decimal.Nil) ->
  endsNumber rest = true ->
  parseDigits negative (NilEmpty.string_of_uint u ++ rest)
  = Some (VNum (if negative then - Z.of_N (N.of_uint u) else Z.of_N (N.of_uint u)), rest).
Proof.
  intros Hnil Hzero Hrest. unfold parseDigits.
  rewrite spanDigits_uint by exact Hrest.
  rewrite (endsNumber_tail rest Hrest).
  pose proof (NilEmpty.usu u) as Husu.
  destruct u as [|u|u|u|u|u|u|u|u|u|u]; [now elim Hnil | ..];
    cbn [NilEmpty.string_of_uint] in *;
    try (rewrite (Hzero u eq_refl));
    cbn [Ascii.eqb Bool.eqb andb orb negb NilEmpty.string_of_uint String.eqb];
    unfold NilZero.uint_of_string;
    try (rewrite (Hzero u eq_refl) in Husu; cbn [NilEmpty.string_of_uint] in Husu);
    rewrite Husu; reflexivity.
Qed.

Lemma parseNumber_numberToString (n : Z) (rest : string) :
  endsNumber rest = true ->
  parseNumber (numberToString n ++ rest) = Some (VNum n, rest).
Proof.
  intros Hrest. unfold numberToString.
  destruct n as [|p|p]; cbn [Z.to_int NilZero.string_of_int].
  - apply (parseDigits_uint (Decimal.D0 Decimal.Nil) false rest);
      [discriminate | now intros u' [= <-] | exact Hrest].
  - unfold NilZero.string_of_uint.
    pose proof (Unsigned.to_uint_nonnil p) as Hnil.
    pose proof (to_uint_no_leading_zero p) as Hzero.
    pose proof (parseDigits_uint (Pos.to_uint p) false rest Hnil
                  (fun u' H => False_ind _ (Hzero u' H)) Hrest) as Hparse.
    rewrite DecimalPos.Unsigned.of_to in Hparse.
    destruct (Pos.to_uint p) as [|u|u|u|u|u|u|u|u|u|u] eqn:Eu;
      [now elim Hnil | now elim (Hzero u) | ..];
      cbn [NilEmpty.string_of_uint String.append parseNumber Ascii.eqb Bool.eqb] in *;
      exact Hparse.
  - unfold NilZero.string_of_uint.
    pose proof (Unsigned.to_uint_nonnil p) as Hnil.
    pose proof (to_uint_no_leading_zero p) as Hzero.
    pose proof (parseDigits_uint (Pos.to_uint p) true rest Hnil
                  (fun u' H => False_ind _ (Hzero u' H)) Hrest) as Hparse.
    rewrite DecimalPos.Unsigned.of_to in Hparse.
    assert (Hs : (match Pos.to_uint p with
                  | Decimal.Nil => "0"
                  | _ => NilEmpty.string_of_uint (Pos.to_uint p)
                  end) = NilEmpty.string_of_uint (Pos.to_uint p)).
    { destruct (Pos.to_uint p); [now elim Hnil | reflexivity ..]. }
    rewrite Hs. cbn [String.append parseNumber Ascii.eqb Bool.eqb]. exact Hparse.
Qed.

(** *** Values *)

Ltac compute_chars :=
  repeat match goal with
         | |- context [isWhitespace (Ascii ?a ?b ?c ?d ?e ?f ?g ?h)] =>
             let v := eval vm_compute in (isWhitespace (Ascii a b c d e f g h)) in
             change (isWhitespace (Ascii a b c d e f g h)) with v
         | |- context [N_of_ascii (Ascii ?a ?b ?c ?d ?e ?f ?g ?h)] =>
             let v := eval vm_compute in (N_of_ascii (Ascii a b c d e f g h)) in
             change (N_of_ascii (Ascii a b c d e f g h)) with v
         end;
  cbn [N.eqb Pos.eqb negb andb orb].

(** Reading a value whose text starts, after blanks, with [c]. *)
Ltac parse_head :=
  cbn [parseValue]; rewrite ?skipWhitespace_blank by assumption;
  cbn [String.append skipWhitespace dquote nl]; compute_chars; cbv beta iota.

Lemma parseValue_null (fuel : nat) (ws rest : string) :
  blank ws = true ->
  parseValue (S fuel) (ws ++ "null" ++ rest) = Some (VNull, rest).
Proof. intros Hws. parse_head. reflexivity. Qed.

Lemma parseValue_true (fuel : nat) (ws rest : string) :
  blank ws = true ->
  parseValue (S fuel) (ws ++ "true" ++ rest) = Some (VBool true, rest).
Proof. intros Hws. parse_head. reflexivity. Qed.

Lemma parseValue_false (fuel : nat) (ws rest : string) :
  blank ws = true ->
  parseValue (S fuel) (ws ++ "false" ++ rest) = Some (VBool false, rest).
Proof. intros Hws. parse_head. reflexivity. Qed.

Lemma parseValue_string (fuel : nat) (ws s rest : string) :
  blank ws = true ->
  parseValue (S fuel) (ws ++ quoteJSONString s ++ rest) = Some (VStr s, rest).
Proof.
  intros Hws. unfold quoteJSONString. rewrite !append_assoc.
  parse_head. now rewrite parseChars_quoteChars.
Qed.

Lemma numberToString_head (n : Z) :
  exists c r, numberToString n = String c r /\ In c numberStarts.
Proof.
  unfold numberToString, numberStarts.
  destruct n as [|p|p]; cbn [Z.to_int NilZero.string_of_int NilZero.string_of_uint].
  - eexists _, _. split; [reflexivity|]. cbn [In]. tauto.
  - destruct (Pos.to_uint p); cbn [NilEmpty.string_of_uint];
      (eexists _, _; split; [reflexivity|]; cbn [In]; tauto).
  - eexists _, _. split; [reflexivity|]. cbn [In]. tauto.
Qed.

Lemma parseValue_number (fuel : nat) (ws rest : string) (n : Z) :
  blank ws = true -> endsNumber rest = true ->
  parseValue (S fuel) (ws ++ numberToString n ++ rest) = Some (VNum n, rest).
Proof.
  intros Hws Hrest. rewrite <- (parseNumber_numberToString n rest Hrest).
  destruct (numberToString_head n) as (c & r & -> & Hc).
  cbn [parseValue]. rewrite skipWhitespace_blank by assumption.
  cbn [String.append]. unfold numberStarts in Hc. cbn [In] in Hc.
  repeat (destruct Hc as [<-|Hc]); try contradiction;
    cbn [skipWhitespace]; compute_chars; cbv beta iota; reflexivity.
Qed.

(** The text of a value starts with a character that is not blank and
    closes no array or object. *)
Lemma serializeJSON_head (indent : string) (v : value) :
  exists c r, serializeJSON gap2 indent v = String c r
              /\ isWhitespace c = false
              /\ (N_of_ascii c =? 93)%N = false
              /\ (N_of_ascii c =? 125)%N = false.
Proof.
  destruct v as [ | [|] | n | s | items | props | [t|] ];
    cbn [serializeJSON];
    try (eexists _, _; split; [reflexivity | split; [|split]]; reflexivity).
  - destruct (numberToString_head n) as (c & r & -> & Hc).
    exists c, r. split; [reflexivity|]. unfold numberStarts in Hc. cbn [In] in Hc.
    repeat (destruct Hc as [<-|Hc]); try contradiction; repeat split; reflexivity.
  - unfold wrapJSON. destruct (map _ items);
      (eexists _, _; split; [reflexivity | split; [|split]]; reflexivity).
  - unfold wrapJSON. destruct (map _ props);
      (eexists _, _; split; [reflexivity | split; [|split]]; reflexivity).
Qed.

Lemma skipWhitespace_value (ws indent rest : string) (v : value) :
  blank ws = true ->
  skipWhitespace (ws ++ serializeJSON gap2 indent v ++ rest)
  = serializeJSON gap2 indent v ++ rest.
Proof.
  intros Hws. rewrite skipWhitespace_blank by assumption.
  destruct (serializeJSON_head indent v) as (c & r & -> & Hc & _).
  cbn [String.append skipWhitespace]. now rewrite Hc.
Qed.

Lemma parseElements_join (items : list value) :
  Forall readsBack items ->
  forallb distinctKeys items = true ->
  items <> [] ->
  forall fuel ws inner indent rest,
    blank ws = true -> blank inner = true -> blank indent = true ->
    (elementsWeight items <= fuel)%nat ->
    parseElements fuel
      (ws ++ Array_join (String "," (String "010" inner))
               (map (serializeJSON gap2 inner) items)
       ++ String "010" (indent ++ String "]" rest))
    = Some (map jsonView items, rest).
Proof.
  induction 1 as [|v items Hv Hitems IH]; intros Hkeys Hne fuel ws inner indent rest
                                                 Hws Hinner Hindent Hfuel;
    [now elim Hne|].
  cbn [forallb] in Hkeys. apply andb_true_iff in Hkeys as [Hkv Hkeys].
  cbn [elementsWeight fold_right] in Hfuel. fold (elementsWeight items) in Hfuel.
  destruct fuel as [|fuel]; [lia|]. cbn [parseElements].
  destruct items as [|v2 items].
  - cbn [map Array_join].
    rewrite (Hv Hkv fuel ws inner); [ | assumption | assumption | reflexivity | lia].
    cbn [skipWhitespace]. compute_chars. cbv beta iota.
    rewrite skipWhitespace_blank by assumption.
    cbn [skipWhitespace]. compute_chars. cbv beta iota. reflexivity.
  - change (map (serializeJSON gap2 inner) (v :: v2 :: items))
      with (serializeJSON gap2 inner v :: map (serializeJSON gap2 inner) (v2 :: items)).
    change (map jsonView (v :: v2 :: items))
      with (jsonView v :: map jsonView (v2 :: items)).
    remember (v2 :: items) as more eqn:Emore.
    assert (Hjoin : forall sep x, Array_join sep (x :: map (serializeJSON gap2 inner) more)
                                  = x ++ sep ++ Array_join sep (map (serializeJSON gap2 inner) more)).
    { intros sep x. subst more. reflexivity. }
    rewrite Hjoin, !append_assoc. cbn [String.append].
    rewrite (Hv Hkv fuel ws inner); [ | assumption | assumption | reflexivity | lia].
    cbn [skipWhitespace]. compute_chars. cbv beta iota.
    change (String "010" (inner ++ ?x)) with (String "010" inner ++ x).
    rewrite (IH Hkeys ltac:(subst more; discriminate) fuel (String "010" inner)
               inner indent rest); try assumption; try lia; reflexivity.
Qed.

Lemma parseMembers_join (props : list (string * value)) :
  Forall (fun kv => readsBack (snd kv)) props ->
  forallb (fun kv : string * value => distinctKeys (snd kv)) props = true ->
  props <> [] ->
  forall fuel ws inner indent rest,
    blank ws = true -> blank inner = true -> blank indent = true ->
    (membersWeight props <= fuel)%nat ->
    parseMembers fuel
      (ws ++ Array_join (String "," (String "010" inner)) (map (memberText inner) props)
       ++ String "010" (indent ++ String "}" rest))
    = Some (map memberView props, rest).
Proof.
  induction 1 as [|[k v] props Hv Hprops IH]; intros Hkeys Hne fuel ws inner indent rest
                                                     Hws Hinner Hindent Hfuel;
    [now elim Hne|].
  cbn [forallb snd] in Hkeys. apply andb_true_iff in Hkeys as [Hkv Hkeys].
  cbn [membersWeight fold_right snd] in Hfuel. fold (membersWeight props) in Hfuel.
  cbn [snd] in Hv.
  destruct fuel as [|fuel]; [lia|]. cbn [parseMembers].
  rewrite skipWhitespace_blank by assumption.
  destruct props as [|kv2 props].
  - cbn [map Array_join]. unfold memberText at 1, quoteJSONString. cbn [fst snd].
    rewrite !append_assoc. cbn [String.append dquote skipWhitespace].
    compute_chars. cbv beta iota.
    rewrite parseChars_quoteChars. cbn [skipWhitespace]. compute_chars. cbv beta iota.
    change (String " " (serializeJSON gap2 inner v ++ ?x))
      with (" " ++ serializeJSON gap2 inner v ++ x).
    rewrite (Hv Hkv fuel " " inner); [ | reflexivity | assumption | reflexivity | lia].
    cbn [skipWhitespace]. compute_chars. cbv beta iota.
    rewrite skipWhitespace_blank by assumption.
    cbn [skipWhitespace]. compute_chars. cbv beta iota. reflexivity.
  - change (map (memberText inner) ((k, v) :: kv2 :: props))
      with (memberText inner (k, v) :: map (memberText inner) (kv2 :: props)).
    change (map memberView ((k, v) :: kv2 :: props))
      with ((k, jsonView v) :: map memberView (kv2 :: props)).
    remember (kv2 :: props) as more eqn:Emore.
    assert (Hjoin : forall sep x, Array_join sep (x :: map (memberText inner) more)
                                  = x ++ sep ++ Array_join sep (map (memberText inner) more)).
    { intros sep x. subst more. reflexivity. }
    rewrite Hjoin. unfold memberText at 1, quoteJSONString. cbn [fst snd].
    rewrite !append_assoc. cbn [String.append dquote skipWhitespace].
    compute_chars. cbv beta iota.
    rewrite parseChars_quoteChars. cbn [skipWhitespace]. compute_chars. cbv beta iota.
    change (String " " (serializeJSON gap2 inner v ++ ?x))
      with (" " ++ serializeJSON gap2 inner v ++ x).
    rewrite (Hv Hkv fuel " " inner); [ | reflexivity | assumption | reflexivity | lia].
    cbn [skipWhitespace]. compute_chars. cbv beta iota.
    change (String "010" (inner ++ ?x)) with (String "010" inner ++ x).
    rewrite (IH Hkeys ltac:(subst more; discriminate) fuel (String "010" inner)
               inner indent rest); try assumption; try lia; reflexivity.
Qed.

Lemma Array_includes_false (keys : list string) (k : string) :
  Array_includes keys k = false <-> ~ In k keys.
Proof.
  unfold Array_includes. split.
  - intros H Hin. assert (Ht : existsb (String.eqb k) keys = true).
    { apply existsb_exists. exists k. split; [exact Hin | apply String.eqb_refl]. }
    congruence.
  - intros Hnot. destruct (existsb (String.eqb k) keys) eqn:E; [|reflexivity].
    apply existsb_exists in E as [y [Hy Heq]]. apply String.eqb_eq in Heq. subst.
    contradiction.
Qed.

Lemma distinct_NoDup (keys : list string) : distinct keys = true <-> List.NoDup keys.
Proof.
  induction keys as [|k keys IH]; cbn [distinct].
  - split; [constructor | reflexivity].
  - rewrite andb_true_iff, negb_true_iff, Array_includes_false, IH. split.
    + intros [H1 H2]. apply List.NoDup_cons; assumption.
    + intros H. apply List.NoDup_cons_iff in H. exact H.
Qed.

Lemma setProperty_fresh (props : list (string * value)) (k : string) (x : value) :
  ~ In k (map fst props) -> setProperty props k x = (props ++ [(k, x)])%list.
Proof.
  induction props as [|[k' y] props IH]; cbn [setProperty map fst In app]; [reflexivity|].
  intros Hnot. destruct (String.eqb_spec k' k) as [->|Hne]; [tauto|].
  rewrite IH by tauto. reflexivity.
Qed.

Lemma objectOfMembers_distinct (ms : list (string * value)) :
  distinct (map fst ms) = true -> objectOfMembers ms = ms.
Proof.
  intros H. apply distinct_NoDup in H. unfold objectOfMembers.
  assert (Hgen : forall acc,
             List.NoDup (map fst (acc ++ ms)%list) ->
             fold_left (fun o kv => setProperty o (fst kv) (snd kv)) ms acc
             = (acc ++ ms)%list).
  { clear H. induction ms as [|[k x] ms IH]; intros acc Hnd; cbn [fold_left fst snd].
    - now rewrite List.app_nil_r.
    - rewrite setProperty_fresh.
      + rewrite IH; rewrite <- List.app_assoc; [reflexivity | exact Hnd].
      + rewrite map_app in Hnd. cbn [map fst] in Hnd.
        apply NoDup_remove_2 in Hnd. intros Hin. apply Hnd. apply in_or_app. now left. }
  apply (Hgen []). exact H.
Qed.

Lemma serializeJSON_object (indent : string) (props : list (string * value)) :
  serializeJSON gap2 indent (VObj props)
  = wrapJSON "{" "}" gap2 indent (map (memberText (indent ++ gap2)) props).
Proof.
  cbn [serializeJSON]. f_equal. apply map_ext. intros [k x]. reflexivity.
Qed.

Lemma readsBack_all (v : value) : readsBack v.
Proof.
  induction v as [ | b | n | s | items IH | props IH | d ] using value_induction;
    intros Hkeys fuel ws indent rest Hws Hindent Hrest Hfuel;
    cbn [weight] in Hfuel; (destruct fuel as [|fuel]; [lia|]).
  - now apply parseValue_null.
  - destruct b; [now apply parseValue_true | now apply parseValue_false].
  - now apply parseValue_number.
  - now apply parseValue_string.
  - cbn [distinctKeys] in Hkeys. cbn [serializeJSON jsonView]. unfold wrapJSON.
    destruct items as [|v items].
    + cbn [map]. parse_head. reflexivity.
    + remember (v :: items) as all eqn:Eall.
      assert (Hne : all <> []) by (subst all; discriminate).
      assert (Hmap : map (serializeJSON gap2 (indent ++ gap2)) all
                     = serializeJSON gap2 (indent ++ gap2) v
                       :: map (serializeJSON gap2 (indent ++ gap2)) items)
        by (subst all; reflexivity).
      rewrite Hmap at 1. cbv beta iota. clear Hmap.
      change (String.eqb gap2 "") with false. cbv beta iota.
      assert (Hinner : blank (indent ++ gap2) = true)
        by (apply blank_append; [assumption | reflexivity]).
      set (inner := indent ++ gap2) in *.
      rewrite !append_assoc. parse_head.
      pose proof (skipWhitespace_value (String "010" inner) inner) as Hskip.
      cbn [String.append] in Hskip.
      assert (Hhead : exists c r,
                 skipWhitespace
                   (String "010"
                      (inner ++ Array_join (String "," (String "010" inner))
                                  (map (serializeJSON gap2 inner) all)
                       ++ String "010" (indent ++ String "]" rest))) = String c r
                 /\ (N_of_ascii c =? 93)%N = false).
      { subst all. destruct items as [|v2 items].
        - cbn [map Array_join]. rewrite Hskip by assumption.
          destruct (serializeJSON_head inner v) as (c & r & -> & _ & Hc & _).
          cbn [String.append]. eauto.
        - change (Array_join ?sep (map ?f (v :: v2 :: items)))
            with (f v ++ sep ++ Array_join sep (map f (v2 :: items))).
          cbv beta. rewrite !append_assoc. rewrite Hskip by assumption.
          destruct (serializeJSON_head inner v) as (c & r & -> & _ & Hc & _).
          cbn [String.append]. eauto. }
      destruct Hhead as (c & r & -> & ->).
      change (String "010" (inner ++ ?x)) with (String "010" inner ++ x).
      rewrite (parseElements_join all IH Hkeys Hne fuel (String "010" inner) inner
                 indent rest); try assumption; try reflexivity.
      fold (elementsWeight all) in Hfuel. lia.
  - cbn [distinctKeys] in Hkeys. apply andb_true_iff in Hkeys as [Hdistinct Hkeys].
    rewrite serializeJSON_object. cbn [jsonView]. unfold wrapJSON.
    destruct props as [|kv props].
    + cbn [map]. parse_head. reflexivity.
    + remember (kv :: props) as all eqn:Eall.
      assert (Hne : all <> []) by (subst all; discriminate).
      assert (Hmap : map (memberText (indent ++ gap2)) all
                     = memberText (indent ++ gap2) kv
                       :: map (memberText (indent ++ gap2)) props)
        by (subst all; reflexivity).
      rewrite Hmap at 1. cbv beta iota. clear Hmap.
      change (String.eqb gap2 "") with false. cbv beta iota.
      assert (Hinner : blank (indent ++ gap2) = true)
        by (apply blank_append; [assumption | reflexivity]).
      set (inner := indent ++ gap2) in *.
      rewrite !append_assoc. parse_head.
      assert (Hhead : exists r,
                 skipWhitespace
                   (String "010"
                      (inner ++ Array_join (String "," (String "010" inner))
                                  (map (memberText inner) all)
                       ++ String "010" (indent ++ String "}" rest))) = String "034" r).
      { change (String "010" (inner ++ ?x)) with (String "010" inner ++ x).
        rewrite skipWhitespace_blank by assumption.
        subst all. destruct kv as [k x]. destruct props as [|kv2 props].
        - cbn [map Array_join]. unfold memberText, quoteJSONString.
          cbn [fst String.append dquote skipWhitespace]. compute_chars. eauto.
        - change (Array_join ?sep (map ?f ((k, x) :: kv2 :: props)))
            with (f (k, x) ++ sep ++ Array_join sep (map f (kv2 :: props))).
          cbv beta. unfold memberText at 1, quoteJSONString.
          cbn [fst String.append dquote skipWhitespace]. compute_chars. eauto. }
      destruct Hhead as (r & ->). compute_chars. cbv beta iota.
      change (String "010" (inner ++ ?x)) with (String "010" inner ++ x).
      rewrite (parseMembers_join all IH Hkeys Hne fuel (String "010" inner) inner
                 indent rest); try assumption; try reflexivity.
      * fold memberView. rewrite objectOfMembers_distinct; [reflexivity|].
        rewrite map_map. cbn [memberView fst]. exact Hdistinct.
      * fold (membersWeight all) in Hfuel. lia.
  - destruct d as [t|]; cbn [serializeJSON jsonView].
    + now apply parseValue_string.
    + now apply parseValue_null.
Qed.

(** *** The whole text *)

Lemma append_empty (a : string) : a ++ "" = a.
Proof. induction a as [|c a IH]; simpl; [reflexivity | now f_equal]. Qed.

Lemma Array_join_length (sep : string) (texts : list string) :
  (1 <= String.length sep)%nat ->
  (textsLength texts <= S (String.length (Array_join sep texts)))%nat.
Proof.
  intros Hsep. induction texts as [|x [|y texts] IH].
  - cbn. lia.
  - cbn. lia.
  - change (Array_join sep (x :: y :: texts)) with (x ++ sep ++ Array_join sep (y :: texts)).
    change (textsLength (x :: y :: texts))
      with (S (String.length x + textsLength (y :: texts))).
    rewrite !append_length. lia.
Qed.

Lemma wrapJSON_length (opening closing indent : string) (partial : list string) :
  String.length opening = 1%nat -> String.length closing = 1%nat ->
  (S (textsLength partial) <= String.length (wrapJSON opening closing gap2 indent partial))%nat.
Proof.
  intros Ho Hc. unfold wrapJSON. destruct partial as [|x partial].
  - rewrite append_length. cbn [textsLength fold_right]. lia.
  - change (String.eqb gap2 "") with false. cbv beta iota.
    pose proof (Array_join_length ("," ++ nl ++ (indent ++ gap2)) (x :: partial)) as Hj.
    rewrite !append_length in *. cbn [String.length nl] in *. lia.
Qed.

Lemma weight_le_length (v : value) :
  forall indent, (weight v <= String.length (serializeJSON gap2 indent v))%nat.
Proof.
  induction v as [ | b | n | s | items IH | props IH | d ] using value_induction;
    intros indent; cbn [weight serializeJSON].
  - cbn. lia.
  - destruct b; cbn; lia.
  - destruct (numberToString_head n) as (c & r & -> & _). cbn. lia.
  - unfold quoteJSONString. rewrite !append_length. cbn. lia.
  - etransitivity; [|apply wrapJSON_length; reflexivity]. apply le_n_S.
    induction IH as [|v items Hv _ IHitems]; cbn [map fold_right textsLength]; [lia|].
    fold (textsLength (map (serializeJSON gap2 (indent ++ gap2)) items)).
    specialize (Hv (indent ++ gap2)). lia.
  - etransitivity; [|apply wrapJSON_length; reflexivity]. apply le_n_S.
    induction IH as [|[k v] props Hv _ IHprops]; cbn [map fold_right textsLength snd]; [lia|].
    match goal with
    | |- context [map ?f props] => fold (textsLength (map f props))
    end.
    cbn [snd] in Hv. specialize (Hv (indent ++ gap2)).
    rewrite !append_length. lia.
  - destruct d as [t|]; [|cbn; lia].
    unfold quoteJSONString. rewrite !append_length. cbn. lia.
Qed.

(** The text [JSON.stringify(v, null, 2)] writes, parsed, is the value as
    JSON shows it. *)
Theorem JSON_parse_stringify (v : value) :
  distinctKeys v = true -> JSON_parse (JSON_stringify_2 v) = Ok (jsonView v).
Proof.
  intros Hkeys. unfold JSON_parse, JSON_stringify_2.
  pose proof (readsBack_all v Hkeys (S (String.length (serializeJSON gap2 "" v)))
                "" "" "" eq_refl eq_refl eq_refl) as H.
  cbn [String.append] in H. rewrite append_empty in H.
  change "  " with gap2. rewrite H; [reflexivity|].
  pose proof (weight_le_length v ""). lia.
Qed.

Lemma jsonView_data (v : value) : isJSONData v = true -> jsonView v = v /\ distinctKeys v = true.
Proof.
  induction v as [ | b | n | s | items IH | props IH | d ] using value_induction;
    cbn [isJSONData jsonView distinctKeys]; intros H; try (split; reflexivity);
    try discriminate.
  - assert (Hall : map jsonView items = items /\ forallb distinctKeys items = true).
    { induction IH as [|v items Hv _ IHitems]; cbn [map forallb] in *; [now split|].
      apply andb_true_iff in H as [H1 H2].
      destruct (Hv H1) as [-> ->]. destruct (IHitems H2) as [-> ->]. now split. }
    destruct Hall as [-> ->]. now split.
  - apply andb_true_iff in H as [Hd H]. rewrite Hd.
    assert (Hall : map (fun kv : string * value => (fst kv, jsonView (snd kv))) props = props
                   /\ forallb (fun kv : string * value => distinctKeys (snd kv)) props = true).
    { clear Hd. induction IH as [|[k v] props Hv _ IHprops]; cbn [map forallb fst snd] in *;
        [now split|].
      apply andb_true_iff in H as [H1 H2].
      destruct (Hv H1) as [-> ->]. destruct (IHprops H2) as [-> ->]. now split. }
    destruct Hall as [-> ->]. now split.
Qed.

End JsonFacts.

(* ===================================================================== *)
(** ** Saving a plan and loading it back                                   *)
(* ===================================================================== *)

Section RoundTrip.
Import JS Types PlanFileStore Scenario.
#[local] Arguments String.append !_ _ / : simpl nomatch.

Lemma writeFile_written (path content : string) (fs fs' : FileSystem) :
  writeFile path content fs = (Ok tt, fs') -> files fs' !! path = Some content.
Proof.
  unfold writeFile. destruct (isDirectory fs path); [discriminate|].
  destruct (negb _); [discriminate|]. intros [= <-]. cbn [files].
  apply lookup_insert_eq.
Qed.

Lemma savePlanFile_written (home cwd : string) (planFile : PlanFile)
    (markdownContent : option string) (fs fs' : FileSystem) :
  savePlanFile home cwd planFile markdownContent fs = (Ok tt, fs') ->
  files fs' !! getPlanJsonPath cwd (slug planFile)
  = Some (JSON_stringify_2 (PlanFile_toValue planFile)).
Proof.
  unfold savePlanFile.
  destruct (ensurePlanDirectory home cwd fs) as [[u|e] fs1]; [|discriminate].
  destruct (match markdownContent with
            | Some md => if String.eqb md "" then generatePlanMarkdown planFile else Ok md
            | None => generatePlanMarkdown planFile
            end) as [content|e]; [|discriminate].
  destruct (writeFile (getPlanMdPath cwd (slug planFile)) content fs1) as [[u'|e] fs2];
    [|discriminate].
  apply writeFile_written.
Qed.

Lemma strings_distinctKeys (l : list string) : forallb distinctKeys (map VStr l) = true.
Proof. induction l as [|x l IH]; [reflexivity | exact IH]. Qed.

Lemma strings_jsonView (l : list string) : map jsonView (map VStr l) = map VStr l.
Proof. induction l as [|x l IH]; cbn [map jsonView]; [reflexivity | now rewrite IH]. Qed.




End RoundTrip.

(* ===================================================================== *)
(** ** Planning manager: the walk through the phases                       *)
(* ===================================================================== *)

Section PhaseWalk.
Import JS Types PlanningManager Sessions.

Lemma canTransitionToPhase_next (from to : PlanningPhase) :
  canTransitionToPhase from to = true <-> getNextPhase from = Some to.
Proof.
  destruct from, to; vm_compute; split; intros H; try reflexivity; discriminate H.
Qed.

Lemma transitionToNextPhase_enabled (now : Z) (st : PlanningState) :
  enabled st = true ->
  transitionToNextPhase now st
  = match getNextPhase (currentPhase st) with
    | None =>
        (false,
         {| currentPhase := currentPhase st; planFile := planFile st;
            phaseProgress := markCompleted st; enabled := true |}, [])
    | Some next =>
        match planFile st with
        | Some pf =>
            (true,
             {| currentPhase := next; planFile := Some (touch_phase next now pf);
                phaseProgress := markCompleted st; enabled := true |},
             [planUpdated (touch_phase next now pf); phaseChanged next])
        | None =>
            (true,
             {| currentPhase := next; planFile := None;
                phaseProgress := markCompleted st; enabled := true |},
             [phaseChanged next])
        end
    end.
Proof.
  intros Hen. destruct st as [cur pf prog en]. cbn [enabled] in Hen. subst en.
  unfold transitionToNextPhase, markCompleted.
  cbn [negb enabled with_phaseProgress currentPhase planFile phaseProgress].
  destruct (getNextPhase cur); [|reflexivity].
  destruct pf; reflexivity.
Qed.

(** X1: on an enabled manager [setPhase] accepts the phase that follows the
    current one and no other.  To that phase it moves as
    [transitionToNextPhase] does (same phase, same plan, same notifications)
    but marks nothing completed; for any other phase, the current one
    included, it throws and changes nothing. *)
Theorem setPhase_accepts_next_only (now : Z) (phase : PlanningPhase) (st : PlanningState) :
  enabled st = true ->
  (getNextPhase (currentPhase st) = Some phase ->
     let after := snd (fst (setPhase now phase st)) in
     let moved := snd (fst (transitionToNextPhase now st)) in
     fst (fst (setPhase now phase st)) = Ok tt
     /\ currentPhase after = phase
     /\ currentPhase after = currentPhase moved
     /\ planFile after = planFile moved
     /\ snd (setPhase now phase st) = snd (transitionToNextPhase now st)
     /\ phaseProgress after = phaseProgress st
     /\ enabled after = true)
  /\ (getNextPhase (currentPhase st) <> Some phase ->
        setPhase now phase st
        = (Throw (MkError "Error"
             ("Cannot transition from " ++ PlanningPhase_name (currentPhase st)
              ++ " to " ++ PlanningPhase_name phase)), st, [])).
Proof.
  intros Hen. split.
  - intros Hnext. cbv zeta.
    rewrite (transitionToNextPhase_enabled now st Hen), Hnext.
    unfold setPhase. rewrite Hen. cbn [negb].
    rewrite (proj2 (canTransitionToPhase_next _ _) Hnext). cbn [negb].
    destruct st as [cur pf prog en]. cbn [enabled] in Hen. subst en.
    cbn [with_currentPhase planFile].
    destruct pf as [pf|]; cbn; repeat split; reflexivity.
  - intros Hnext. unfold setPhase. rewrite Hen. cbn [negb].
    destruct (canTransitionToPhase (currentPhase st) phase) eqn:E; [|reflexivity].
    apply canTransitionToPhase_next in E. contradiction.
Qed.

Lemma setPhase_accepts_next_only_witness :
  fst (fst (setPhase 7 design (fst (enable PlanningManager.new)))) = Ok tt
  /\ fst (fst (setPhase 7 review (fst (enable PlanningManager.new))))
     = Throw (MkError "Error" "Cannot transition from initial_understanding to review").
Proof.
  split.
  - apply (proj1 (setPhase_accepts_next_only 7 design (fst (enable PlanningManager.new))
                    eq_refl)). reflexivity.
  - rewrite (proj2 (setPhase_accepts_next_only 7 review (fst (enable PlanningManager.new))
                      eq_refl)); [reflexivity | discriminate].
Defined.

Lemma phaseIndex_range (p : PlanningPhase) : 0 <= phaseIndex p <= 4.
Proof. destruct p; vm_compute; split; discriminate. Qed.

Lemma getNextPhase_index (p q : PlanningPhase) :
  getNextPhase p = Some q <-> phaseIndex q = phaseIndex p + 1.
Proof.
  destruct p, q; vm_compute; split; intros H; try reflexivity; discriminate H.
Qed.

Lemma getNextPhase_none (p : PlanningPhase) : getNextPhase p = None <-> p = exit.
Proof. destruct p; vm_compute; split; intros H; try reflexivity; discriminate H. Qed.

Lemma phaseIndex_inj (p q : PlanningPhase) : phaseIndex p = phaseIndex q -> p = q.
Proof. destruct p, q; vm_compute; intros H; try reflexivity; discriminate H. Qed.

Lemma progress_get_set (t : PhaseProgressTable) (p q : PlanningPhase) (x : PhaseProgress) :
  progress_get (progress_set t p x) q = if PlanningPhase_eqb p q then x else progress_get t q.
Proof. destruct p, q; reflexivity. Qed.

Lemma PlanningPhase_eqb_eq (p q : PlanningPhase) : PlanningPhase_eqb p q = true <-> p = q.
Proof. destruct p, q; cbn; split; intros H; try reflexivity; discriminate H. Qed.

(** One call on an enabled manager. *)
Lemma transition_step (now : Z) (st : PlanningState) :
  enabled st = true ->
  let st' := snd (fst (transitionToNextPhase now st)) in
  enabled st' = true
  /\ phaseIndex (currentPhase st') = Z.min 4 (phaseIndex (currentPhase st) + 1)
  /\ (fst (fst (transitionToNextPhase now st)) = true <-> currentPhase st <> exit)
  /\ (forall p, completed (progress_get (phaseProgress st') p)
                = PlanningPhase_eqb (currentPhase st) p
                  || completed (progress_get (phaseProgress st) p))
  /\ (forall p, steps (progress_get (phaseProgress st') p)
                = steps (progress_get (phaseProgress st) p)
                /\ notes (progress_get (phaseProgress st') p)
                   = notes (progress_get (phaseProgress st) p)).
Proof.
  intros Hen. cbv zeta. rewrite (transitionToNextPhase_enabled now st Hen).
  assert (Hprog :
            (forall p, completed (progress_get (markCompleted st) p)
                       = PlanningPhase_eqb (currentPhase st) p
                         || completed (progress_get (phaseProgress st) p))
            /\ (forall p, steps (progress_get (markCompleted st) p)
                          = steps (progress_get (phaseProgress st) p)
                          /\ notes (progress_get (markCompleted st) p)
                             = notes (progress_get (phaseProgress st) p))).
  { unfold markCompleted. split; intros p; rewrite progress_get_set;
      destruct (PlanningPhase_eqb (currentPhase st) p) eqn:E; try reflexivity.
    - apply PlanningPhase_eqb_eq in E. subst p. split; reflexivity.
    - split; reflexivity. }
  destruct (getNextPhase (currentPhase st)) as [next|] eqn:Hnext.
  - assert (Hidx := proj1 (getNextPhase_index _ _) Hnext).
    pose proof (phaseIndex_range next).
    assert (Hne : currentPhase st <> exit).
    { intros Hex. rewrite Hex in Hnext. discriminate Hnext. }
    destruct (planFile st) as [pf|];
      cbn [fst snd currentPhase enabled phaseProgress];
      (split; [reflexivity|]); (split; [lia|]); (split; [tauto|]); exact Hprog.
  - apply getNextPhase_none in Hnext.
    cbn [fst snd currentPhase enabled phaseProgress].
    split; [reflexivity|]. split; [rewrite Hnext; reflexivity|].
    split; [split; [discriminate | contradiction]|].
    exact Hprog.
Qed.

(** X2: on an enabled manager, [n] calls of [transitionToNextPhase] move the
    phase [n] places along the workflow, stopping at [exit]; the manager
    stays enabled, every phase left behind is marked completed, and one more
    call succeeds exactly when [exit] has not been reached. *)
Theorem transitions_walk (clock : list Z) (now : Z) (st : PlanningState) :
  enabled st = true ->
  let st' := transitions clock st in
  enabled st' = true
  /\ phaseIndex (currentPhase st')
     = Z.min 4 (phaseIndex (currentPhase st) + Z.of_nat (length clock))
  /\ (forall p, phaseIndex (currentPhase st) <= phaseIndex p < phaseIndex (currentPhase st') ->
        completed (progress_get (phaseProgress st') p) = true)
  /\ (fst (fst (transitionToNextPhase now st')) = true
      <-> phaseIndex (currentPhase st) + Z.of_nat (length clock) < 4).
Proof.
  cbv zeta. revert st. induction clock as [|t clock IH]; intros st Hen.
  - cbn [transitions length Z.of_nat]. pose proof (phaseIndex_range (currentPhase st)).
    split; [exact Hen|]. split; [lia|]. split; [intros p Hp; lia|].
    destruct (transition_step now st Hen) as (_ & _ & Hok & _). rewrite Hok.
    split.
    + intros Hne. destruct (currentPhase st); try (now elim Hne); vm_compute; reflexivity.
    + intros Hlt Hex. rewrite Hex in Hlt. vm_compute in Hlt. discriminate Hlt.
  - cbn [transitions].
    destruct (transition_step t st Hen) as (Hen1 & Hidx & _ & Hdone & _).
    destruct (IH _ Hen1) as (Hen' & Hidx' & Hdone' & Hok').
    pose proof (phaseIndex_range (currentPhase st)).
    split; [exact Hen'|]. split; [rewrite Hidx', Hidx; cbn [length]; lia|]. split.
    + intros p Hp.
      destruct (Z.eq_dec (phaseIndex p) (phaseIndex (currentPhase st))) as [Heq|Hne].
      * apply phaseIndex_inj in Heq. subst p.
        assert (Hkeep : forall (c : list Z) (s : PlanningState) q,
                  enabled s = true ->
                  completed (progress_get (phaseProgress s) q) = true ->
                  completed (progress_get (phaseProgress (transitions c s)) q) = true).
        { clear. induction c as [|t' c IHc]; intros s q Hs Hq; [exact Hq|].
          cbn [transitions]. destruct (transition_step t' s Hs) as (Hs1 & _ & _ & Hd & _).
          apply IHc; [exact Hs1|]. rewrite Hd, Hq. apply orb_true_r. }
        apply Hkeep; [exact Hen1|]. rewrite Hdone.
        rewrite (proj2 (PlanningPhase_eqb_eq _ _) eq_refl). reflexivity.
      * apply Hdone'. rewrite Hidx. lia.
    + rewrite Hok', Hidx. cbn [length]. lia.
Qed.

Lemma transitions_walk_witness :
  currentPhase (transitions [1; 2; 3; 4] (fst (enable PlanningManager.new))) = exit
  /\ fst (fst (transitionToNextPhase 5
                 (transitions [1; 2; 3; 4] (fst (enable PlanningManager.new))))) = false.
Proof.
  destruct (transitions_walk [1; 2; 3; 4] 5 (fst (enable PlanningManager.new)) eq_refl)
    as (_ & Hidx & _ & Hok).
  split.
  - apply phaseIndex_inj. rewrite Hidx. reflexivity.
  - destruct (fst (fst (transitionToNextPhase 5 _))); [|reflexivity].
    apply proj1 in Hok. specialize (Hok eq_refl). vm_compute in Hok. discriminate Hok.
Defined.

(** What the calls that move the phase do to the state, for the invariants. *)
Lemma setPhase_cases (now : Z) (phase : PlanningPhase) (st : PlanningState) :
  let st' := snd (fst (setPhase now phase st)) in
  st' = st
  \/ (enabled st = true /\ getNextPhase (currentPhase st) = Some phase
      /\ st' = {| currentPhase := phase;
                  planFile := option_map (touch_phase phase now) (planFile st);
                  phaseProgress := phaseProgress st; enabled := true |}).
Proof.
  cbv zeta. unfold setPhase. destruct st as [cur pf prog en]. cbn [enabled currentPhase].
  destruct en; cbn [negb]; [|now left].
  destruct (canTransitionToPhase cur phase) eqn:E; cbn [negb]; [|now left].
  apply canTransitionToPhase_next in E. right.
  split; [reflexivity|]. split; [exact E|].
  destruct pf; reflexivity.
Qed.

Lemma transitionToNextPhase_cases (now : Z) (st : PlanningState) :
  let st' := snd (fst (transitionToNextPhase now st)) in
  (enabled st = false /\ st' = st)
  \/ (enabled st = true /\ currentPhase st = exit
      /\ st' = {| currentPhase := exit; planFile := planFile st;
                  phaseProgress := markCompleted st; enabled := true |})
  \/ (enabled st = true
      /\ exists next, getNextPhase (currentPhase st) = Some next
         /\ st' = {| currentPhase := next;
                     planFile := option_map (touch_phase next now) (planFile st);
                     phaseProgress := markCompleted st; enabled := true |}).
Proof.
  cbv zeta. destruct (enabled st) eqn:Hen.
  - right. rewrite (transitionToNextPhase_enabled now st Hen).
    destruct (getNextPhase (currentPhase st)) as [next|] eqn:Hnext.
    + right. split; [reflexivity|]. exists next. split; [reflexivity|].
      destruct (planFile st); reflexivity.
    + left. apply getNextPhase_none in Hnext. rewrite Hnext. now split.
  - left. split; [reflexivity|]. unfold transitionToNextPhase. now rewrite Hen.
Qed.

Lemma enable_cases (st : PlanningState) :
  (enabled st = true /\ fst (enable st) = st)
  \/ (enabled st = false
      /\ fst (enable st)
         = {| currentPhase := initial_understanding; planFile := planFile st;
              phaseProgress := phaseProgress st; enabled := true |}).
Proof.
  unfold enable. destruct (enabled st); [left | right]; split; reflexivity.
Qed.

Lemma disable_cases (st : PlanningState) :
  (enabled st = false /\ fst (disable st) = st)
  \/ (enabled st = true /\ fst (disable st) = createInitialPlanningState).
Proof.
  unfold disable. destruct (enabled st); [right | left]; split; reflexivity.
Qed.

Lemma markCompleted_completed (st : PlanningState) (p : PlanningPhase) :
  completed (progress_get (markCompleted st) p)
  = PlanningPhase_eqb (currentPhase st) p || completed (progress_get (phaseProgress st) p).
Proof.
  unfold markCompleted. rewrite progress_get_set.
  now destruct (PlanningPhase_eqb (currentPhase st) p).
Qed.

Lemma managed_phases (allowed : PlanFileUpdates -> Prop) (st : PlanningState) :
  managed allowed st ->
  (enabled st = false ->
     currentPhase st = initial_understanding
     /\ forall p, completed (progress_get (phaseProgress st) p) = false)
  /\ (forall p, completed (progress_get (phaseProgress st) p) = true ->
        phaseIndex p < phaseIndex (currentPhase st)
        \/ (p = exit /\ currentPhase st = exit)).
Proof.
  induction 1 as [ | st st' _ IH Hcall ];
    [ | destruct Hcall as [ st | st | now st | now phase st | step st | text st
                          | rng now userRequest st | now updates st _ | st
                          | now key x st ] ].
  - split; [intros _; split; [reflexivity | intros p; now destruct p]|].
    intros p Hp. destruct p; discriminate Hp.
  - destruct (enable_cases st) as [[_ ->] | [Hen ->]]; [exact IH|].
    destruct IH as [IH _]. destruct (IH Hen) as [_ Hnone].
    split; [discriminate|].
    intros p Hp. cbn [phaseProgress] in Hp. rewrite Hnone in Hp. discriminate Hp.
  - destruct (disable_cases st) as [[_ ->] | [_ ->]]; [exact IH|].
    split; [intros _; split; [reflexivity | intros p; now destruct p]|].
    intros p Hp. destruct p; discriminate Hp.
  - destruct (transitionToNextPhase_cases now st)
      as [[_ ->] | [(Hen & Hex & ->) | (Hen & next & Hnext & ->)]]; [exact IH| |];
      destruct IH as [_ IH]; (split; [discriminate|]); intros p;
      cbn [phaseProgress currentPhase]; rewrite markCompleted_completed;
      intros Hp; apply orb_true_iff in Hp as [Hp|Hp].
    + apply PlanningPhase_eqb_eq in Hp. subst p. right. now split.
    + destruct (IH p Hp) as [Hlt | [Hp1 Hp2]]; [left; now rewrite <- Hex | right; now split].
    + apply PlanningPhase_eqb_eq in Hp. subst p.
      apply getNextPhase_index in Hnext. left. lia.
    + apply getNextPhase_index in Hnext as Hidx.
      destruct (IH p Hp) as [Hlt | [Hp1 Hp2]]; [left; lia|].
      rewrite Hp2 in Hnext. discriminate Hnext.
  - destruct (setPhase_cases now phase st) as [-> | (Hen & Hnext & ->)]; [exact IH|].
    destruct IH as [_ IH]. split; [discriminate|]. intros p Hp.
    cbn [phaseProgress currentPhase] in *.
    apply getNextPhase_index in Hnext as Hidx.
    destruct (IH p Hp) as [Hlt | [Hp1 Hp2]]; [left; lia|].
    rewrite Hp2 in Hnext. discriminate Hnext.
  - unfold addStep. cbn [with_phaseProgress enabled currentPhase phaseProgress].
    destruct IH as [IH1 IH2]. split.
    + intros Hen. destruct (IH1 Hen) as [Hcur Hnone]. split; [exact Hcur|].
      intros p. rewrite progress_get_set.
      destruct (PlanningPhase_eqb (currentPhase st) p) eqn:E; [|apply Hnone].
      cbn [completed]. apply Hnone.
    + intros p. rewrite progress_get_set.
      destruct (PlanningPhase_eqb (currentPhase st) p) eqn:E; [|apply IH2].
      apply PlanningPhase_eqb_eq in E. subst p. cbn [completed]. apply IH2.
  - unfold setNotes. cbn [with_phaseProgress enabled currentPhase phaseProgress].
    destruct IH as [IH1 IH2]. split.
    + intros Hen. destruct (IH1 Hen) as [Hcur Hnone]. split; [exact Hcur|].
      intros p. rewrite progress_get_set.
      destruct (PlanningPhase_eqb (currentPhase st) p) eqn:E; [|apply Hnone].
      cbn [completed]. apply Hnone.
    + intros p. rewrite progress_get_set.
      destruct (PlanningPhase_eqb (currentPhase st) p) eqn:E; [|apply IH2].
      apply PlanningPhase_eqb_eq in E. subst p. cbn [completed]. apply IH2.
  - unfold createPlanFile. destruct (generateSlug rng) as [sl rng1].
    destruct (randomUUID rng1) as [uuid rng2]. exact IH.
  - unfold updatePlanFile. destruct (planFile st); exact IH.
  - exact IH.
  - unfold addClarification. destruct (planFile st); exact IH.
Qed.

(** X3: in every state a planning manager can be in, a phase is marked
    completed only if the workflow has moved past it, or if it is [exit] and
    the workflow is at [exit]; a disabled manager is in the first phase with
    nothing marked completed. *)
Theorem completed_phases_lie_behind (allowed : PlanFileUpdates -> Prop)
    (st : PlanningState) :
  managed allowed st ->
  (enabled st = false ->
     currentPhase st = initial_understanding
     /\ forall p, completed (progress_get (phaseProgress st) p) = false)
  /\ (forall p, completed (progress_get (phaseProgress st) p) = true ->
        phaseIndex p < phaseIndex (currentPhase st)
        \/ (p = exit /\ currentPhase st = exit)).
Proof. apply managed_phases. Qed.

Lemma completed_phases_lie_behind_witness :
  let st := transitions [1; 2] (fst (enable PlanningManager.new)) in
  managed anyUpdate st
  /\ completed (progress_get (phaseProgress st) design) = true
  /\ (phaseIndex design < phaseIndex (currentPhase st)
      \/ (design = exit /\ currentPhase st = exit)).
Proof.
  cbv zeta.
  assert (Hm : managed anyUpdate (transitions [1; 2] (fst (enable PlanningManager.new)))).
  { cbn [transitions].
    do 2 (eapply managed_call; [|apply call_transition]).
    eapply managed_call; [apply managed_new | apply call_enable]. }
  split; [exact Hm|]. split; [reflexivity|].
  apply (proj2 (completed_phases_lie_behind anyUpdate _ Hm)). reflexivity.
Defined.

(** X4: as long as [updatePlanFile] is not given a phase, the plan of a
    planning manager carries the manager's current phase. *)
Theorem plan_phase_follows_manager (st : PlanningState) (pf : PlanFile) :
  managed keepsPhase st ->
  planFile st = Some pf ->
  phase pf = currentPhase st.
Proof.
  intros Hm. revert pf.
  induction Hm as [ | st st' Hm IH Hcall ]; intros pf;
    [ | destruct Hcall as [ st | st | now st | now phase st | step st | text st
                          | rng now userRequest st | now updates st Hok | st
                          | now key x st ] ].
  - discriminate.
  - destruct (enable_cases st) as [[_ ->] | [Hen ->]]; [apply IH|].
    cbn [planFile currentPhase]. intros Hpf. rewrite (IH pf Hpf).
    now destruct (proj1 (managed_phases _ _ Hm) Hen) as [-> _].
  - destruct (disable_cases st) as [[_ ->] | [_ ->]]; [apply IH | discriminate].
  - destruct (transitionToNextPhase_cases now st)
      as [[_ ->] | [(Hen & Hex & ->) | (Hen & next & Hnext & ->)]]; [apply IH| |];
      cbn [planFile currentPhase].
    + intros Hpf. rewrite (IH pf Hpf). exact Hex.
    + destruct (planFile st); [|discriminate]. intros [= <-]. reflexivity.
  - destruct (setPhase_cases now phase st) as [-> | (Hen & Hnext & ->)]; [apply IH|].
    cbn [planFile currentPhase].
    destruct (planFile st); [|discriminate]. intros [= <-]. reflexivity.
  - apply IH.
  - apply IH.
  - unfold createPlanFile. destruct (generateSlug rng) as [sl rng1].
    destruct (randomUUID rng1) as [uuid rng2].
    cbn [fst snd with_planFile planFile currentPhase]. intros [= <-]. reflexivity.
  - unfold updatePlanFile. destruct (planFile st) as [old|] eqn:Hold;
      [|cbn [fst]; rewrite Hold; discriminate].
    cbn [fst with_planFile planFile currentPhase]. intros [= <-]. cbn [phase].
    unfold keepsPhase in Hok. rewrite Hok. cbn [spread]. now apply IH.
  - discriminate.
  - unfold addClarification. destruct (planFile st) as [old|] eqn:Hold;
      [|cbn [fst]; rewrite Hold; discriminate].
    cbn [fst with_planFile planFile currentPhase]. intros [= <-]. cbn [phase].
    now apply IH.
Qed.

Lemma plan_phase_follows_manager_witness :
  let st :=
    transitions [2; 3]
      (snd (fst (fst (createPlanFile Scenario.sampleRng 1 "build a login page"
                        (fst (enable PlanningManager.new)))))) in
  exists pf, planFile st = Some pf /\ phase pf = review /\ currentPhase st = review.
Proof.
  cbv zeta.
  set (st := transitions [2; 3]
               (snd (fst (fst (createPlanFile Scenario.sampleRng 1 "build a login page"
                                 (fst (enable PlanningManager.new))))))).
  assert (Hcur : currentPhase st = review) by reflexivity.
  assert (Hm : managed keepsPhase st).
  { unfold st. cbn [transitions].
    do 2 (eapply managed_call; [|apply call_transition]).
    eapply managed_call; [|apply call_createPlanFile].
    eapply managed_call; [apply managed_new | apply call_enable]. }
  destruct (planFile st) as [pf|] eqn:Hpf; [|vm_compute in Hpf; discriminate Hpf].
  exists pf. split; [reflexivity|]. split; [|exact Hcur].
  rewrite <- Hcur. exact (plan_phase_follows_manager st pf Hm Hpf).
Defined.

Lemma markCompleted_steps (st : PlanningState) (p : PlanningPhase) :
  steps (progress_get (markCompleted st) p) = steps (progress_get (phaseProgress st) p).
Proof.
  unfold markCompleted. rewrite progress_get_set.
  destruct (PlanningPhase_eqb (currentPhase st) p) eqn:E; [|reflexivity].
  apply PlanningPhase_eqb_eq in E. now subst p.
Qed.

(** X5: no call of the planning manager drops or reorders the steps recorded
    for a phase, except the [disable] that resets an enabled manager: after
    any other call the list of every phase starts with what it was, and only
    [addStep] adds to it, one step at the end of the current phase's list. *)
Theorem calls_keep_steps (allowed : PlanFileUpdates -> Prop) (st st' : PlanningState) :
  call allowed st st' ->
  (forall p, exists more,
      steps (progress_get (phaseProgress st') p)
      = (steps (progress_get (phaseProgress st) p) ++ more)%list
      /\ (more = []
          \/ (p = currentPhase st /\ exists step, more = [step] /\ st' = addStep step st)))
  \/ (enabled st = true /\ st' = createInitialPlanningState).
Proof.
  assert (Hsame : forall a b : PlanningState,
            (forall p, steps (progress_get (phaseProgress b) p)
                       = steps (progress_get (phaseProgress a) p)) ->
            forall p, exists more,
              steps (progress_get (phaseProgress b) p)
              = (steps (progress_get (phaseProgress a) p) ++ more)%list
              /\ (more = []
                  \/ (p = currentPhase a
                      /\ exists step, more = [step] /\ b = addStep step a))).
  { intros a b H p. exists []. rewrite List.app_nil_r. split; [apply H | now left]. }
  intros Hcall.
  destruct Hcall as [ st | st | now st | now phase st | step st | text st
                    | rng now userRequest st | now updates st _ | st | now key x st ].
  - left. apply Hsame. intros p.
    destruct (enable_cases st) as [[_ ->] | [_ ->]]; reflexivity.
  - destruct (disable_cases st) as [[_ ->] | [Hen ->]]; [left | right; now split].
    apply Hsame. reflexivity.
  - left. apply Hsame. intros p.
    destruct (transitionToNextPhase_cases now st)
      as [[_ ->] | [(_ & _ & ->) | (_ & next & _ & ->)]]; [reflexivity| |];
      cbn [phaseProgress]; apply markCompleted_steps.
  - left. apply Hsame. intros p.
    destruct (setPhase_cases now phase st) as [-> | (_ & _ & ->)]; reflexivity.
  - left. intros p. unfold addStep at 1. cbn [with_phaseProgress phaseProgress].
    rewrite progress_get_set.
    destruct (PlanningPhase_eqb (currentPhase st) p) eqn:E.
    + apply PlanningPhase_eqb_eq in E. subst p. exists [step]. cbn [steps].
      split; [reflexivity|]. right. split; [reflexivity|]. now exists step.
    + exists []. rewrite List.app_nil_r. split; [reflexivity | now left].
  - left. apply Hsame. intros p. unfold setNotes.
    cbn [with_phaseProgress phaseProgress]. rewrite progress_get_set.
    destruct (PlanningPhase_eqb (currentPhase st) p) eqn:E; [|reflexivity].
    apply PlanningPhase_eqb_eq in E. now subst p.
  - left. apply Hsame. intros p. unfold createPlanFile.
    destruct (generateSlug rng) as [sl rng1]. now destruct (randomUUID rng1).
  - left. apply Hsame. intros p. unfold updatePlanFile. now destruct (planFile st).
  - left. apply Hsame. reflexivity.
  - left. apply Hsame. intros p. unfold addClarification. now destruct (planFile st).
Qed.

Lemma calls_keep_steps_witness :
  let st := addStep "read the routes" (fst (enable PlanningManager.new)) in
  steps (progress_get (phaseProgress (snd (fst (transitionToNextPhase 3 st))))
           initial_understanding)
  = ["read the routes"].
Proof.
  cbv zeta.
  destruct (calls_keep_steps anyUpdate _ _
              (call_transition anyUpdate 3
                 (addStep "read the routes" (fst (enable PlanningManager.new)))))
    as [H | [_ H]].
  - destruct (H initial_understanding) as (more & Heq & [-> | (_ & step & _ & Hst)]).
    + rewrite Heq. reflexivity.
    + apply (f_equal currentPhase) in Hst. vm_compute in Hst. discriminate Hst.
  - apply (f_equal enabled) in H. vm_compute in H. discriminate H.
Defined.

Lemma setProperty_get (props : list (string * value)) (key : string) (x : value) :
  getProperty (setProperty props key x) key = Some x.
Proof.
  induction props as [|[k y] props IH]; cbn [setProperty getProperty].
  - now rewrite String.eqb_refl.
  - destruct (String.eqb k key) eqn:E; cbn [getProperty]; rewrite E; [reflexivity | exact IH].
Qed.

Lemma setProperty_get_other (props : list (string * value)) (key k' : string) (x : value) :
  k' <> key -> getProperty (setProperty props key x) k' = getProperty props k'.
Proof.
  intros Hne. induction props as [|[k y] props IH]; cbn [setProperty getProperty].
  - destruct (String.eqb key k') eqn:E; [|reflexivity].
    apply String.eqb_eq in E. now elim Hne.
  - destruct (String.eqb k key) eqn:E; cbn [getProperty].
    + apply String.eqb_eq in E. subst k.
      destruct (String.eqb key k') eqn:E'; [|reflexivity].
      apply String.eqb_eq in E'. now elim Hne.
    + now rewrite IH.
Qed.


Lemma distinct_app_fresh (keys : list string) (key : string) :
  Scenario.distinct keys = true -> Array_includes keys key = false ->
  Scenario.distinct (keys ++ [key]) = true.
Proof.
  unfold Array_includes.
  induction keys as [|k keys IH]; cbn [Scenario.distinct app existsb]; [reflexivity|].
  intros Hd Hk. apply andb_true_iff in Hd as [Hk' Hd].
  apply orb_false_iff in Hk as [Hne Hk].
  apply andb_true_iff. split; [|now apply IH].
  unfold Array_includes in *. rewrite existsb_app. cbn [existsb].
  apply negb_true_iff in Hk'. rewrite Hk', (String.eqb_sym k key), Hne. reflexivity.
Qed.










End PhaseWalk.

(* ===================================================================== *)
(** ** The development mode and the tool gate                              *)
(* ===================================================================== *)

Section ModeStateFacts.
Import JS Types ModeState.

(** X7: after [setCurrentMode(mode)] the planning manager is enabled exactly
    when the mode is ['plan'].  Outside plan mode every tool is allowed and
    no phase is current, and leaving plan mode resets the manager, plan and
    progress included; in plan mode a tool is allowed exactly when the
    current phase lists it, entering from outside starts at the first phase,
    and setting the mode again changes nothing. *)
Theorem mode_gates_tools (mode toolName : string) (s : ModeState.t) :
  let s' := fst (setCurrentMode mode s) in
  getCurrentMode s' = mode
  /\ (enabled (planningManager s') = true <-> mode = "plan")
  /\ (mode <> "plan" ->
        isToolAllowed toolName s' = true
        /\ getCurrentPlanningPhase s' = None
        /\ (enabled (planningManager s) = true ->
              planningManager s' = createInitialPlanningState))
  /\ (mode = "plan" ->
        (isToolAllowed toolName s' = true
         <-> In toolName (PHASE_ALLOWED_TOOLS (currentPhase (planningManager s'))))
        /\ getCurrentPlanningPhase s' = Some (currentPhase (planningManager s'))
        /\ (enabled (planningManager s) = false ->
              currentPhase (planningManager s') = initial_understanding
              /\ planFile (planningManager s') = planFile (planningManager s)
              /\ phaseProgress (planningManager s') = phaseProgress (planningManager s))
        /\ (enabled (planningManager s) = true ->
              planningManager s' = planningManager s)).
Proof.
  cbv zeta. unfold setCurrentMode, isToolAllowed, getCurrentPlanningPhase, getCurrentMode.
  destruct (String.eqb mode "plan") eqn:Hmode.
  - apply String.eqb_eq in Hmode. subst mode.
    unfold PlanningManager.enable.
    destruct (enabled (planningManager s)) eqn:Hen;
      cbn [fst currentMode planningManager String.eqb Ascii.eqb Bool.eqb andb];
      cbn [PlanningManager.with_currentPhase PlanningManager.with_enabled enabled
           currentPhase planFile phaseProgress];
      rewrite ?Hen; cbn [andb].
    + split; [reflexivity|]. split; [tauto|]. split; [intros H; now elim H|]. intros _.
      split; [|split; [reflexivity | split; [discriminate | reflexivity]]].
      unfold PlanningManager.isToolAllowed. rewrite Hen. cbn [negb].
      apply Array_includes_In.
    + split; [reflexivity|]. split; [tauto|]. split; [intros H; now elim H|]. intros _.
      split; [|split; [reflexivity | split; [now repeat split | discriminate]]].
      unfold PlanningManager.isToolAllowed. cbn [enabled negb currentPhase].
      apply Array_includes_In.
  - assert (Hne : mode <> "plan").
    { intros ->. discriminate Hmode. }
    unfold PlanningManager.disable.
    destruct (enabled (planningManager s)) eqn:Hen;
      cbn [negb fst currentMode planningManager]; rewrite Hmode; cbn [andb].
    + split; [reflexivity|]. split; [split; [discriminate | contradiction]|].
      split; [|contradiction]. intros _. now repeat split.
    + rewrite Hen. split; [reflexivity|]. split; [split; [discriminate | contradiction]|].
      split; [|contradiction]. intros _. split; [reflexivity|]. split; [reflexivity|].
      discriminate.
Qed.

End ModeStateFacts.

(* ===================================================================== *)
(** ** Question manager: a session of questions                            *)
(* ===================================================================== *)

Section QuestionSessions.
Import JS Questions QuestionManager QuestionCounters Scenario Sessions.

Lemma matched_ids_distinct (userRequest : string) :
  distinct (map id (findMatchingQuestions userRequest)) = true
  /\ (length (findMatchingQuestions userRequest) <= 6)%nat.
Proof.
  unfold findMatchingQuestions.
  cbn [flat_map AMBIGUITY_TEMPLATES DECISION_TEMPLATES amb_keywords dec_keywords].
  repeat match goal with
         | |- context [matchesAny ?a ?b] => destruct (matchesAny a b)
         end;
    (split; [lazy; reflexivity | cbn; lia]).
Qed.

Lemma NoDup_firstn {A} (n : nat) (l : list A) : List.NoDup l -> List.NoDup (firstn n l).
Proof.
  revert n. induction l as [|x l IH]; intros n H; destruct n; cbn [firstn];
    try constructor.
  - inversion H; subst. intros Hin. apply firstn_In_inv in Hin. contradiction.
  - inversion H; subst. now apply IH.
Qed.

Lemma prioritizeQuestions_Permutation (userRequest : string) :
  Permutation (prioritizeQuestions (findMatchingQuestions userRequest) userRequest)
    (findMatchingQuestions userRequest).
Proof.
  unfold prioritizeQuestions.
  change (fun q => QuestionType_eqb (type q) confirmation) with (ofType confirmation).
  change (fun q => QuestionType_eqb (type q) decision) with (ofType decision).
  change (fun q => QuestionType_eqb (type q) ambiguity) with (ofType ambiguity).
  rewrite !filter_matches.
  rewrite (findMatchingQuestions_parts userRequest).
  rewrite !Array_sort_Permutation.
  rewrite (Permutation_app_comm (confirmationMatches userRequest)).
  rewrite (Permutation_app_comm (decisionMatches userRequest)).
  now rewrite <- List.app_assoc.
Qed.

Lemma generated_queue_ids (userRequest : string) (projectFiles : list string)
    (m : QuestionManager.t) :
  List.NoDup (map id (questionQueue (state (generateQuestions userRequest projectFiles m))))
  /\ (length (questionQueue (state (generateQuestions userRequest projectFiles m))) <= 6)%nat.
Proof.
  rewrite generateQuestions_queue. unfold Array_slice0.
  destruct (matched_ids_distinct userRequest) as [Hd Hlen].
  apply distinct_NoDup in Hd.
  pose proof (prioritizeQuestions_Permutation userRequest) as Hperm.
  split.
  - rewrite <- firstn_map. apply NoDup_firstn.
    eapply Permutation_NoDup; [|exact Hd].
    apply Permutation_map. now symmetry.
  - rewrite length_firstn. apply Permutation_length in Hperm. lia.
Qed.

(** X8: [generateQuestions] never queues a question twice: the ids of the
    queue are pairwise distinct; the queue holds at most six questions, one
    per template, and never more than a non-negative [maxQuestions]. *)
Theorem generated_queue_is_duplicate_free (userRequest : string)
    (projectFiles : list string) (m : QuestionManager.t) :
  let queue := questionQueue (state (generateQuestions userRequest projectFiles m)) in
  List.NoDup (map id queue)
  /\ (length queue <= 6)%nat
  /\ (0 <= maxQuestions (config m) -> Z.of_nat (length queue) <= maxQuestions (config m))
  /\ totalQuestions (generateQuestions userRequest projectFiles m) = Z.of_nat (length queue).
Proof.
  cbv zeta. destruct (generated_queue_ids userRequest projectFiles m) as [Hd Hlen].
  split; [exact Hd|]. split; [exact Hlen|]. split; [|reflexivity].
  intros Hmax. rewrite generateQuestions_queue, Array_slice0_firstn by assumption.
  rewrite length_firstn. lia.
Qed.

Lemma findIndex_from_nth (q : list Question) (k : nat) (c : Question) (i : Z) :
  List.NoDup (map id q) ->
  nth_error q k = Some c ->
  findIndex_from (fun x => String.eqb (id x) (id c)) q i = i + Z.of_nat k.
Proof.
  revert k i. induction q as [|y q IH]; intros k i Hd Hk.
  - destruct k; discriminate Hk.
  - cbn [map] in Hd. inversion Hd as [|? ? Hnotin Hd']; subst.
    destruct k as [|k]; cbn [nth_error findIndex_from] in *.
    + injection Hk as ->. rewrite String.eqb_refl. lia.
    + destruct (String.eqb (id y) (id c)) eqn:E.
      * apply String.eqb_eq in E. elim Hnotin. rewrite E.
        apply in_map. eapply nth_error_In. exact Hk.
      * rewrite (IH k (i + 1) Hd' Hk). lia.
Qed.

Lemma moveToNextQuestion_nth (st : QuestionState) (k : nat) (c : Question) :
  List.NoDup (map id (questionQueue st)) ->
  nth_error (questionQueue st) k = Some c ->
  currentQuestion st = Some c ->
  moveToNextQuestion st
  = {| questionQueue := questionQueue st;
       currentQuestion := nth_error (questionQueue st) (S k);
       answeredQuestions := answeredQuestions st;
       completed := completed st || (S k =? length (questionQueue st))%nat |}.
Proof.
  intros Hd Hk Hc. unfold moveToNextQuestion. rewrite Hc.
  unfold findIndex. rewrite (findIndex_from_nth _ k c 0 Hd Hk).
  assert (Hlt : (k < length (questionQueue st))%nat).
  { apply nth_error_Some. rewrite Hk. discriminate. }
  destruct ((0 <=? 0 + Z.of_nat k)
            && (0 + Z.of_nat k <? Z.of_nat (length (questionQueue st)) - 1)) eqn:E.
  - apply andb_true_iff in E as [_ E]. apply Z.ltb_lt in E.
    assert (Hne : (S k =? length (questionQueue st))%nat = false)
      by (apply Nat.eqb_neq; lia).
    rewrite Hne, orb_false_r. f_equal.
    unfold at_index. destruct (0 + Z.of_nat k + 1 <? 0) eqn:E'; [apply Z.ltb_lt in E'; lia|].
    f_equal. lia.
  - apply andb_false_iff in E as [E|E]; [apply Z.leb_gt in E; lia|].
    apply Z.ltb_ge in E.
    assert (Heq : S k = length (questionQueue st)) by lia.
    rewrite Heq, Nat.eqb_refl, orb_true_r. f_equal.
    symmetry. apply nth_error_None. lia.
Qed.

(** The answers recorded on top of [answered]. *)
Lemma submitAll_walk (answers : list QuestionAnswer) (k : nat) (m : QuestionManager.t) :
  List.NoDup (map id (questionQueue (state m))) ->
  currentQuestion (state m) = nth_error (questionQueue (state m)) k ->
  map questionId answers
  = map id (firstn (length answers) (skipn k (questionQueue (state m)))) ->
  exists m',
    submitAll answers m = (Ok tt, m')
    /\ questionQueue (state m') = questionQueue (state m)
    /\ currentQuestion (state m')
       = nth_error (questionQueue (state m)) (k + length answers)
    /\ completed (state m')
       = completed (state m)
         || (negb (length answers =? 0)%nat
             && (k + length answers =? length (questionQueue (state m)))%nat)
    /\ answeredQuestions (state m')
       = fold_left (fun acc a => <[questionId a := a]> acc) answers
           (answeredQuestions (state m))
    /\ context m' = context m /\ config m' = config m.
Proof.
  revert k m. induction answers as [|a answers IH]; intros k m Hd Hcur Hids.
  - exists m. cbn [submitAll length fold_left Nat.eqb negb andb].
    rewrite Nat.add_0_r, orb_false_r. now repeat split.
  - cbn [length firstn] in Hids.
    destruct (skipn k (questionQueue (state m))) as [|c rest] eqn:Hskip;
      [discriminate Hids|].
    cbn [map] in Hids. injection Hids as Hid Hids.
    assert (Hk : nth_error (questionQueue (state m)) k = Some c).
    { rewrite <- (firstn_skipn k (questionQueue (state m))), Hskip.
      assert (Hlen : length (firstn k (questionQueue (state m))) = k).
      { apply firstn_length_le. apply Nat.lt_le_incl.
        assert (Hnn : skipn k (questionQueue (state m)) <> []) by (rewrite Hskip; discriminate).
        destruct (Nat.le_gt_cases (length (questionQueue (state m))) k) as [Hle|Hgt];
          [|exact Hgt].
        apply skipn_all2 in Hle. contradiction. }
      rewrite nth_error_app2 by lia. now rewrite Hlen, Nat.sub_diag. }
    rewrite Hk in Hcur.
    assert (Hrest : skipn (S k) (questionQueue (state m)) = rest).
    { change (S k) with (1 + k)%nat. rewrite <- skipn_skipn, Hskip. reflexivity. }
    cbn [submitAll]. unfold submitAnswer. rewrite Hcur, Hid, String.eqb_refl.
    cbn [negb].
    set (st1 := recordAnswer a (state m)).
    assert (Hmove := moveToNextQuestion_nth st1 k c Hd Hk Hcur).
    destruct (IH (S k) (with_state (moveToNextQuestion st1) m)) as (m' & Hrun & Hq & Hc & Hdone & Hans & Hctx & Hcfg).
    + cbn [with_state state]. rewrite Hmove. exact Hd.
    + cbn [with_state state]. rewrite Hmove. reflexivity.
    + cbn [with_state state]. rewrite Hmove. cbn [questionQueue].
      change (questionQueue st1) with (questionQueue (state m)). now rewrite Hrest.
    + exists m'. split; [exact Hrun|].
      cbn [with_state state] in Hq, Hc, Hdone, Hans, Hctx, Hcfg. rewrite Hmove in *.
      cbn [questionQueue completed answeredQuestions] in *.
      change (questionQueue st1) with (questionQueue (state m)) in *.
      split; [exact Hq|]. split; [rewrite Hc; f_equal; cbn [length]; lia|].
      split; [|split; [exact Hans | now split]].
      rewrite Hdone. change (completed st1) with (completed (state m)). cbn [length].
      replace (k + S (length answers))%nat with (S k + length answers)%nat by lia.
      change (S (length answers) =? 0)%nat with false. cbn [negb andb].
      rewrite <- orb_assoc. f_equal.
      destruct (Nat.eqb_spec (length answers) 0) as [Hz|Hnz]; cbn [negb andb].
      * now rewrite Hz, Nat.add_0_r, orb_false_r.
      * destruct (Nat.eqb_spec (S k) (length (questionQueue (state m)))) as [Heq|Hne];
          [|reflexivity].
        exfalso.
        assert (Hall : skipn (S k) (questionQueue (state m)) = [])
          by (apply skipn_all2; lia).
        rewrite Hrest in Hall. rewrite Hall in Hids.
        destruct answers; [now elim Hnz | discriminate Hids].
Qed.

Lemma fold_insert_lookup (answers : list QuestionAnswer)
    (answered : gmap string QuestionAnswer) :
  List.NoDup (map questionId answers) ->
  (forall a, In a answers -> answered !! questionId a = None) ->
  size (fold_left (fun acc a => <[questionId a := a]> acc) answers answered)
  = (size answered + length answers)%nat
  /\ forall a, In a answers ->
       fold_left (fun acc a => <[questionId a := a]> acc) answers answered
       !! questionId a = Some a.
Proof.
  revert answered. induction answers as [|b answers IH]; intros answered Hd Hfresh.
  - cbn [fold_left length]. split; [lia | intros a []].
  - cbn [map] in Hd. inversion Hd as [|? ? Hnotin Hd']; subst.
    cbn [fold_left length].
    assert (Hother : forall (l : list QuestionAnswer) (acc : gmap string QuestionAnswer) key,
               ~ In key (map questionId l) ->
               fold_left (fun acc a => <[questionId a := a]> acc) l acc !! key = acc !! key).
    { clear. induction l as [|x l IHl]; intros acc key Hk; [reflexivity|].
      cbn [fold_left]. rewrite IHl by (intros H; apply Hk; now right).
      apply lookup_insert_ne. intros Heq. apply Hk. now left. }
    destruct (IH (<[questionId b := b]> answered) Hd') as [Hsize Hlook].
    + intros a Ha. rewrite lookup_insert_ne; [apply Hfresh; now right|].
      intros Heq. apply Hnotin. rewrite Heq. now apply in_map.
    + split.
      * rewrite Hsize, map_size_insert_None by (apply Hfresh; now left). lia.
      * intros a [<-|Ha]; [|now apply Hlook].
        rewrite Hother by exact Hnotin. apply lookup_insert_eq.
Qed.

(** X9: after [generateQuestions] on a new manager, answering the current
    question each time walks the queue in order: after [n] answers the
    current question is the one at place [n], every answer can be read back
    under its question, [n] answers are counted and the rest remain, and the
    session is completed exactly when the whole queue has been answered. *)
Theorem answers_walk_the_queue (userRequest : string) (projectFiles : list string)
    (context : option QuestionContext) (config : QuestionConfig)
    (answers : list QuestionAnswer) :
  let m := generateQuestions userRequest projectFiles (QuestionManager.new context config) in
  let queue := questionQueue (state m) in
  map questionId answers = map id (firstn (length answers) queue) ->
  exists m',
    submitAll answers m = (Ok tt, m')
    /\ questionQueue (state m') = queue
    /\ currentQuestion (state m') = nth_error queue (length answers)
    /\ (isCompleted m' = true <-> length answers = length queue)
    /\ answeredCount m' = Z.of_nat (length answers)
    /\ remainingCount m' = Z.of_nat (length queue) - Z.of_nat (length answers)
    /\ forall a, In a answers -> getAnswer (questionId a) m' = Some a.
Proof.
  cbv zeta. intros Hids.
  set (m := generateQuestions userRequest projectFiles (QuestionManager.new context config))
    in *.
  destruct (generated_queue_ids userRequest projectFiles (QuestionManager.new context config))
    as [Hd _]. fold m in Hd.
  assert (Hstart : currentQuestion (state m) = nth_error (questionQueue (state m)) 0
                   /\ completed (state m) = (length (questionQueue (state m)) =? 0)%nat
                   /\ answeredQuestions (state m) = ∅).
  { unfold m, generateQuestions. cbn [state QuestionManager.new emptyState].
    destruct (Array_slice0 _ _); cbn; now repeat split. }
  destruct Hstart as (Hcur & Hdone & Hempty).
  destruct (submitAll_walk answers 0 m Hd Hcur Hids)
    as (m' & Hrun & Hq & Hc & Hdone' & Hans & _ & _).
  assert (Hlen : (length answers <= length (questionQueue (state m)))%nat).
  { apply (f_equal (@length _)) in Hids. rewrite !length_map, length_firstn in Hids.
    lia. }
  assert (Hkeys : List.NoDup (map questionId answers)).
  { rewrite Hids. rewrite <- firstn_map. now apply NoDup_firstn. }
  destruct (fold_insert_lookup answers ∅ Hkeys) as [Hsize Hlook];
    [intros a _; apply lookup_empty|].
  rewrite Hempty in Hans.
  exists m'. split; [exact Hrun|]. split; [exact Hq|]. split; [exact Hc|].
  unfold isCompleted, answeredCount, remainingCount, getAnswer.
  rewrite Hdone', Hdone, Hans, Hq, Hsize, map_size_empty. cbn [Nat.add].
  split; [|split; [reflexivity | split; [reflexivity | exact Hlook]]].
  cbn [Nat.add].
  destruct (Nat.eqb_spec (length (questionQueue (state m))) 0) as [H0|H0];
    destruct (Nat.eqb_spec (length answers) 0) as [H1|H1];
    destruct (Nat.eqb_spec (length answers) (length (questionQueue (state m)))) as [H2|H2];
    cbn [negb andb orb]; split; intros H; try reflexivity; try discriminate H; lia.
Qed.

Lemma answers_walk_the_queue_witness :
  let m := generateQuestions "optimize performance of the database layer" []
             (QuestionManager.new None DEFAULT_QUESTION_CONFIG) in
  let first :=
    {| questionId := "database-choice"; selectedOptionIds := ["sqlite"];
       customText := None; timestamp := DateOf 1700000000000 |} in
  exists m', submitAll [first] m = (Ok tt, m')
             /\ option_map id (currentQuestion (state m')) = Some "performance-requirements"
             /\ getAnswer "database-choice" m' = Some first.
Proof.
  cbv zeta.
  destruct (answers_walk_the_queue "optimize performance of the database layer" []
              None DEFAULT_QUESTION_CONFIG
              [ {| questionId := "database-choice"; selectedOptionIds := ["sqlite"];
                   customText := None; timestamp := DateOf 1700000000000 |} ])
    as (m' & Hrun & _ & Hc & _ & _ & _ & Hlook); [vm_compute; reflexivity|].
  exists m'. split; [exact Hrun|]. split.
  - rewrite Hc. vm_compute. reflexivity.
  - apply (Hlook _ (or_introl eq_refl)).
Defined.

Lemma no_trigger_no_question (userRequest : string) :
  findMatchingQuestions userRequest = []
  <-> existsb (fun kw => includes (toLowerCase userRequest) kw) triggerKeywords = false.
Proof.
  unfold triggerKeywords.
  cbn [flat_map AMBIGUITY_TEMPLATES DECISION_TEMPLATES amb_keywords dec_keywords].
  rewrite !List.app_nil_r, !existsb_app.
  unfold findMatchingQuestions.
  cbn [flat_map AMBIGUITY_TEMPLATES DECISION_TEMPLATES amb_keywords dec_keywords].
  unfold matchesAny.
  repeat match goal with
         | |- context [existsb ?f ?l] =>
             let b := fresh "b" in
             generalize (existsb f l); intros b
         end.
  repeat match goal with b : bool |- _ => destruct b end;
    cbn [orb app find CONFIRMATION_TEMPLATES conf_id String.eqb Ascii.eqb Bool.eqb];
    split; intros H; try reflexivity; discriminate H.
Qed.

(** X10: with [maxQuestions] at least one, [generateQuestions] leaves the
    queue empty exactly when the lower-cased request holds none of the
    keywords of the templates; it then marks the session completed and keeps
    the current question.  Otherwise the head of the queue becomes the
    current question, and the [completed] flag is left as it was; the
    answers recorded before are kept in both cases. *)
Theorem questions_need_a_keyword (userRequest : string) (projectFiles : list string)
    (m : QuestionManager.t) :
  1 <= maxQuestions (config m) ->
  let m' := generateQuestions userRequest projectFiles m in
  (questionQueue (state m') = []
   <-> forall kw, In kw triggerKeywords -> includes (toLowerCase userRequest) kw = false)
  /\ (questionQueue (state m') = [] ->
      completed (state m') = true /\ currentQuestion (state m') = currentQuestion (state m))
  /\ (forall first rest, questionQueue (state m') = first :: rest ->
        currentQuestion (state m') = Some first
        /\ completed (state m') = completed (state m))
  /\ answeredQuestions (state m') = answeredQuestions (state m).
Proof.
  intros Hmax. cbv zeta. split; [|split; [|split]].
  - rewrite generateQuestions_queue, Array_slice0_firstn by lia.
    pose proof (prioritizeQuestions_Permutation userRequest) as Hperm.
    assert (Hiff : firstn (Z.to_nat (maxQuestions (config m)))
                     (prioritizeQuestions (findMatchingQuestions userRequest) userRequest) = []
                   <-> findMatchingQuestions userRequest = []).
    { destruct (Z.to_nat (maxQuestions (config m))) as [|n] eqn:Hn; [lia|].
      split; intros H.
      - destruct (prioritizeQuestions _ _) as [|q l]; [|discriminate H].
        now apply Permutation_nil in Hperm.
      - rewrite H in Hperm |- *. symmetry in Hperm. apply Permutation_nil in Hperm.
        now rewrite Hperm. }
    rewrite Hiff, no_trigger_no_question. split.
    + intros H kw Hkw. destruct (includes (toLowerCase userRequest) kw) eqn:E; [|reflexivity].
      assert (Hex : existsb (fun kw => includes (toLowerCase userRequest) kw) triggerKeywords
                    = true) by (apply existsb_exists; eauto).
      rewrite H in Hex. discriminate Hex.
    + intros H. destruct (existsb _ triggerKeywords) eqn:E; [|reflexivity].
      apply existsb_exists in E as (kw & Hkw & Hin). rewrite (H kw Hkw) in Hin.
      discriminate Hin.
  - unfold generateQuestions. cbn [state].
    destruct (Array_slice0 _ _); [now split | discriminate].
  - intros first rest. unfold generateQuestions. cbn [state].
    destruct (Array_slice0 _ _); [discriminate|]. cbn [questionQueue].
    intros [= -> ->]. now split.
  - unfold generateQuestions. cbn [state]. now destruct (Array_slice0 _ _).
Qed.

Lemma questions_need_a_keyword_witness :
  questionQueue
    (state (generateQuestions "" [] (QuestionManager.new None DEFAULT_QUESTION_CONFIG)))
  = [].
Proof.
  apply (proj1 (questions_need_a_keyword "" []
                  (QuestionManager.new None DEFAULT_QUESTION_CONFIG) ltac:(cbn; lia))).
  intros kw Hkw. cbn in Hkw.
  repeat (destruct Hkw as [<-|Hkw]; [reflexivity|]). contradiction.
Defined.

(** X11: skipping the current question is answering it with no selection: on
    a question marked skippable [skipCurrentQuestion] does what
    [submitAnswer] does with an answer that names the question, selects
    nothing and carries the current time, and that answer can be read back;
    on a question not marked skippable, the mark missing included, it throws
    and changes nothing. *)
Theorem skip_is_an_empty_answer (now : Z) (m : QuestionManager.t) (q : Question) :
  currentQuestion (state m) = Some q ->
  let empty :=
    {| questionId := id q; selectedOptionIds := []; customText := None;
       timestamp := DateOf now |} in
  (allowSkip q = Some true ->
     skipCurrentQuestion now m = submitAnswer empty m
     /\ fst (skipCurrentQuestion now m) = Ok tt
     /\ getAnswer (id q) (snd (skipCurrentQuestion now m)) = Some empty)
  /\ (allowSkip q <> Some true ->
        skipCurrentQuestion now m
        = (Throw (MkError "Error" "This question cannot be skipped"), m)).
Proof.
  intros Hcur. cbv zeta. unfold skipCurrentQuestion, submitAnswer. rewrite Hcur.
  cbn [questionId]. rewrite String.eqb_refl. cbn [negb]. split.
  - intros ->. split; [reflexivity|]. split; [reflexivity|].
    cbn [snd]. unfold getAnswer, with_state. cbn [state].
    unfold moveToNextQuestion.
    destruct (_ && _); cbn [answeredQuestions recordAnswer questionId];
      apply lookup_insert_eq.
  - intros Hne. destruct (allowSkip q) as [[|]|]; try reflexivity. now elim Hne.
Qed.

Lemma skip_is_an_empty_answer_witness :
  let m := generateQuestions "optimize performance of the database layer" []
             (QuestionManager.new None DEFAULT_QUESTION_CONFIG) in
  fst (skipCurrentQuestion 1700000000000 m) = Ok tt.
Proof.
  cbv zeta.
  set (m := generateQuestions "optimize performance of the database layer" []
              (QuestionManager.new None DEFAULT_QUESTION_CONFIG)).
  destruct (currentQuestion (state m)) as [q|] eqn:Hq; [|vm_compute in Hq; discriminate Hq].
  assert (Hskip : allowSkip q = Some true).
  { assert (H : option_map allowSkip (currentQuestion (state m)) = Some (Some true))
      by (vm_compute; reflexivity).
    rewrite Hq in H. now injection H. }
  exact (proj1 (proj2 (proj1 (skip_is_an_empty_answer 1700000000000 m q Hq) Hskip))).
Defined.

End QuestionSessions.

(* ===================================================================== *)
(** ** Paths of the plan files                                             *)
(* ===================================================================== *)

Section PathFacts.
Import JS Platform Types PlanFileStore Scenario Sessions.
#[local] Arguments String.append !_ _ / : simpl nomatch.

Lemma splitSlash_nonempty (s : string) : splitSlash s <> [].
Proof.
  destruct s as [|c s]; cbn [splitSlash]; [discriminate|].
  destruct (Ascii.eqb c "/"%char); [discriminate|].
  destruct (splitSlash s); discriminate.
Qed.

Lemma splitSlash_noSlash (s : string) : noSlash s = true -> splitSlash s = [s].
Proof.
  induction s as [|c s IH]; cbn [noSlash splitSlash]; [reflexivity|].
  intros H. apply andb_true_iff in H as [Hc Hs]. apply negb_true_iff in Hc.
  rewrite Hc, (IH Hs). reflexivity.
Qed.

Lemma splitSlash_app (x y : string) :
  splitSlash (x ++ "/" ++ y) = (splitSlash x ++ splitSlash y)%list.
Proof.
  change ("/" ++ y) with (String "/" y).
  induction x as [|c x IH]; cbn [String.append splitSlash].
  - rewrite Ascii.eqb_refl. reflexivity.
  - rewrite IH. destruct (Ascii.eqb c "/"%char); [reflexivity|].
    destruct (splitSlash x) as [|seg rest] eqn:E; [now apply splitSlash_nonempty in E|].
    reflexivity.
Qed.

Lemma splitSlash_segments (s : string) : forallb noSlash (splitSlash s) = true.
Proof.
  induction s as [|c s IH]; cbn [splitSlash]; [reflexivity|].
  destruct (Ascii.eqb c "/"%char) eqn:Hc; [exact IH|].
  destruct (splitSlash s) as [|seg rest]; cbn [forallb noSlash] in *;
    rewrite Hc; cbn [negb andb]; [reflexivity | exact IH].
Qed.

Lemma Array_join_cons (sep x y : string) (l : list string) :
  Array_join sep (x :: y :: l) = x ++ sep ++ Array_join sep (y :: l).
Proof. reflexivity. Qed.

Lemma splitSlash_join (segs : list string) :
  segs <> [] -> forallb noSlash segs = true ->
  splitSlash (Array_join "/" segs) = segs.
Proof.
  induction segs as [|seg segs IH]; intros Hne Hall; [now elim Hne|].
  cbn [forallb] in Hall. apply andb_true_iff in Hall as [Hseg Hall].
  destruct segs as [|seg' segs].
  - now apply splitSlash_noSlash.
  - rewrite Array_join_cons, splitSlash_app, (splitSlash_noSlash seg Hseg), IH;
      [reflexivity | discriminate | exact Hall].
Qed.

Lemma regularSegment_noSlash (seg : string) : regularSegment seg = true -> noSlash seg = true.
Proof. unfold regularSegment. intros H. now apply andb_true_iff in H as [_ H]. Qed.

Lemma regularSegment_step (allow : bool) (kept : list string) (seg : string) :
  regularSegment seg = true -> normalizeStep allow kept seg = seg :: kept.
Proof.
  unfold regularSegment, normalizeStep. intros H.
  apply andb_true_iff in H as [H _]. apply negb_true_iff in H.
  apply orb_false_iff in H as [H H2]. rewrite H, H2. reflexivity.
Qed.

Lemma dots_normalStack (allow : bool) (kept : list string) :
  allow = true -> forallb (String.eqb "..") kept = true -> normalStack allow kept = true.
Proof.
  intros ->. induction kept as [|top below IH]; [reflexivity|].
  cbn [forallb normalStack]. intros H. apply andb_true_iff in H as [Htop Hbelow].
  rewrite String.eqb_sym in Htop. rewrite Htop, Hbelow. reflexivity.
Qed.

Lemma normalStack_below (allow : bool) (top : string) (below : list string) :
  normalStack allow (top :: below) = true -> normalStack allow below = true.
Proof.
  cbn [normalStack]. destruct (String.eqb top "..").
  - intros H. apply andb_true_iff in H as [Ha Hd]. now apply dots_normalStack.
  - intros H. now apply andb_true_iff in H as [_ H].
Qed.

Lemma normalizeStep_normalStack (allow : bool) (kept : list string) (seg : string) :
  noSlash seg = true -> normalStack allow kept = true ->
  normalStack allow (normalizeStep allow kept seg) = true.
Proof.
  intros Hseg Hkept. unfold normalizeStep.
  destruct (String.eqb seg "" || String.eqb seg ".") eqn:E1; [exact Hkept|].
  destruct (String.eqb seg "..") eqn:E2.
  - destruct kept as [|top below].
    + destruct allow; reflexivity.
    + destruct (String.eqb top "..") eqn:E3.
      * destruct allow; [|exact Hkept]. cbn [normalStack] in Hkept |- *.
        rewrite E3 in Hkept. cbn [andb] in Hkept.
        rewrite String.eqb_refl. cbn [andb forallb].
        rewrite (String.eqb_sym ".." top), E3, Hkept. reflexivity.
      * now apply normalStack_below in Hkept.
  - cbn [normalStack]. rewrite E2. unfold regularSegment.
    apply orb_false_iff in E1 as [E1 E1']. rewrite E1, E1', E2, Hseg, Hkept. reflexivity.
Qed.

Lemma fold_normalStack (allow : bool) (segs kept : list string) :
  forallb noSlash segs = true -> normalStack allow kept = true ->
  normalStack allow (fold_left (normalizeStep allow) segs kept) = true.
Proof.
  revert kept. induction segs as [|seg segs IH]; intros kept Hsegs Hkept; [exact Hkept|].
  cbn [forallb] in Hsegs. apply andb_true_iff in Hsegs as [Hseg Hsegs].
  cbn [fold_left]. apply IH; [exact Hsegs|]. now apply normalizeStep_normalStack.
Qed.

(** Normalizing what is normal changes nothing. *)
Lemma fold_rev_normalStack (allow : bool) (kept : list string) :
  normalStack allow kept = true ->
  fold_left (normalizeStep allow) (rev kept) [] = kept.
Proof.
  induction kept as [|top below IH]; intros H; [reflexivity|].
  cbn [rev]. rewrite fold_left_app. cbn [fold_left].
  rewrite (IH (normalStack_below _ _ _ H)).
  cbn [normalStack] in H. destruct (String.eqb top "..") eqn:E.
  - apply String.eqb_eq in E. subst top.
    apply andb_true_iff in H as [-> Hd].
    unfold normalizeStep. cbn [String.eqb Ascii.eqb Bool.eqb orb].
    destruct below as [|top' below']; [reflexivity|].
    cbn [forallb] in Hd. apply andb_true_iff in Hd as [Ht _].
    rewrite String.eqb_sym in Ht. change (String.eqb top' "..") with (top' =? "..")%string.
    now rewrite Ht.
  - apply andb_true_iff in H as [Hr _]. now apply regularSegment_step.
Qed.

Lemma normalStack_noSlash (allow : bool) (kept : list string) :
  normalStack allow kept = true -> forallb noSlash kept = true.
Proof.
  induction kept as [|top below IH]; intros H; [reflexivity|].
  pose proof (IH (normalStack_below _ _ _ H)) as Hb.
  cbn [normalStack] in H. cbn [forallb]. rewrite Hb, andb_true_r.
  destruct (String.eqb top "..") eqn:E.
  - apply String.eqb_eq in E. now subst top.
  - apply andb_true_iff in H as [Hr _]. now apply regularSegment_noSlash.
Qed.

Lemma normalStack_nonempty (allow : bool) (top : string) (below : list string) :
  normalStack allow (top :: below) = true -> top <> "".
Proof.
  cbn [normalStack]. destruct (String.eqb top "..") eqn:E.
  - apply String.eqb_eq in E. subst top. discriminate.
  - intros H Htop. subst top. discriminate H.
Qed.

Lemma normalStack_segments (allow : bool) (kept : list string) (seg : string) :
  normalStack allow kept = true -> In seg kept -> seg <> "" /\ noSlash seg = true.
Proof.
  induction kept as [|top below IH]; intros H Hin; [contradiction|].
  destruct Hin as [<-|Hin].
  - split; [now apply normalStack_nonempty in H|].
    pose proof (normalStack_noSlash _ _ H) as Hn. cbn [forallb] in Hn.
    now apply andb_true_iff in Hn as [Hn _].
  - apply IH; [now apply normalStack_below in H | exact Hin].
Qed.

Lemma Array_join_nonempty (sep : string) (l : list string) :
  l <> [] -> (forall x, In x l -> x <> "") -> Array_join sep l <> "".
Proof.
  destruct l as [|x l]; intros Hne Hall; [now elim Hne|].
  assert (Hx : x <> "") by (apply Hall; now left).
  destruct l as [|y l]; [exact Hx|]. rewrite Array_join_cons.
  destruct x; [now elim Hx | discriminate].
Qed.

Lemma Array_join_snoc (l : list string) (x : string) :
  l <> [] -> Array_join "/" (l ++ [x]) = Array_join "/" l ++ "/" ++ x.
Proof.
  induction l as [|y l IH]; intros Hne; [now elim Hne|].
  destruct l as [|z l]; [reflexivity|].
  change ((y :: z :: l) ++ [x])%list with (y :: ((z :: l) ++ [x]))%list.
  change ((z :: l) ++ [x])%list with (z :: (l ++ [x]))%list.
  rewrite Array_join_cons.
  change (z :: (l ++ [x]))%list with ((z :: l) ++ [x])%list.
  rewrite IH by discriminate. rewrite Array_join_cons.
  now rewrite !append_assoc.
Qed.

Lemma fold_regular (allow : bool) (tail kept : list string) :
  forallb regularSegment tail = true ->
  fold_left (normalizeStep allow) tail kept = (rev tail ++ kept)%list.
Proof.
  revert kept. induction tail as [|seg tail IH]; intros kept H; [reflexivity|].
  cbn [forallb] in H. apply andb_true_iff in H as [Hseg Htail].
  cbn [fold_left rev]. rewrite regularSegment_step by exact Hseg.
  rewrite IH by exact Htail. now rewrite <- List.app_assoc.
Qed.

Lemma normalize_render (path : string) :
  let isAbsolute := startsWith path "/" in
  let kept := fold_left (normalizeStep (negb isAbsolute)) (splitSlash path) [] in
  kept <> [] -> endsWithSlash path = false ->
  normalize path = renderPath isAbsolute (rev kept).
Proof.
  cbv zeta. intros Hkept Hend. unfold normalize.
  destruct (String.eqb path "") eqn:Hpath.
  { apply String.eqb_eq in Hpath. subst path. now elim Hkept. }
  rewrite Hend. unfold normalizeSegments.
  set (kept := fold_left _ _ _) in *.
  assert (Hnormal : normalStack (negb (startsWith path "/")) kept = true)
    by (apply fold_normalStack; [apply splitSlash_segments | reflexivity]).
  assert (Hbody : Array_join "/" (rev kept) <> "").
  { apply Array_join_nonempty.
    - intros H. apply (f_equal (@rev _)) in H. rewrite rev_involutive in H. now apply Hkept.
    - intros x Hx. apply in_rev in Hx.
      now destruct (normalStack_segments _ _ _ Hnormal Hx). }
  apply String.eqb_neq in Hbody. rewrite Hbody. unfold renderPath.
  now destruct (startsWith path "/").
Qed.

Lemma startsWith_append (x rest : string) :
  x <> "" -> startsWith (x ++ rest) "/" = startsWith x "/".
Proof.
  destruct x as [|c x]; intros H; [now elim H|].
  unfold startsWith. cbn [String.append String.prefix].
  destruct (ascii_dec "/" c); [|reflexivity].
  destruct x, rest; reflexivity.
Qed.

Lemma regular_last_nonempty (tail : list string) :
  tail <> [] -> forallb regularSegment tail = true ->
  exists last front, rev tail = last :: front /\ String.eqb last "" = false.
Proof.
  intros Hne Hall. destruct (rev tail) as [|last front] eqn:E.
  - apply (f_equal (@rev _)) in E. rewrite rev_involutive in E. now elim Hne.
  - exists last, front. split; [reflexivity|].
    assert (Hin : In last tail) by (apply in_rev; rewrite E; now left).
    rewrite forallb_forall in Hall. specialize (Hall _ Hin).
    unfold regularSegment in Hall. apply andb_true_iff in Hall as [Hall _].
    apply negb_true_iff in Hall. apply orb_false_iff in Hall as [Hall _].
    now apply orb_false_iff in Hall as [Hall _].
Qed.

(** [normalize] on a path followed by names. *)
Lemma normalize_append (x : string) (tail : list string) :
  x <> "" -> tail <> [] -> forallb regularSegment tail = true ->
  normalize (x ++ "/" ++ Array_join "/" tail)
  = renderPath (startsWith x "/")
      (rev (fold_left (normalizeStep (negb (startsWith x "/"))) (splitSlash x) []) ++ tail).
Proof.
  intros Hx Hne Hall.
  assert (Hslash : forallb noSlash tail = true).
  { apply forallb_forall. intros seg Hseg. rewrite forallb_forall in Hall.
    now apply regularSegment_noSlash, Hall. }
  assert (Hsplit : splitSlash (x ++ "/" ++ Array_join "/" tail)
                   = (splitSlash x ++ tail)%list)
    by (rewrite splitSlash_app, splitSlash_join by assumption; reflexivity).
  rewrite normalize_render; rewrite ?startsWith_append by exact Hx; rewrite ?Hsplit.
  - rewrite fold_left_app, fold_regular by exact Hall.
    now rewrite rev_app_distr, rev_involutive.
  - rewrite fold_left_app, fold_regular by exact Hall.
    destruct (regular_last_nonempty tail Hne Hall) as (last & front & -> & _). discriminate.
  - unfold endsWithSlash. rewrite Hsplit, rev_app_distr.
    destruct (regular_last_nonempty tail Hne Hall) as (last & front & -> & Hlast).
    cbn [app]. destruct (front ++ rev (splitSlash x))%list; [reflexivity | exact Hlast].
Qed.

Lemma startsWith_renderPath (a : bool) (kept : list string) :
  kept <> [] -> normalStack (negb a) kept = true ->
  startsWith (renderPath a (rev kept)) "/" = a.
Proof.
  intros Hne Hnormal. unfold renderPath. destruct a.
  { change ("/" ++ Array_join "/" (rev kept)) with (String "/" (Array_join "/" (rev kept))).
    unfold startsWith. cbn [String.prefix].
    destruct (ascii_dec "/" "/") as [_|H]; [|now elim H].
    now destruct (Array_join "/" (rev kept)). }
  cbn [String.append].
  destruct (rev kept) as [|seg rest] eqn:E.
  { apply (f_equal (@rev _)) in E. rewrite rev_involutive in E. now elim Hne. }
  assert (Hin : In seg kept) by (apply in_rev; rewrite E; now left).
  destruct (normalStack_segments _ _ _ Hnormal Hin) as [Hseg Hslash].
  destruct seg as [|c seg]; [now elim Hseg|].
  cbn [noSlash] in Hslash. apply andb_true_iff in Hslash as [Hc _].
  apply negb_true_iff in Hc.
  assert (Hhead : exists r, Array_join "/" (String c seg :: rest) = String c r).
  { destruct rest; [now exists seg|]. rewrite Array_join_cons. eexists. reflexivity. }
  destruct Hhead as [r ->]. unfold startsWith. cbn [String.prefix].
  destruct (ascii_dec "/" c) as [<-|]; [discriminate Hc | reflexivity].
Qed.

Lemma splitSlash_renderPath (a : bool) (kept : list string) :
  kept <> [] -> normalStack (negb a) kept = true ->
  fold_left (normalizeStep (negb a)) (splitSlash (renderPath a (rev kept))) [] = kept.
Proof.
  intros Hne Hnormal.
  assert (Hrev : rev kept <> []).
  { intros H. apply (f_equal (@rev _)) in H. rewrite rev_involutive in H. now apply Hne. }
  assert (Hslash : forallb noSlash (rev kept) = true).
  { apply forallb_forall. intros seg Hseg. apply in_rev in Hseg.
    now destruct (normalStack_segments _ _ _ Hnormal Hseg). }
  unfold renderPath. destruct a.
  - change ("/" ++ Array_join "/" (rev kept)) with (String "/" (Array_join "/" (rev kept))).
    cbn [splitSlash]. rewrite Ascii.eqb_refl, splitSlash_join by assumption.
    cbn [fold_left]. change (normalizeStep (negb true) [] "") with (@nil string).
    now apply fold_rev_normalStack.
  - cbn [String.append]. rewrite splitSlash_join by assumption.
    now apply fold_rev_normalStack.
Qed.

Lemma renderPath_nonempty (a : bool) (kept : list string) :
  kept <> [] -> normalStack (negb a) kept = true -> renderPath a (rev kept) <> "".
Proof.
  intros Hne Hnormal. unfold renderPath. destruct a; [discriminate|]. cbn [String.append].
  apply Array_join_nonempty.
  - intros H. apply (f_equal (@rev _)) in H. rewrite rev_involutive in H. now apply Hne.
  - intros x Hx. apply in_rev in Hx. now destruct (normalStack_segments _ _ _ Hnormal Hx).
Qed.

Lemma renderPath_snoc (a : bool) (segs : list string) (name : string) :
  segs <> [] -> renderPath a (segs ++ [name]) = renderPath a segs ++ "/" ++ name.
Proof.
  intros Hne. unfold renderPath. rewrite Array_join_snoc by exact Hne.
  now rewrite append_assoc.
Qed.

(** A name joined to a normal directory is the directory, a separator and
    the name. *)
Lemma join_render (a : bool) (kept : list string) (name : string) :
  kept <> [] -> normalStack (negb a) kept = true -> regularSegment name = true ->
  join (renderPath a (rev kept)) name = renderPath a (rev kept) ++ "/" ++ name.
Proof.
  intros Hne Hnormal Hname.
  pose proof (renderPath_nonempty a kept Hne Hnormal) as Hdir.
  assert (Hn : name <> "").
  { intros ->. discriminate Hname. }
  unfold join. cbn [List.filter].
  apply String.eqb_neq in Hdir as Hd. apply String.eqb_neq in Hn as Hn'.
  rewrite Hd, Hn'. cbn [negb].
  change (Array_join "/" [renderPath a (rev kept); name])
    with (renderPath a (rev kept) ++ "/" ++ Array_join "/" [name]).
  rewrite normalize_append; [|exact Hdir | discriminate | cbn [forallb]; now rewrite Hname].
  rewrite startsWith_renderPath, splitSlash_renderPath by assumption.
  apply renderPath_snoc.
  intros H. apply (f_equal (@rev _)) in H. rewrite rev_involutive in H. now apply Hne.
Qed.

(** The plan directory is a normal path that ends in the two segments of
    [PLAN_DIR]. *)
Lemma getPlanDirectory_render (cwd : string) :
  exists a kept,
    getPlanDirectory cwd = renderPath a (rev ("plans" :: ".nanocoder" :: kept))
    /\ normalStack (negb a) ("plans" :: ".nanocoder" :: kept) = true
    /\ (cwd <> "" ->
        a = startsWith cwd "/"
        /\ kept = fold_left (normalizeStep (negb a)) (splitSlash cwd) []).
Proof.
  destruct (String.eqb cwd "") eqn:Hcwd.
  - apply String.eqb_eq in Hcwd. subst cwd. exists false, [].
    split; [vm_compute; reflexivity|]. split; [reflexivity|]. intros H. now elim H.
  - apply String.eqb_neq in Hcwd.
    exists (startsWith cwd "/"),
           (fold_left (normalizeStep (negb (startsWith cwd "/"))) (splitSlash cwd) []).
    split; [|split; [|now split]].
    + unfold getPlanDirectory, join. cbn [List.filter].
      apply String.eqb_neq in Hcwd as Hc. rewrite Hc. cbn [negb PLAN_DIR String.eqb].
      change (Array_join "/" [cwd; PLAN_DIR])
        with (cwd ++ "/" ++ Array_join "/" [".nanocoder"; "plans"]).
      rewrite normalize_append by (try assumption; try discriminate; reflexivity).
      cbn [rev]. now rewrite <- List.app_assoc.
    + cbn [normalStack String.eqb Ascii.eqb Bool.eqb].
      change (regularSegment "plans") with true.
      change (regularSegment ".nanocoder") with true. cbn [andb].
      apply fold_normalStack; [apply splitSlash_segments | reflexivity].
Qed.

Lemma noSlash_append (a b : string) :
  noSlash (a ++ b) = noSlash a && noSlash b.
Proof.
  induction a as [|c a IH]; cbn [String.append noSlash]; [reflexivity|].
  now rewrite IH, andb_assoc.
Qed.

Lemma plainSlug_noSlash (s : string) : plainSlug s = true -> noSlash s = true.
Proof.
  induction s as [|c s IH]; cbn [plainSlug noSlash]; [reflexivity|].
  intros H. apply andb_true_iff in H as [H Hs]. apply andb_true_iff in H as [Hc _].
  now rewrite Hc, IH.
Qed.

(** The file name of a plain slug is one name. *)
Lemma plainSlug_name (s ext : string) :
  plainSlug s = true -> noSlash ext = true ->
  regularSegment (s ++ String "." (String "p" ext)) = true.
Proof.
  intros Hs Hext. unfold regularSegment. apply andb_true_iff. split.
  - destruct s as [|c s]; [reflexivity|].
    cbn [plainSlug] in Hs. apply andb_true_iff in Hs as [Hc _].
    apply andb_true_iff in Hc as [_ Hc]. apply negb_true_iff in Hc.
    cbn [String.append String.eqb]. now rewrite Hc.
  - rewrite noSlash_append, (plainSlug_noSlash s Hs). cbn [noSlash Ascii.eqb Bool.eqb negb andb].
    exact Hext.
Qed.

Lemma append_cancel_l (a x y : string) : a ++ x = a ++ y -> x = y.
Proof.
  induction a as [|c a IH]; cbn [String.append]; [trivial|]. intros [= H]. now apply IH.
Qed.

(** Two file names made of plain slugs agree only if the slugs and the
    extensions do. *)
Lemma plainSlug_split (s1 s2 r1 r2 : string) :
  plainSlug s1 = true -> plainSlug s2 = true ->
  s1 ++ String "." r1 = s2 ++ String "." r2 -> s1 = s2 /\ r1 = r2.
Proof.
  revert s2. induction s1 as [|c s1 IH]; intros s2 H1 H2 Heq; destruct s2 as [|c2 s2].
  - cbn [String.append] in Heq. injection Heq as <-. now split.
  - cbn [String.append] in Heq. injection Heq as <- _.
    cbn [plainSlug Ascii.eqb Bool.eqb] in H2. discriminate H2.
  - cbn [String.append] in Heq. injection Heq as -> _.
    cbn [plainSlug Ascii.eqb Bool.eqb] in H1. discriminate H1.
  - cbn [String.append] in Heq. injection Heq as <- Heq.
    cbn [plainSlug] in H1, H2.
    apply andb_true_iff in H1 as [_ H1]. apply andb_true_iff in H2 as [_ H2].
    destruct (IH s2 H1 H2 Heq) as [-> ->]. now split.
Qed.

Lemma plan_paths (cwd slug : string) :
  plainSlug slug = true ->
  getPlanMdPath cwd slug = getPlanDirectory cwd ++ "/" ++ slug ++ ".plan.md"
  /\ getPlanJsonPath cwd slug = getPlanDirectory cwd ++ "/" ++ slug ++ ".plan.json".
Proof.
  intros Hslug. unfold getPlanMdPath, getPlanJsonPath.
  destruct (getPlanDirectory_render cwd) as (a & kept & -> & Hnormal & _).
  split; apply join_render; try assumption; try discriminate;
    now apply plainSlug_name.
Qed.

Lemma plan_paths_differ (cwd s1 s2 : string) :
  plainSlug s1 = true -> plainSlug s2 = true ->
  getPlanMdPath cwd s1 <> getPlanJsonPath cwd s2
  /\ (s1 <> s2 ->
      getPlanMdPath cwd s1 <> getPlanMdPath cwd s2
      /\ getPlanJsonPath cwd s1 <> getPlanJsonPath cwd s2).
Proof.
  intros H1 H2.
  destruct (plan_paths cwd s1 H1) as [Hm1 Hj1], (plan_paths cwd s2 H2) as [Hm2 Hj2].
  rewrite Hm1, Hm2, Hj1, Hj2.
  split; [|intros Hne; split]; intros Heq;
    apply append_cancel_l in Heq; change ("/" ++ ?x) with (String "/" x) in Heq;
    injection Heq as Heq;
    apply (plainSlug_split _ _ _ _ H1 H2) in Heq as [Hs Hr];
    [discriminate Hr | contradiction | contradiction].
Qed.

Lemma normalized_cwd_render (cwd : string) :
  normalize cwd = cwd -> endsWithSlash cwd = false -> cwd <> "." -> cwd <> "/" ->
  getPlanDirectory cwd = cwd ++ "/.nanocoder/plans".
Proof.
  intros Hnorm Hend Hdot Hroot.
  assert (Hcwd : cwd <> "").
  { intros ->. discriminate Hnorm. }
  destruct (getPlanDirectory_render cwd) as (a & kept & -> & Hnormal & Hshape).
  destruct (Hshape Hcwd) as [Ha Hkept].
  assert (Hne : kept <> []).
  { intros Hnil. rewrite Hnil in Hkept. symmetry in Hkept.
    unfold normalize in Hnorm. apply String.eqb_neq in Hcwd. rewrite Hcwd, Hend in Hnorm.
    unfold normalizeSegments in Hnorm. rewrite <- Ha, Hkept in Hnorm.
    cbn [rev Array_join String.eqb] in Hnorm.
    destruct a; [now apply Hroot | now apply Hdot]. }
  assert (Hself : renderPath a (rev kept) = cwd).
  { rewrite <- Hnorm. subst a. rewrite normalize_render; rewrite <- ?Hkept;
      [reflexivity | exact Hne | exact Hend]. }
  assert (Hrev : rev kept <> []).
  { intros H. apply (f_equal (@rev _)) in H. rewrite rev_involutive in H. now apply Hne. }
  cbn [rev]. rewrite renderPath_snoc, renderPath_snoc, Hself by
    (try exact Hrev; intros H; now apply app_eq_nil in H as [_ H]).
  now rewrite append_assoc.
Qed.

Lemma hexOfByte_plain (b : ascii) : plainSlug (hexOfByte b) = true.
Proof. destruct b as [[] [] [] [] [] [] [] []]; reflexivity. Qed.

Lemma plainSlug_append (a b : string) :
  plainSlug a = true -> plainSlug b = true -> plainSlug (a ++ b) = true.
Proof.
  induction a as [|c a IH]; cbn [String.append plainSlug]; [trivial|].
  intros Ha Hb. apply andb_true_iff in Ha as [Hc Ha]. now rewrite Hc, IH.
Qed.

Lemma hexOfBytes_plain (bs : list ascii) : plainSlug (hexOfBytes bs) = true.
Proof.
  induction bs as [|b bs IH]; [reflexivity|].
  change (hexOfBytes (b :: bs)) with (hexOfByte b ++ hexOfBytes bs).
  apply plainSlug_append; [apply hexOfByte_plain | exact IH].
Qed.

(** X12: the two files of a plan whose slug has no [/] and no [.] are the
    plan directory, a separator, the slug and the extension; the Markdown
    file and the JSON sidecar are different paths, and plans of different
    slugs share no file.  Every slug [generateSlug] makes is of that kind.
    For a working directory that is a normalized path, the plan directory is
    that path followed by [/.nanocoder/plans]. *)
Theorem plan_files_live_in_the_plan_directory (cwd slug : string) :
  plainSlug slug = true ->
  getPlanMdPath cwd slug = getPlanDirectory cwd ++ "/" ++ slug ++ ".plan.md"
  /\ getPlanJsonPath cwd slug = getPlanDirectory cwd ++ "/" ++ slug ++ ".plan.json"
  /\ (forall other, plainSlug other = true ->
        getPlanMdPath cwd slug <> getPlanJsonPath cwd other
        /\ (other <> slug ->
            getPlanMdPath cwd slug <> getPlanMdPath cwd other
            /\ getPlanJsonPath cwd slug <> getPlanJsonPath cwd other))
  /\ (forall rng, plainSlug (fst (PlanManager.generateSlug rng)) = true
                  /\ plainSlug (fst (PlanningManager.generateSlug rng)) = true)
  /\ (normalize cwd = cwd -> endsWithSlash cwd = false -> cwd <> "." -> cwd <> "/" ->
      getPlanDirectory cwd = cwd ++ "/.nanocoder/plans").
Proof.
  intros Hslug. destruct (plan_paths cwd slug Hslug) as [Hmd Hjson].
  split; [exact Hmd|]. split; [exact Hjson|]. split; [|split].
  - intros other Hother.
    destruct (plan_paths_differ cwd slug other Hslug Hother) as [H1 H2].
    split; [exact H1|]. intros Hne. apply H2. congruence.
  - intros rng. split; apply hexOfBytes_plain.
  - apply normalized_cwd_render.
Qed.

Lemma plan_files_live_in_the_plan_directory_witness :
  getPlanJsonPath "/work/shop" "0b30557a9fc4"
  = "/work/shop/.nanocoder/plans/0b30557a9fc4.plan.json".
Proof.
  rewrite (proj1 (proj2 (plan_files_live_in_the_plan_directory "/work/shop" "0b30557a9fc4"
                           eq_refl))).
  reflexivity.
Defined.

End PathFacts.

(* ===================================================================== *)
(** ** The plan files on disk                                              *)
(* ===================================================================== *)

Section PlanFilesOnDisk.
Import JS Platform Types PlanFileStore Scenario Sessions.
#[local] Arguments String.append !_ _ / : simpl nomatch.

Lemma writeFile_effect (path content : string) (fs fs' : FileSystem) :
  writeFile path content fs = (Ok tt, fs') ->
  files fs' = <[path := content]> (files fs) /\ dirs fs' = dirs fs.
Proof.
  unfold writeFile. destruct (isDirectory fs path); [discriminate|].
  destruct (negb _); [discriminate|]. intros [= <-]. now split.
Qed.

Lemma savePlanFile_effect (home cwd : string) (planFile : PlanFile)
    (markdownContent : option string) (fs fs' : FileSystem) :
  savePlanFile home cwd planFile markdownContent fs = (Ok tt, fs') ->
  isValidProjectDirectory home cwd = true
  /\ exists content,
       writtenMarkdown planFile markdownContent = Ok content
       /\ files fs'
          = <[getPlanJsonPath cwd (slug planFile)
                := JSON_stringify_2 (PlanFile_toValue planFile)]>
              (<[getPlanMdPath cwd (slug planFile) := content]> (files fs))
       /\ dirs fs' = dirs fs ∪ list_to_set (pathPrefixes (getPlanDirectory cwd)).
Proof.
  unfold savePlanFile, ensurePlanDirectory.
  destruct (isValidProjectDirectory home cwd); cbn [negb]; [|discriminate].
  unfold mkdirRecursive. destruct (existsb _ _); [discriminate|].
  fold (writtenMarkdown planFile markdownContent).
  destruct (writtenMarkdown planFile markdownContent) as [content|e]; [|discriminate].
  destruct (writeFile (getPlanMdPath cwd (slug planFile)) content _) as [[u|e] fs2] eqn:Hmd;
    [|discriminate].
  intros Hjson. destruct u. apply writeFile_effect in Hmd as [Hf2 Hd2].
  apply writeFile_effect in Hjson as [Hf Hd].
  split; [reflexivity|]. exists content. split; [reflexivity|].
  rewrite Hf, Hf2, Hd, Hd2. now split.
Qed.

Lemma loadPlanFile_files (cwd slug : string) (fs fs' : FileSystem) :
  files fs' !! getPlanJsonPath cwd slug = files fs !! getPlanJsonPath cwd slug ->
  loadPlanFile cwd slug fs' = loadPlanFile cwd slug fs.
Proof.
  intros H. unfold loadPlanFile, readFile. rewrite H.
  destruct (files fs !! getPlanJsonPath cwd slug); reflexivity.
Qed.

Lemma loadPlanMarkdown_files (cwd slug : string) (fs fs' : FileSystem) :
  files fs' !! getPlanMdPath cwd slug = files fs !! getPlanMdPath cwd slug ->
  loadPlanMarkdown cwd slug fs' = loadPlanMarkdown cwd slug fs.
Proof.
  intros H. unfold loadPlanMarkdown, readFile. rewrite H.
  destruct (files fs !! getPlanMdPath cwd slug); reflexivity.
Qed.

Lemma loadPlanMarkdown_stored (cwd slug content : string) (fs : FileSystem) :
  files fs !! getPlanMdPath cwd slug = Some content ->
  loadPlanMarkdown cwd slug fs = Some content.
Proof. intros H. unfold loadPlanMarkdown, readFile. now rewrite H. Qed.

(** A sidecar holding the text of a plan reads back as that plan. *)
Lemma loadPlanFile_stored (cwd name : string) (planFile : PlanFile) (fs : FileSystem) :
  jsonRepresentable planFile = true ->
  files fs !! getPlanJsonPath cwd name
  = Some (JSON_stringify_2 (PlanFile_toValue planFile)) ->
  loadPlanFile cwd name fs = Some (PlanFile_properties planFile).
Proof.
  intros Hrep Hfile.
  unfold jsonRepresentable in Hrep.
  apply andb_true_iff in Hrep as [Hrep Hdata].
  apply andb_true_iff in Hrep as [Hcreated Hupdated].
  destruct (jsonView_data _ Hdata) as [Hview Hkeys].
  cbn [jsonView] in Hview. injection Hview as Hview.
  destruct planFile as [pid pslug pcreated pupdated pphase prequest pclar pplan pfiles psteps].
  cbn [createdAt updatedAt clarifications] in *.
  destruct pcreated as [t1|]; [|discriminate Hcreated].
  destruct pupdated as [t2|]; [|discriminate Hupdated].
  cbn [validDate] in Hcreated, Hupdated. apply Z.leb_le in Hcreated, Hupdated.
  unfold loadPlanFile, readFile. rewrite Hfile.
  rewrite JSON_parse_stringify.
  - unfold PlanFile_toValue, PlanFile_properties.
    cbn [id slug createdAt updatedAt phase userRequest clarifications
         implementationPlan filesToModify verificationSteps].
    cbn [jsonView map fst snd]. rewrite Hview, !strings_jsonView.
    cbn [spreadProperties readProperty getProperty setProperty String.eqb Ascii.eqb
         Bool.eqb Date_new].
    now rewrite !Date_roundtrip by assumption.
  - unfold PlanFile_toValue, PlanFile_properties.
    cbn [id slug createdAt updatedAt phase userRequest clarifications
         implementationPlan filesToModify verificationSteps].
    cbn [distinctKeys] in Hkeys.
    cbn [distinctKeys map fst snd forallb]. rewrite Hkeys, !strings_distinctKeys.
    reflexivity.
Qed.

Lemma savePlanFile_writes_files (home cwd : string) (planFile : PlanFile)
    (markdownContent : option string) (fs fs' : FileSystem) :
  plainSlug (slug planFile) = true ->
  savePlanFile home cwd planFile markdownContent fs = (Ok tt, fs') ->
  (exists content,
      writtenMarkdown planFile markdownContent = Ok content
      /\ loadPlanMarkdown cwd (slug planFile) fs' = Some content)
  /\ files fs' !! getPlanJsonPath cwd (slug planFile)
     = Some (JSON_stringify_2 (PlanFile_toValue planFile))
  /\ (forall path,
        path <> getPlanMdPath cwd (slug planFile) ->
        path <> getPlanJsonPath cwd (slug planFile) ->
        files fs' !! path = files fs !! path)
  /\ (forall other, plainSlug other = true -> other <> slug planFile ->
        loadPlanFile cwd other fs' = loadPlanFile cwd other fs
        /\ loadPlanMarkdown cwd other fs' = loadPlanMarkdown cwd other fs)
  /\ dirs fs ⊆ dirs fs'.
Proof.
  intros Hslug Hsave.
  apply savePlanFile_effect in Hsave as (_ & content & Hmd & Hfiles & Hdirs).
  destruct (plan_paths_differ cwd (slug planFile) (slug planFile) Hslug Hslug) as [Hne _].
  assert (Hother : forall path,
            path <> getPlanMdPath cwd (slug planFile) ->
            path <> getPlanJsonPath cwd (slug planFile) ->
            files fs' !! path = files fs !! path).
  { intros path H1 H2. rewrite Hfiles.
    rewrite lookup_insert_ne by congruence. now rewrite lookup_insert_ne by congruence. }
  split; [|split; [|split; [exact Hother | split]]].
  - exists content. split; [exact Hmd|]. apply loadPlanMarkdown_stored.
    rewrite Hfiles, lookup_insert_ne by congruence. apply lookup_insert_eq.
  - rewrite Hfiles. apply lookup_insert_eq.
  - intros other Hplain Hneq.
    destruct (plan_paths_differ cwd (slug planFile) other Hslug Hplain) as [H1 H2].
    destruct (plan_paths_differ cwd other (slug planFile) Hplain Hslug) as [H3 _].
    destruct (H2 (fun H => Hneq (eq_sym H))) as [H4 H5].
    split; [apply loadPlanFile_files | apply loadPlanMarkdown_files];
      apply Hother; congruence.
  - rewrite Hdirs. apply union_subseteq_l.
Qed.

(** X13: a successful [savePlanFile] of a plan with a plain slug writes
    exactly two files: the Markdown file holds the Markdown given, or the
    generated one when none or an empty one is given, and reads back through
    [loadPlanMarkdown]; the sidecar holds the JSON text of the plan; every
    other file is as before, so every other plan loads as before; and no
    directory is removed. *)
Theorem savePlanFile_writes_two_files (home cwd : string) (planFile : PlanFile)
    (markdownContent : option string) (fs fs' : FileSystem) :
  plainSlug (slug planFile) = true ->
  savePlanFile home cwd planFile markdownContent fs = (Ok tt, fs') ->
  (exists content,
      writtenMarkdown planFile markdownContent = Ok content
      /\ loadPlanMarkdown cwd (slug planFile) fs' = Some content)
  /\ files fs' !! getPlanJsonPath cwd (slug planFile)
     = Some (JSON_stringify_2 (PlanFile_toValue planFile))
  /\ (forall path,
        path <> getPlanMdPath cwd (slug planFile) ->
        path <> getPlanJsonPath cwd (slug planFile) ->
        files fs' !! path = files fs !! path)
  /\ (forall other, plainSlug other = true -> other <> slug planFile ->
        loadPlanFile cwd other fs' = loadPlanFile cwd other fs
        /\ loadPlanMarkdown cwd other fs' = loadPlanMarkdown cwd other fs)
  /\ dirs fs ⊆ dirs fs'.
Proof. apply savePlanFile_writes_files. Qed.

Lemma savePlanFile_writes_two_files_witness :
  exists fs',
    savePlanFile "/home/alice" "/work/shop" samplePlan (Some "# My plan") emptyFileSystem
    = (Ok tt, fs')
    /\ loadPlanMarkdown "/work/shop" "0b30557a9fc4" fs' = Some "# My plan".
Proof.
  set (run := savePlanFile "/home/alice" "/work/shop" samplePlan (Some "# My plan")
                emptyFileSystem).
  assert (Hsave : run = (Ok tt, snd run)) by (vm_compute; reflexivity).
  exists (snd run). split; [exact Hsave|].
  destruct (proj1 (savePlanFile_writes_two_files "/home/alice" "/work/shop" samplePlan
                     (Some "# My plan") emptyFileSystem (snd run) eq_refl Hsave))
    as (content & Hmd & Hload).
  cbn in Hmd. injection Hmd as <-. exact Hload.
Defined.




Lemma with_updatedAt_representable (now : Z) (planFile : PlanFile) :
  Z.abs now <= maxTime -> jsonRepresentable planFile = true ->
  jsonRepresentable (PlanManager.with_updatedAt (DateOf now) planFile) = true.
Proof.
  unfold jsonRepresentable. intros Hnow H.
  apply andb_true_iff in H as [H Hdata]. apply andb_true_iff in H as [Hc _].
  cbn [PlanManager.with_updatedAt createdAt updatedAt clarifications validDate].
  rewrite Hc, Hdata. apply Z.leb_le in Hnow. now rewrite Hnow.
Qed.

Lemma touch_properties (now : Z) (planFile : PlanFile) :
  setProperty (PlanFile_properties planFile) "updatedAt" (VDate (DateOf now))
  = PlanFile_properties (PlanManager.with_updatedAt (DateOf now) planFile).
Proof. reflexivity. Qed.

(** X15: a successful [updatePlanMarkdown] on a plain slug replaces the
    Markdown of the plan.  When the sidecar loads as a plan, the sidecar is
    written again with [updatedAt] set to the current time and everything
    else as loaded; when it does not load, no sidecar is written.  The files
    of other plans are not touched. *)
Theorem updatePlanMarkdown_touches_the_plan (now : Z) (cwd name markdownContent : string)
    (fs fs' : FileSystem) :
  plainSlug name = true ->
  updatePlanMarkdown now cwd name markdownContent fs = (Ok tt, fs') ->
  loadPlanMarkdown cwd name fs' = Some markdownContent
  /\ (loadPlanFile cwd name fs = None ->
      loadPlanFile cwd name fs' = None
      /\ files fs' = <[getPlanMdPath cwd name := markdownContent]> (files fs))
  /\ (forall planFile,
        jsonRepresentable planFile = true -> Z.abs now <= maxTime ->
        loadPlanFile cwd name fs = Some (PlanFile_properties planFile) ->
        loadPlanFile cwd name fs'
        = Some (PlanFile_properties (PlanManager.with_updatedAt (DateOf now) planFile)))
  /\ (forall path, path <> getPlanMdPath cwd name -> path <> getPlanJsonPath cwd name ->
        files fs' !! path = files fs !! path)
  /\ dirs fs' = dirs fs.
Proof.
  intros Hplain Hrun.
  destruct (plan_paths_differ cwd name name Hplain Hplain) as [Hne _].
  unfold updatePlanMarkdown in Hrun.
  destruct (writeFile (getPlanMdPath cwd name) markdownContent fs) as [[[]|e] fs1] eqn:Hmd;
    [|discriminate Hrun].
  apply writeFile_effect in Hmd as [Hf1 Hd1].
  assert (Hsame : loadPlanFile cwd name fs1 = loadPlanFile cwd name fs).
  { apply loadPlanFile_files. rewrite Hf1. apply lookup_insert_ne. congruence. }
  rewrite Hsame in Hrun.
  destruct (loadPlanFile cwd name fs) as [loaded|] eqn:Hload.
  - apply writeFile_effect in Hrun as [Hf Hd].
    split; [|split; [discriminate | split; [|split]]].
    + apply loadPlanMarkdown_stored. rewrite Hf, Hf1.
      rewrite lookup_insert_ne by congruence. apply lookup_insert_eq.
    + intros planFile Hrep Hnow [= ->].
      apply loadPlanFile_stored; [now apply with_updatedAt_representable|].
      rewrite Hf, touch_properties. apply lookup_insert_eq.
    + intros path H1 H2. rewrite Hf, Hf1.
      rewrite lookup_insert_ne by congruence. now rewrite lookup_insert_ne by congruence.
    + congruence.
  - injection Hrun as <-.
    split; [|split; [|split; [discriminate | split]]].
    + apply loadPlanMarkdown_stored. rewrite Hf1. apply lookup_insert_eq.
    + intros _. split; [now rewrite Hsame | exact Hf1].
    + intros path H1 _. rewrite Hf1. now rewrite lookup_insert_ne by congruence.
    + exact Hd1.
Qed.

Lemma updatePlanMarkdown_touches_the_plan_witness :
  let saved :=
    snd (savePlanFile "/home/alice" "/work/shop" samplePlan None emptyFileSystem) in
  exists fs',
    updatePlanMarkdown 1700000999000 "/work/shop" "0b30557a9fc4" "# Revised" saved
    = (Ok tt, fs')
    /\ loadPlanMarkdown "/work/shop" "0b30557a9fc4" fs' = Some "# Revised"
    /\ loadPlanFile "/work/shop" "0b30557a9fc4" fs'
       = Some (PlanFile_properties
                 (PlanManager.with_updatedAt (DateOf 1700000999000) samplePlan)).
Proof.
  cbv zeta.
  set (saved := snd (savePlanFile "/home/alice" "/work/shop" samplePlan None
                       emptyFileSystem)).
  set (run := updatePlanMarkdown 1700000999000 "/work/shop" "0b30557a9fc4" "# Revised"
                saved).
  assert (Hrun : run = (Ok tt, snd run)) by (vm_compute; reflexivity).
  exists (snd run). split; [exact Hrun|].
  destruct (updatePlanMarkdown_touches_the_plan 1700000999000 "/work/shop" "0b30557a9fc4"
              "# Revised" saved (snd run) eq_refl Hrun) as (Hmd & _ & Hplan & _).
  split; [exact Hmd|]. apply Hplan; [reflexivity | vm_compute; discriminate|].
  apply loadPlanFile_stored; [reflexivity|]. vm_compute. reflexivity.
Defined.

(** X16: [loadPlanFile] checks nothing beyond the JSON syntax: a sidecar
    whose text is any JSON value but [null] loads as an object, whose
    [createdAt] and [updatedAt] are always dates, built from what the text
    holds under these names and invalid when it holds nothing there; the
    other properties are those of the text.  A sidecar holding [null] loads
    as no plan. *)
Theorem loadPlanFile_checks_nothing_but_syntax (cwd name content : string) (data : value)
    (fs : FileSystem) :
  files fs !! getPlanJsonPath cwd name = Some content ->
  JSON_parse content = Ok data ->
  (data = VNull -> loadPlanFile cwd name fs = None)
  /\ (data <> VNull ->
      exists loaded spread,
        loadPlanFile cwd name fs = Some loaded
        /\ spreadProperties data = Some spread
        /\ getProperty loaded "createdAt"
           = Some (VDate (Date_new (readProperty data "createdAt")))
        /\ getProperty loaded "updatedAt"
           = Some (VDate (Date_new (readProperty data "updatedAt")))
        /\ (readProperty data "createdAt" = None ->
            getProperty loaded "createdAt" = Some (VDate InvalidDate))
        /\ (forall key, key <> "createdAt" -> key <> "updatedAt" ->
              getProperty loaded key = getProperty spread key)).
Proof.
  intros Hfile Hparse. unfold loadPlanFile, readFile. rewrite Hfile, Hparse. split.
  - intros ->. reflexivity.
  - intros Hdata.
    destruct (spreadProperties data) as [spread|] eqn:Hspread;
      [|destruct data; try discriminate Hspread; now elim Hdata].
    eexists. exists spread. split; [reflexivity|]. split; [reflexivity|].
    assert (Hcreated : getProperty
                         (setProperty
                            (setProperty spread "createdAt"
                               (VDate (Date_new (readProperty data "createdAt"))))
                            "updatedAt" (VDate (Date_new (readProperty data "updatedAt"))))
                         "createdAt"
                       = Some (VDate (Date_new (readProperty data "createdAt")))).
    { rewrite setProperty_get_other by discriminate. apply setProperty_get. }
    split; [exact Hcreated|]. split; [apply setProperty_get|]. split.
    + intros Hnone. rewrite Hcreated, Hnone. reflexivity.
    + intros key H1 H2. rewrite !setProperty_get_other by assumption. reflexivity.
Qed.

Lemma loadPlanFile_checks_nothing_but_syntax_witness :
  let fs := {| files := {[ "/work/shop/.nanocoder/plans/x.plan.json" := "[7]" ]};
               dirs := ∅ |} in
  exists loaded,
    loadPlanFile "/work/shop" "x" fs = Some loaded
    /\ getProperty loaded "createdAt" = Some (VDate InvalidDate)
    /\ getProperty loaded "0" = Some (VNum 7).
Proof.
  cbv zeta.
  set (fs := {| files := {[ "/work/shop/.nanocoder/plans/x.plan.json" := "[7]" ]};
                dirs := ∅ |}).
  assert (Hfile : files fs !! getPlanJsonPath "/work/shop" "x" = Some "[7]")
    by (vm_compute; reflexivity).
  assert (Hparse : JSON_parse "[7]" = Ok (VArr [VNum 7])) by (vm_compute; reflexivity).
  destruct (proj2 (loadPlanFile_checks_nothing_but_syntax "/work/shop" "x" "[7]"
                     (VArr [VNum 7]) fs Hfile Hparse) ltac:(discriminate))
    as (loaded & spread & Hload & Hspread & _ & _ & Hinvalid & Hother).
  exists loaded. split; [exact Hload|]. split; [now apply Hinvalid|].
  rewrite Hother by discriminate. injection Hspread as <-. reflexivity.
Defined.

End PlanFilesOnDisk.

(* ===================================================================== *)
(** ** Plan files: the test of the home directory, and invalid dates       *)
(* ===================================================================== *)

Section PlanFilesEdges.
Import JS Platform Types PlanFileStore Scenario Sessions.
#[local] Arguments String.append !_ _ / : simpl nomatch.

Lemma prefix_split (p s : string) : String.prefix p s = true -> exists r, s = p ++ r.
Proof.
  revert s. induction p as [|c p IH]; intros s H.
  - exists s. reflexivity.
  - destruct s as [|c' s]; [discriminate H|]. cbn [String.prefix] in H.
    destruct (ascii_dec c c') as [<-|]; [|discriminate H].
    destruct (IH s H) as [r ->]. exists r. reflexivity.
Qed.

Lemma prefix_cancel (h a b : string) : String.prefix (h ++ a) (h ++ b) = String.prefix a b.
Proof.
  induction h as [|c h IH]; cbn [String.append String.prefix]; [reflexivity|].
  destruct (ascii_dec c c) as [_|H]; [exact IH | now elim H].
Qed.

Lemma backslashesToSlashes_append (a b : string) :
  backslashesToSlashes (a ++ b) = backslashesToSlashes a ++ backslashesToSlashes b.
Proof.
  induction a as [|c a IH]; cbn [String.append backslashesToSlashes]; [reflexivity|].
  now rewrite IH.
Qed.

Lemma normalStack_regular (kept : list string) :
  normalStack false kept = true -> forallb regularSegment kept = true.
Proof.
  induction kept as [|top below IH]; cbn [normalStack forallb]; [reflexivity|].
  destruct (String.eqb top ".."); [discriminate|].
  intros H. apply andb_true_iff in H as [Htop H]. now rewrite Htop, IH.
Qed.

Lemma forallb_rev {A} (p : A -> bool) (l : list A) : forallb p (rev l) = forallb p l.
Proof.
  induction l as [|x l IH]; cbn [rev forallb]; [reflexivity|].
  rewrite forallb_app, IH. cbn [forallb]. now rewrite andb_true_r, andb_comm.
Qed.

Lemma regular_noSlash (segs : list string) :
  forallb regularSegment segs = true -> forallb noSlash segs = true.
Proof.
  induction segs as [|x l IH]; cbn [forallb]; [reflexivity|].
  intros H. apply andb_true_iff in H as [Hx H].
  now rewrite (regularSegment_noSlash _ Hx), IH.
Qed.

(** A plain absolute path is the text of its directories. *)
Lemma plainAbsolute_render (path : string) :
  plainAbsolute path = true ->
  exists segs,
    segs <> [] /\ forallb regularSegment segs = true
    /\ path = "/" ++ Array_join "/" segs
    /\ directorySegments path = segs
    /\ backslashesToSlashes path = path
    /\ startsWith path "/" = true.
Proof.
  unfold plainAbsolute. intros H.
  apply andb_true_iff in H as [H Hbs]. apply andb_true_iff in H as [H Hend].
  apply andb_true_iff in H as [Habs Hnorm].
  apply String.eqb_eq in Hbs, Hnorm. apply negb_true_iff in Hend.
  set (kept := fold_left (normalizeStep false) (splitSlash path) []).
  assert (Hstack : normalStack false kept = true)
    by (apply fold_normalStack; [apply splitSlash_segments | reflexivity]).
  assert (Hkept : kept <> []).
  { intros Hnil. unfold normalize in Hnorm.
    destruct (String.eqb path "") eqn:E;
      [apply String.eqb_eq in E; subst path; discriminate Habs|].
    rewrite Habs in Hnorm. cbn [negb] in Hnorm. unfold normalizeSegments in Hnorm.
    fold kept in Hnorm. rewrite Hnil in Hnorm. cbn in Hnorm.
    rewrite <- Hnorm in Hend. discriminate Hend. }
  pose proof (normalize_render path) as Hrender. cbv zeta in Hrender.
  rewrite Habs in Hrender. cbn [negb] in Hrender. fold kept in Hrender.
  specialize (Hrender Hkept Hend). rewrite Hnorm in Hrender.
  exists (rev kept). split; [|split; [|split; [|split; [|split]]]].
  - intros Hrev. apply (f_equal (@rev _)) in Hrev. rewrite rev_involutive in Hrev.
    now apply Hkept.
  - rewrite forallb_rev. now apply normalStack_regular.
  - exact Hrender.
  - reflexivity.
  - exact Hbs.
  - exact Habs.
Qed.

Lemma segmentsPrefix_spec (dir path : list string) :
  segmentsPrefix dir path = true <-> exists below, path = (dir ++ below)%list.
Proof.
  revert path. induction dir as [|d dir IH]; intros path; cbn [segmentsPrefix app].
  - split; [intros _; now exists path | reflexivity].
  - destruct path as [|p path].
    + split; [discriminate | intros [below H]; discriminate H].
    + rewrite andb_true_iff, String.eqb_eq, IH. split.
      * intros [-> [below ->]]. now exists below.
      * intros [below [= -> ->]]. split; [reflexivity | now exists below].
Qed.

Lemma Array_join_app (a b : list string) :
  a <> [] -> b <> [] ->
  Array_join "/" (a ++ b) = Array_join "/" a ++ "/" ++ Array_join "/" b.
Proof.
  intros Ha Hb. induction a as [|x a IH]; [now elim Ha|].
  destruct a as [|y a].
  - destruct b as [|z b]; [now elim Hb|]. cbn [app]. now rewrite Array_join_cons.
  - cbn [app] in *. rewrite !Array_join_cons, IH by discriminate.
    now rewrite !append_assoc.
Qed.

Lemma join_inj (a b : list string) :
  a <> [] -> b <> [] -> forallb noSlash a = true -> forallb noSlash b = true ->
  Array_join "/" a = Array_join "/" b -> a = b.
Proof.
  intros Ha Hb Hna Hnb H. apply (f_equal splitSlash) in H.
  now rewrite !splitSlash_join in H.
Qed.

Lemma splitSlash_cons_nonempty (s : string) : exists x l, splitSlash s = x :: l.
Proof.
  destruct (splitSlash s) as [|x l] eqn:E; [now elim (splitSlash_nonempty s)|].
  now exists x, l.
Qed.

(** On the texts of two lists of directories, the test of the code is the
    comparison of the lists. *)
Lemma text_test_segments (hs cs : list string) :
  hs <> [] -> cs <> [] ->
  forallb regularSegment hs = true -> forallb regularSegment cs = true ->
  let home := "/" ++ Array_join "/" hs in
  let cwd := "/" ++ Array_join "/" cs in
  (String.eqb cwd home = true <-> cs = hs)
  /\ (startsWith cwd (home ++ "/") = true
      <-> exists below, below <> [] /\ cs = (hs ++ below)%list)
  /\ String.eqb cwd (home ++ "/") = false
  /\ startsWith cwd ((home ++ "/") ++ "/") = false.
Proof.
  intros Hh Hc Hrh Hrc home cwd.
  pose proof (regular_noSlash _ Hrh) as Hnh. pose proof (regular_noSlash _ Hrc) as Hnc.
  assert (Hsplit : forall r, splitSlash (Array_join "/" hs ++ "/" ++ r)
                             = (hs ++ splitSlash r)%list).
  { intros r. now rewrite splitSlash_app, splitSlash_join. }
  assert (Hempty : ~ In "" cs).
  { intros Hin. rewrite forallb_forall in Hrc. specialize (Hrc _ Hin). discriminate Hrc. }
  split; [|split; [|split]].
  - rewrite String.eqb_eq. unfold cwd, home. split.
    + intros H. apply append_cancel_l in H. now apply join_inj.
    + now intros ->.
  - unfold startsWith, cwd, home. rewrite append_assoc.
    rewrite (prefix_cancel "/"). split.
    + intros H. apply prefix_split in H as [r Hr]. rewrite append_assoc in Hr.
      apply (f_equal splitSlash) in Hr. rewrite Hsplit, splitSlash_join in Hr by assumption.
      exists (splitSlash r). split; [apply splitSlash_nonempty | exact Hr].
    + intros (below & Hbelow & ->). rewrite Array_join_app by assumption.
      rewrite <- append_assoc. apply prefix_append.
  - apply String.eqb_neq. unfold cwd, home. rewrite append_assoc. intros H.
    apply append_cancel_l in H. apply (f_equal splitSlash) in H.
    change (Array_join "/" hs ++ "/") with (Array_join "/" hs ++ "/" ++ "") in H.
    rewrite Hsplit, splitSlash_join in H by assumption. cbn [splitSlash] in H.
    apply Hempty. rewrite H. apply in_or_app. right. now left.
  - unfold startsWith, cwd, home. rewrite !append_assoc. rewrite (prefix_cancel "/").
    destruct (String.prefix _ _) eqn:E; [|reflexivity].
    apply prefix_split in E as [r Hr]. rewrite !append_assoc in Hr.
    apply (f_equal splitSlash) in Hr.
    change ("/" ++ "/" ++ r) with ("/" ++ ("" ++ "/" ++ r)) in Hr.
    rewrite Hsplit, splitSlash_join in Hr by assumption.
    rewrite splitSlash_app in Hr. cbn [splitSlash app] in Hr.
    exfalso. apply Hempty. rewrite Hr. apply in_or_app. right. now left.
Qed.

Lemma directorySegments_trailing (path : string) :
  directorySegments (path ++ "/") = directorySegments path.
Proof.
  unfold directorySegments, normalizeSegments.
  change (path ++ "/") with (path ++ "/" ++ "").
  rewrite splitSlash_app, fold_left_app. reflexivity.
Qed.

(** X17: for a home directory and a working directory given as plain
    absolute paths (normalized, no separator at the end, no backslash),
    [isValidProjectDirectory] returns false exactly when the working
    directory is the home directory or a directory below it.  The same home
    path with a separator at its end switches the test off: no plain working
    directory is refused, the home directory and those below it included. *)
Theorem home_check_on_plain_paths (home cwd : string) :
  plainAbsolute home = true -> plainAbsolute cwd = true ->
  (isValidProjectDirectory home cwd = false <-> isHomeOrBelow home cwd = true)
  /\ isValidProjectDirectory (home ++ "/") cwd = true
  /\ isHomeOrBelow (home ++ "/") cwd = isHomeOrBelow home cwd.
Proof.
  intros Hhome Hcwd.
  destruct (plainAbsolute_render home Hhome) as (hs & Hh & Hrh & Hhtext & Hhsegs & Hhbs & Hhabs).
  destruct (plainAbsolute_render cwd Hcwd) as (cs & Hc & Hrc & Hctext & Hcsegs & Hcbs & Hcabs).
  destruct (text_test_segments hs cs Hh Hc Hrh Hrc) as (Heq & Hbelow & Hneq & Hnot).
  cbv zeta in Heq, Hbelow, Hneq, Hnot. rewrite <- Hhtext, <- Hctext in *.
  split; [|split].
  - unfold isValidProjectDirectory, isHomeOrBelow.
    rewrite Hhbs, Hcbs, Hhabs, Hcabs, Hhsegs, Hcsegs. cbn [andb].
    rewrite segmentsPrefix_spec. split.
    + destruct (String.eqb cwd home) eqn:E.
      * intros _. exists []. rewrite app_nil_r. now apply Heq.
      * destruct (startsWith cwd (home ++ "/")) eqn:E'; [|discriminate].
        intros _. destruct (proj1 Hbelow eq_refl) as (below & _ & ->). now exists below.
    + intros [below Hcs]. destruct below as [|b below].
      * rewrite app_nil_r in Hcs. now rewrite (proj2 Heq Hcs).
      * destruct (String.eqb cwd home); [reflexivity|].
        rewrite (proj2 Hbelow); [reflexivity|]. exists (b :: below). now split.
  - unfold isValidProjectDirectory.
    rewrite backslashesToSlashes_append, Hhbs, Hcbs.
    change (backslashesToSlashes "/") with "/".
    now rewrite Hneq, Hnot.
  - unfold isHomeOrBelow. rewrite directorySegments_trailing.
    assert (Habs' : startsWith (home ++ "/") "/" = true).
    { rewrite startsWith_append; [exact Hhabs|]. intros ->. discriminate Hhabs. }
    now rewrite Habs', Hhabs.
Qed.

Lemma home_check_on_plain_paths_witness :
  isHomeOrBelow "/home/alice" "/home/alice/shop" = true
  /\ isValidProjectDirectory "/home/alice" "/home/alice/shop" = false
  /\ isValidProjectDirectory "/home/alice/" "/home/alice/shop" = true
  /\ isValidProjectDirectory "/home/alice" "/home/alicia" = true.
Proof.
  destruct (home_check_on_plain_paths "/home/alice" "/home/alice/shop" eq_refl eq_refl)
    as (Hiff & Hoff & _).
  split; [reflexivity|]. split; [now apply Hiff|]. split; [exact Hoff|].
  destruct (isValidProjectDirectory "/home/alice" "/home/alicia") eqn:E; [reflexivity|].
  apply (proj1 (home_check_on_plain_paths "/home/alice" "/home/alicia" eq_refl eq_refl))
    in E.
  discriminate E.
Defined.

Lemma savePlanFile_failed_files (home cwd : string) (planFile : PlanFile)
    (fs : FileSystem) :
  generatePlanMarkdown planFile = Throw (MkError "RangeError" "Invalid time value") ->
  files (snd (savePlanFile home cwd planFile None fs)) = files fs
  /\ (forall fs', savePlanFile home cwd planFile None fs <> (Ok tt, fs'))
  /\ (forall fs1, ensurePlanDirectory home cwd fs = (Ok tt, fs1) ->
        savePlanFile home cwd planFile None fs
        = (Throw (MkError "RangeError" "Invalid time value"), fs1)).
Proof.
  intros Hgen. unfold savePlanFile. rewrite Hgen.
  unfold ensurePlanDirectory, mkdirRecursive.
  destruct (negb _); cbn [snd]; [split; [reflexivity | split; discriminate]|].
  destruct (existsb _ _); cbn [snd]; [split; [reflexivity | split; discriminate]|].
  split; [reflexivity|]. split; [discriminate|]. now intros fs1 [= <-].
Qed.

(** X18: an invalid date does not survive saving.  With no Markdown given,
    [savePlanFile] of a plan whose [createdAt] is an invalid date throws a
    [RangeError] once the plan directory is there, and writes no file.  With
    Markdown given it succeeds, the sidecar holds [null] for the date, and
    the plan loads back with [createdAt] at the epoch. *)
Theorem invalid_date_is_not_saved (home cwd : string) (planFile : PlanFile)
    (fs : FileSystem) :
  createdAt planFile = InvalidDate ->
  files (snd (savePlanFile home cwd planFile None fs)) = files fs
  /\ (forall fs', savePlanFile home cwd planFile None fs <> (Ok tt, fs'))
  /\ (forall fs1, ensurePlanDirectory home cwd fs = (Ok tt, fs1) ->
        savePlanFile home cwd planFile None fs
        = (Throw (MkError "RangeError" "Invalid time value"), fs1))
  /\ (forall markdown fs',
        validDate (updatedAt planFile) = true ->
        isJSONData (VObj (clarifications planFile)) = true ->
        savePlanFile home cwd planFile (Some markdown) fs = (Ok tt, fs') ->
        markdown <> ""
        /\ loadPlanFile cwd (slug planFile) fs'
           = Some (setProperty (PlanFile_properties planFile) "createdAt"
                     (VDate (DateOf 0)))).
Proof.
  intros Hinvalid.
  assert (Hgen : generatePlanMarkdown planFile
                 = Throw (MkError "RangeError" "Invalid time value"))
    by (unfold generatePlanMarkdown; now rewrite Hinvalid).
  destruct (savePlanFile_failed_files home cwd planFile fs Hgen) as (H1 & H2 & H3).
  split; [exact H1|]. split; [exact H2|]. split; [exact H3|].
  intros markdown fs' Hupdated Hdata Hsave.
  assert (Hmd : markdown <> "").
  { intros ->. apply savePlanFile_effect in Hsave as (_ & content & Hc & _).
    cbn [writtenMarkdown String.eqb] in Hc. rewrite Hgen in Hc. discriminate Hc. }
  split; [exact Hmd|].
  apply savePlanFile_written in Hsave.
  destruct (jsonView_data _ Hdata) as [Hview Hkeys].
  cbn [jsonView] in Hview. injection Hview as Hview.
  destruct planFile as [pid pslug pcreated pupdated pphase prequest pclar pplan pfiles psteps].
  cbn [createdAt updatedAt clarifications slug] in *. subst pcreated.
  destruct pupdated as [t2|]; [|discriminate Hupdated].
  cbn [validDate] in Hupdated. apply Z.leb_le in Hupdated.
  unfold loadPlanFile, readFile. rewrite Hsave.
  rewrite JSON_parse_stringify.
  - unfold PlanFile_toValue, PlanFile_properties.
    cbn [Types.id Types.slug createdAt updatedAt phase userRequest clarifications
         implementationPlan filesToModify verificationSteps].
    cbn [jsonView map fst snd]. rewrite Hview, !strings_jsonView.
    cbn [spreadProperties readProperty getProperty setProperty String.eqb Ascii.eqb
         Bool.eqb Date_new].
    now rewrite !Date_roundtrip by assumption.
  - unfold PlanFile_toValue, PlanFile_properties.
    cbn [Types.id Types.slug createdAt updatedAt phase userRequest clarifications
         implementationPlan filesToModify verificationSteps].
    cbn [distinctKeys] in Hkeys.
    cbn [distinctKeys map fst snd forallb]. rewrite Hkeys, !strings_distinctKeys.
    reflexivity.
Qed.

Lemma invalid_date_is_not_saved_witness :
  let broken :=
    {| id := "0b30557a9fc4"; slug := "0b30557a9fc4"; createdAt := InvalidDate;
       updatedAt := DateOf 1700000360000; phase := design;
       userRequest := "build a login page"; clarifications := [];
       implementationPlan := ""; filesToModify := []; verificationSteps := [] |} in
  fst (savePlanFile "/home/alice" "/work/shop" broken None emptyFileSystem)
  = Throw (MkError "RangeError" "Invalid time value").
Proof.
  cbv zeta.
  rewrite (proj1 (proj2 (proj2 (invalid_date_is_not_saved "/home/alice" "/work/shop"
             {| id := "0b30557a9fc4"; slug := "0b30557a9fc4"; createdAt := InvalidDate;
                updatedAt := DateOf 1700000360000; phase := design;
                userRequest := "build a login page"; clarifications := [];
                implementationPlan := ""; filesToModify := []; verificationSteps := [] |}
             emptyFileSystem eq_refl)))
           (snd (ensurePlanDirectory "/home/alice" "/work/shop" emptyFileSystem))).
  - reflexivity.
  - vm_compute. reflexivity.
Defined.

End PlanFilesEdges.

(* ===================================================================== *)
(** ** The plan manager facade                                             *)
(* ===================================================================== *)

Section PlanManagerFacts.
Import JS Platform Types PlanFileStore PlanManager PlanQueries Scenario Sessions.
#[local] Arguments String.append !_ _ / : simpl nomatch.

(** X19: a plan [createPlan] returns is new and stored: its [id] and [slug]
    are the twelve hexadecimal digits drawn, its dates both the current time,
    its phase the first, its request the one given and everything else
    empty; its Markdown file holds the generated Markdown; and with a clock
    inside the range of dates, [loadPlan] returns the plan and
    [loadPlanWithMarkdown] the plan with that Markdown. *)
Theorem createPlan_stores_a_fresh_plan (home cwd : string) (rng rng' : Rng) (now : Z)
    (userRequest : string) (fs fs' : FileSystem) (created : PlanFile) :
  createPlan home cwd rng now userRequest fs = (Ok created, fs', rng') ->
  created
  = {| id := fst (generateSlug rng); slug := fst (generateSlug rng);
       createdAt := DateOf now; updatedAt := DateOf now;
       phase := initial_understanding; userRequest := userRequest;
       clarifications := []; implementationPlan := "";
       filesToModify := []; verificationSteps := [] |}
  /\ rng' = snd (generateSlug rng)
  /\ isValidProjectDirectory home cwd = true
  /\ (exists markdown,
        generatePlanMarkdown created = Ok markdown
        /\ loadMarkdown cwd (slug created) fs' = Some markdown
        /\ (Z.abs now <= maxTime ->
            loadPlan cwd (slug created) fs' = Some (PlanFile_properties created)
            /\ loadPlanWithMarkdown cwd (slug created) fs'
               = Some (PlanFile_properties created, markdown))).
Proof.
  unfold createPlan.
  destruct (isValidProjectDirectory home cwd) eqn:Hvalid; cbn [negb]; [|discriminate].
  destruct (generateSlug rng) as [sl rng1] eqn:Hslug. cbn [fst snd].
  match goal with
  | |- context [savePlanFile home cwd ?pf None fs] => set (planFile := pf)
  end.
  destruct (savePlanFile home cwd planFile None fs) as [[[]|e] fs1] eqn:Hsave;
    [|discriminate].
  intros [= <- <- <-]. split; [reflexivity|]. split; [reflexivity|].
  split; [reflexivity|].
  assert (Hplain : plainSlug (slug planFile) = true).
  { cbn [planFile slug]. replace sl with (fst (generateSlug rng)) by now rewrite Hslug.
    apply hexOfBytes_plain. }
  destruct (savePlanFile_writes_files home cwd planFile None fs fs1 Hplain Hsave)
    as ((markdown & Hmd & Hload) & Hjson & _).
  exists markdown. cbn [writtenMarkdown] in Hmd.
  split; [exact Hmd|]. split; [exact Hload|].
  intros Hnow.
  assert (Hplan : loadPlanFile cwd (slug planFile) fs1
                  = Some (PlanFile_properties planFile)).
  { apply loadPlanFile_stored; [|exact Hjson].
    unfold jsonRepresentable. cbn [planFile createdAt updatedAt clarifications validDate].
    apply Z.leb_le in Hnow. now rewrite Hnow. }
  split; [exact Hplan|].
  unfold loadPlanWithMarkdown. now rewrite Hplan, Hload.
Qed.

Lemma createPlan_stores_a_fresh_plan_witness :
  let run := createPlan "/home/alice" "/work/shop" sampleRng 1700000000123
               "build a login page" emptyFileSystem in
  exists created,
    fst (fst run) = Ok created
    /\ slug created = "0b30557a9fc4"
    /\ loadPlan "/work/shop" "0b30557a9fc4" (snd (fst run))
       = Some (PlanFile_properties created).
Proof.
  cbv zeta.
  set (run := createPlan "/home/alice" "/work/shop" sampleRng 1700000000123
                "build a login page" emptyFileSystem).
  set (created :=
         {| id := "0b30557a9fc4"; slug := "0b30557a9fc4";
            createdAt := DateOf 1700000000123; updatedAt := DateOf 1700000000123;
            phase := initial_understanding; userRequest := "build a login page";
            clarifications := []; implementationPlan := "";
            filesToModify := []; verificationSteps := [] |}).
  assert (Hrun : run = (Ok created, snd (fst run), snd run)) by (vm_compute; reflexivity).
  exists created. split; [now rewrite Hrun|]. split; [reflexivity|].
  destruct (createPlan_stores_a_fresh_plan "/home/alice" "/work/shop" sampleRng (snd run)
              1700000000123 "build a login page" emptyFileSystem (snd (fst run)) created
              Hrun) as (_ & _ & _ & markdown & _ & _ & Hload).
  apply Hload. vm_compute. discriminate.
Defined.

(** X20: [updatePlan] and [savePlanWithMarkdown] stamp the plan with the
    current time before saving it: after either, the plan loads back with
    [updatedAt] at that time and every other field as passed in; and
    [savePlanWithMarkdown] stores the Markdown given, when it is not empty
    and the slug is plain. *)
Theorem updatePlan_stamps_the_plan (home cwd : string) (now : Z) (planFile : PlanFile)
    (fs fs' : FileSystem) :
  jsonRepresentable planFile = true ->
  Z.abs now <= maxTime ->
  (updatePlan home cwd now planFile fs = (Ok tt, fs') ->
     loadPlan cwd (slug planFile) fs'
     = Some (PlanFile_properties (with_updatedAt (DateOf now) planFile)))
  /\ (forall markdown,
        savePlanWithMarkdown home cwd now planFile markdown fs = (Ok tt, fs') ->
        loadPlan cwd (slug planFile) fs'
        = Some (PlanFile_properties (with_updatedAt (DateOf now) planFile))
        /\ (plainSlug (slug planFile) = true -> markdown <> "" ->
            loadMarkdown cwd (slug planFile) fs' = Some markdown))
  /\ PlanFile_properties (with_updatedAt (DateOf now) planFile)
     = setProperty (PlanFile_properties planFile) "updatedAt" (VDate (DateOf now)).
Proof.
  intros Hrep Hnow.
  pose proof (with_updatedAt_representable now planFile Hnow Hrep) as Hrep'.
  unfold updatePlan, savePlanWithMarkdown, loadPlan, loadMarkdown.
  split; [|split; [|reflexivity]].
  - intros Hsave. apply savePlanFile_written in Hsave.
    now apply (loadPlanFile_stored cwd (slug planFile) _ fs' Hrep').
  - intros markdown Hsave. split.
    + apply savePlanFile_written in Hsave.
      now apply (loadPlanFile_stored cwd (slug planFile) _ fs' Hrep').
    + intros Hplain Hmd.
      destruct (savePlanFile_writes_files home cwd (with_updatedAt (DateOf now) planFile)
                  (Some markdown) fs fs' Hplain Hsave)
        as ((content & Hc & Hload) & _).
      cbn [writtenMarkdown] in Hc. apply String.eqb_neq in Hmd. rewrite Hmd in Hc.
      injection Hc as <-. exact Hload.
Qed.

Lemma updatePlan_stamps_the_plan_witness :
  exists fs',
    updatePlan "/home/alice" "/work/shop" 1700000999000 samplePlan emptyFileSystem
    = (Ok tt, fs')
    /\ loadPlan "/work/shop" "0b30557a9fc4" fs'
       = Some (PlanFile_properties (with_updatedAt (DateOf 1700000999000) samplePlan)).
Proof.
  set (run := updatePlan "/home/alice" "/work/shop" 1700000999000 samplePlan
                emptyFileSystem).
  assert (Hrun : run = (Ok tt, snd run)) by (vm_compute; reflexivity).
  exists (snd run). split; [exact Hrun|].
  apply (proj1 (updatePlan_stamps_the_plan "/home/alice" "/work/shop" 1700000999000
                  samplePlan emptyFileSystem (snd run) eq_refl
                  ltac:(vm_compute; discriminate))).
  exact Hrun.
Defined.

End PlanManagerFacts.

(* ===================================================================== *)
(** ** Listing and searching the plans                                     *)
(* ===================================================================== *)

Section ListingFacts.
Import JS Platform Types PlanFileStore PlanListing PlanQueries Scenario Sessions.
#[local] Arguments String.append !_ _ / : simpl nomatch.

Lemma dropChars_append (a b : string) : dropChars (String.length a) (a ++ b) = b.
Proof.
  induction a as [|c a IH]; cbn [String.length String.append dropChars]; [|exact IH].
  now destruct b.
Qed.

Lemma endsWith_append (a b : string) : endsWith (a ++ b) b = true.
Proof.
  unfold endsWith. rewrite append_length.
  replace (String.length a + String.length b - String.length b)%nat
    with (String.length a) by lia.
  rewrite dropChars_append, String.eqb_refl, andb_true_r. apply Nat.leb_le. lia.
Qed.

Lemma prefix_refl (s : string) : String.prefix s s = true.
Proof.
  induction s as [|c s IH]; cbn [String.prefix]; [reflexivity|].
  destruct (ascii_dec c c) as [_|H]; [exact IH | now elim H].
Qed.

Lemma dropChars_all (s : string) : dropChars (String.length s) s = "".
Proof. induction s as [|c s IH]; cbn [String.length dropChars]; [reflexivity | exact IH]. Qed.

(** Taking the extension out of the file name of a plain slug gives the
    slug. *)
Lemma removeFirst_plainSlug (s ext : string) :
  plainSlug s = true ->
  removeFirst (String "." ext) (s ++ String "." ext) = s.
Proof.
  intros Hs. induction s as [|c s IH].
  - cbn [String.append removeFirst]. rewrite prefix_refl. apply dropChars_all.
  - cbn [plainSlug] in Hs. apply andb_true_iff in Hs as [Hc Hs].
    apply andb_true_iff in Hc as [_ Hc]. apply negb_true_iff, Ascii.eqb_neq in Hc.
    cbn [String.append removeFirst String.prefix].
    destruct (ascii_dec "." c) as [<-|_]; [now elim Hc|]. now rewrite IH.
Qed.

Lemma listPlanFiles_In (cwd : string) (entries : list string) (fs : FileSystem)
    (name : string) (found : list (string * value)) :
  In (name, found) (listPlanFiles cwd (Ok entries) fs)
  <-> (exists entry, In entry entries /\ endsWith entry PLAN_JSON_EXT = true
                     /\ name = removeFirst PLAN_JSON_EXT entry)
      /\ loadPlanFile cwd name fs = Some found.
Proof.
  unfold listPlanFiles. rewrite Array_sort_In, in_flat_map. split.
  - intros (s & Hs & Hin). apply in_map_iff in Hs as (entry & <- & Hentry).
    apply filter_In in Hentry as [Hentry Hends].
    destruct (loadPlanFile cwd _ fs) as [pf|] eqn:Hload; [|contradiction].
    destruct Hin as [[= <- <-]|[]]. split; [|exact Hload]. now exists entry.
  - intros [(entry & Hentry & Hends & ->) Hload].
    exists (removeFirst PLAN_JSON_EXT entry). split.
    + apply in_map_iff. exists entry. split; [reflexivity|]. now apply filter_In.
    + rewrite Hload. now left.
Qed.

Lemma pathPrefixes_self (a : bool) (kept : list string) :
  kept <> [] -> normalStack (negb a) kept = true ->
  In (renderPath a (rev kept)) (pathPrefixes (renderPath a (rev kept))).
Proof.
  intros Hne Hnormal.
  assert (Hrev : rev kept <> []).
  { intros H. apply (f_equal (@rev _)) in H. rewrite rev_involutive in H. now apply Hne. }
  assert (Hsegs : forall seg, In seg (rev kept) -> seg <> "" /\ noSlash seg = true).
  { intros seg Hseg. apply in_rev in Hseg. exact (normalStack_segments _ _ _ Hnormal Hseg). }
  assert (Hslash : forallb noSlash (rev kept) = true).
  { apply forallb_forall. intros seg Hseg. now apply Hsegs. }
  assert (Hfilter : List.filter (fun seg => negb (String.eqb seg ""))
                      (splitSlash (renderPath a (rev kept))) = rev kept).
  { assert (Hall : List.filter (fun seg => negb (String.eqb seg "")) (rev kept) = rev kept).
    { apply filter_all. intros seg Hseg. apply negb_true_iff, String.eqb_neq.
      now apply Hsegs. }
    unfold renderPath. destruct a.
    - change ("/" ++ Array_join "/" (rev kept))
        with (String "/" (Array_join "/" (rev kept))).
      cbn [splitSlash]. rewrite Ascii.eqb_refl, splitSlash_join by assumption.
      cbn [List.filter String.eqb negb]. exact Hall.
    - cbn [String.append]. rewrite splitSlash_join by assumption. exact Hall. }
  unfold pathPrefixes. rewrite Hfilter, startsWith_renderPath by assumption.
  apply in_map_iff. exists (length (rev kept)). split.
  - unfold renderPath. now rewrite firstn_all.
  - apply in_seq. destruct (rev kept); [now elim Hrev | cbn [length]; lia].
Qed.

Lemma planDirectory_made (home cwd : string) (fs fs' : FileSystem) :
  ensurePlanDirectory home cwd fs = (Ok tt, fs') ->
  isDirectory fs' (getPlanDirectory cwd) = true.
Proof.
  unfold ensurePlanDirectory, mkdirRecursive.
  destruct (negb _); [discriminate|]. destruct (existsb _ _); [discriminate|].
  intros [= <-]. unfold isDirectory. cbn [dirs].
  destruct (getPlanDirectory_render cwd) as (a & kept & -> & Hnormal & _).
  rewrite !orb_true_iff. right. apply bool_decide_eq_true.
  apply elem_of_union. right. apply elem_of_list_to_set, list_elem_of_In.
  apply pathPrefixes_self; [discriminate | exact Hnormal].
Qed.

Lemma savePlanFile_directory (home cwd : string) (planFile : PlanFile)
    (markdownContent : option string) (fs fs' : FileSystem) :
  savePlanFile home cwd planFile markdownContent fs = (Ok tt, fs') ->
  isDirectory fs' (getPlanDirectory cwd) = true.
Proof.
  intros Hsave. unfold savePlanFile in Hsave.
  destruct (ensurePlanDirectory home cwd fs) as [[[]|e] fs1] eqn:He; [|discriminate Hsave].
  apply planDirectory_made in He.
  destruct (match markdownContent with
            | Some md => if String.eqb md "" then generatePlanMarkdown planFile else Ok md
            | None => generatePlanMarkdown planFile
            end) as [content|e]; [|discriminate Hsave].
  destruct (writeFile _ content fs1) as [[[]|e] fs2] eqn:Hmd; [|discriminate Hsave].
  apply writeFile_effect in Hmd as [_ Hd2]. apply writeFile_effect in Hsave as [_ Hd].
  unfold isDirectory in *. now rewrite Hd, Hd2.
Qed.

Lemma saved_plan_listed (home cwd : string) (planFile : PlanFile)
    (markdownContent : option string) (before fs : FileSystem)
    (listing : Result (list string)) :
  plainSlug (slug planFile) = true ->
  jsonRepresentable planFile = true ->
  savePlanFile home cwd planFile markdownContent before = (Ok tt, fs) ->
  readdir (getPlanDirectory cwd) fs listing ->
  In (slug planFile, PlanFile_properties planFile) (listPlanFiles cwd listing fs).
Proof.
  intros Hplain Hrep Hsave Hread.
  pose proof (savePlanFile_directory _ _ _ _ _ _ Hsave) as Hdir.
  pose proof (savePlanFile_written _ _ _ _ _ _ Hsave) as Hjson.
  destruct Hread as [entries _ _ Hentries | Hnot]; [|rewrite Hdir in Hnot; discriminate Hnot].
  apply listPlanFiles_In. split.
  - exists (slug planFile ++ PLAN_JSON_EXT). split; [|split].
    + apply Hentries. split; [now apply plainSlug_name|]. left.
      fold (getPlanJsonPath cwd (slug planFile)). unfold isFile.
      apply bool_decide_eq_true. rewrite Hjson. now eexists.
    + apply endsWith_append.
    + symmetry. now apply removeFirst_plainSlug.
  - now apply loadPlanFile_stored.
Qed.

(** X21: [listPlanFiles] never fails: it lists nothing when the plan
    directory cannot be read, and otherwise exactly the plans that load, one
    for each directory entry ending in [.plan.json], named by the entry with
    its first [.plan.json] taken out; a sidecar that does not load is left
    out and the others are still listed.  A plan saved with a plain slug is
    in the listing of its directory. *)
Theorem listing_holds_the_plans_that_load (cwd : string) (fs : FileSystem) :
  (forall e, listPlanFiles cwd (Throw e) fs = [])
  /\ (forall entries name found,
        In (name, found) (listPlanFiles cwd (Ok entries) fs)
        <-> (exists entry, In entry entries /\ endsWith entry ".plan.json" = true
                           /\ name = removeFirst ".plan.json" entry)
            /\ loadPlanFile cwd name fs = Some found)
  /\ (forall entries,
        (length (listPlanFiles cwd (Ok entries) fs) <= length entries)%nat)
  /\ (forall home planFile markdownContent before listing,
        plainSlug (slug planFile) = true ->
        jsonRepresentable planFile = true ->
        savePlanFile home cwd planFile markdownContent before = (Ok tt, fs) ->
        readdir (getPlanDirectory cwd) fs listing ->
        In (slug planFile, PlanFile_properties planFile) (listPlanFiles cwd listing fs)).
Proof.
  split; [reflexivity|]. split; [intros; apply listPlanFiles_In|]. split.
  - intros entries. unfold listPlanFiles.
    rewrite (Permutation_length (Array_sort_Permutation _ _)).
    induction entries as [|entry entries IH]; [cbn; lia|].
    cbn [List.filter]. destruct (endsWith entry PLAN_JSON_EXT); cbn [map flat_map length];
      [|lia].
    rewrite length_app. destruct (loadPlanFile cwd _ fs); cbn [length]; lia.
  - intros home planFile markdownContent before listing. apply saved_plan_listed.
Qed.

Lemma sortInsert_newest (x : string * list (string * value))
    (l : list (string * list (string * value))) :
  createdTime x <> None ->
  Forall (fun plan => createdTime plan <> None) l ->
  StronglySorted notOlder l ->
  StronglySorted notOlder (sortInsert byNewest x l).
Proof.
  intros Hx Hall Hs. induction Hs as [|y l Hs IH Hy]; cbn [sortInsert].
  - repeat constructor.
  - apply Forall_cons_iff in Hall as [Hyv Hall].
    destruct (createdTime x) as [tx|] eqn:Htx; [|now elim Hx].
    destruct (createdTime y) as [ty|] eqn:Hty; [|now elim Hyv].
    assert (Hcmp : byNewest x y = ty - tx).
    { unfold byNewest. unfold createdTime in Htx, Hty. now rewrite Htx, Hty. }
    rewrite Hcmp. destruct (ty - tx <=? 0) eqn:E.
    + apply Z.leb_le in E. constructor; [now constructor|]. constructor.
      * exists tx, ty. repeat split; [assumption..|lia].
      * rewrite List.Forall_forall in *. intros z Hz.
        destruct (Hy z Hz) as (ty' & tz & Hty' & Htz & Hle).
        rewrite Hty in Hty'. injection Hty' as <-.
        exists tx, tz. repeat split; [assumption..|lia].
    + apply Z.leb_gt in E. constructor; [now apply IH|].
      rewrite List.Forall_forall in *. intros z Hz.
      apply sortInsert_In in Hz as [->|Hz]; [|now apply Hy].
      exists ty, tx. repeat split; [assumption..|lia].
Qed.

Lemma Array_sort_newest (l : list (string * list (string * value))) :
  Forall (fun plan => createdTime plan <> None) l ->
  StronglySorted notOlder (Array_sort byNewest l).
Proof.
  induction l as [|x l IH]; intros Hall; cbn [Array_sort fold_right]; [constructor|].
  apply Forall_cons_iff in Hall as [Hx Hall].
  apply sortInsert_newest; [exact Hx | | now apply IH].
  rewrite List.Forall_forall in *. intros y Hy. apply Hall.
  now apply (Array_sort_In byNewest).
Qed.

(** X22: when every plan listed has a valid creation date, [listPlanFiles]
    returns them newest first: each plan was created no earlier than every
    plan after it. *)
Theorem listing_is_newest_first (cwd : string) (listing : Result (list string))
    (fs : FileSystem) :
  Forall (fun plan => createdTime plan <> None) (listPlanFiles cwd listing fs) ->
  StronglySorted notOlder (listPlanFiles cwd listing fs).
Proof.
  destruct listing as [entries|e]; [|constructor].
  unfold listPlanFiles. intros Hall. apply Array_sort_newest.
  rewrite List.Forall_forall in *. intros plan Hplan. apply Hall.
  now apply Array_sort_In.
Qed.

Lemma listing_is_newest_first_witness :
  let older := samplePlan in
  let newer :=
    {| id := "c0ffee"; slug := "c0ffee";
       createdAt := DateOf 1700000555000; updatedAt := DateOf 1700000555000;
       phase := design; userRequest := "Add a cart"; clarifications := [];
       implementationPlan := ""; filesToModify := []; verificationSteps := [] |} in
  let fs :=
    snd (savePlanFile "/home/alice" "/work/shop" newer None
           (snd (savePlanFile "/home/alice" "/work/shop" older None emptyFileSystem))) in
  let listed :=
    listPlanFiles "/work/shop" (Ok ["0b30557a9fc4.plan.json"; "c0ffee.plan.json"]) fs in
  map fst listed = ["c0ffee"; "0b30557a9fc4"]
  /\ StronglySorted notOlder listed.
Proof.
  cbv zeta. split; [vm_compute; reflexivity|].
  apply listing_is_newest_first. vm_compute.
  repeat constructor; discriminate.
Defined.

Lemma filterThrowing_filter {A} (p : A -> Result bool) (l kept : list A) :
  filterThrowing p l = Ok kept ->
  kept = List.filter (fun x => match p x with Ok true => true | _ => false end) l
  /\ forall x, In x l -> exists keep, p x = Ok keep.
Proof.
  revert kept. induction l as [|x l IH]; intros kept; cbn [filterThrowing List.filter].
  - intros [= <-]. split; [reflexivity | intros x []].
  - destruct (p x) as [keep|e] eqn:Hx; [|discriminate].
    destruct (filterThrowing p l) as [kept'|e]; [|discriminate].
    intros [= <-]. destruct (IH kept' eq_refl) as [-> Hall]. split.
    + now destruct keep.
    + intros y [<-|Hy]; [now exists keep | now apply Hall].
Qed.

Lemma filterThrowing_throws {A} (p : A -> Result bool) (l : list A) (x : A) :
  In x l -> (exists e, p x = Throw e) ->
  exists y e, In y l /\ p y = Throw e /\ filterThrowing p l = Throw e.
Proof.
  intros Hin [ex Hx]. induction l as [|z l IH]; [destruct Hin|].
  cbn [filterThrowing]. destruct (p z) as [keep|e] eqn:Hz.
  - destruct Hin as [->|Hin]; [congruence|].
    destruct (IH Hin) as (y & e & Hy & Hpy & ->).
    exists y, e. repeat split; [now right | exact Hpy].
  - exists z, e. repeat split; [now left | exact Hz].
Qed.

Lemma includes_empty (s : string) : includes s "" = true.
Proof. now destruct s. Qed.

Lemma holdsKeyword_request (lowerKeyword request : string)
    (planFile : list (string * value)) :
  getProperty planFile "userRequest" = Some (VStr request) ->
  includes (toLowerCase request) lowerKeyword = true ->
  holdsKeyword lowerKeyword planFile = Ok true.
Proof. intros Hreq Hin. unfold holdsKeyword. now rewrite Hreq; cbn; rewrite Hin. Qed.

Lemma holdsKeyword_no_request (lowerKeyword : string) (planFile : list (string * value)) :
  (forall request, getProperty planFile "userRequest" <> Some (VStr request)) ->
  exists e, holdsKeyword lowerKeyword planFile = Throw e.
Proof.
  intros Hreq. unfold holdsKeyword.
  destruct (getProperty planFile "userRequest") as [[| | |request| | |]|];
    cbn [toLowerCaseOf]; try (eexists; reflexivity).
  now elim (Hreq request).
Qed.

Lemma holdsKeyword_TypeError (lowerKeyword : string) (planFile : list (string * value))
    (e : Error) :
  holdsKeyword lowerKeyword planFile = Throw e -> errName e = "TypeError".
Proof.
  assert (Hlower : forall what x e', toLowerCaseOf what x = Throw e' ->
                                     errName e' = "TypeError").
  { intros what [[| | |s| | |]|] e'; cbn [toLowerCaseOf]; intros [= <-]; reflexivity. }
  unfold holdsKeyword.
  destruct (toLowerCaseOf _ (getProperty planFile "userRequest")) as [request|e1] eqn:H1;
    [|intros [= <-]; exact (Hlower _ _ _ H1)].
  destruct (includes request lowerKeyword); [discriminate|].
  destruct (match getProperty planFile "implementationPlan" with
            | Some v => truthy v
            | None => false
            end).
  - destruct (toLowerCaseOf _ (getProperty planFile "implementationPlan"))
      as [text|e2] eqn:H2; [|intros [= <-]; exact (Hlower _ _ _ H2)].
    destruct (includes text lowerKeyword); [discriminate|].
    destruct (Object_entries _); [discriminate|]. intros [= <-]. reflexivity.
  - destruct (Object_entries _); [discriminate|]. intros [= <-]. reflexivity.
Qed.

Lemma holdsKeyword_string_request (lowerKeyword : string)
    (planFile : list (string * value)) (keep : bool) :
  holdsKeyword lowerKeyword planFile = Ok keep ->
  exists request, getProperty planFile "userRequest" = Some (VStr request).
Proof.
  unfold holdsKeyword.
  destruct (getProperty planFile "userRequest") as [[| | |request| | |]|];
    cbn [toLowerCaseOf]; try discriminate.
  intros _. now exists request.
Qed.

(** X23: a search that returns gives the plans of the listing that hold the
    keyword, in the order of the listing.  Letter case is ignored: a plan
    whose request holds the keyword once both are in lower case is found.
    The empty keyword finds every plan. *)
Theorem searchPlans_filters_the_listing (cwd keyword : string)
    (listing : Result (list string)) (fs : FileSystem)
    (found : list (string * list (string * value))) :
  searchPlans cwd keyword listing fs = Ok found ->
  found
  = List.filter (fun plan =>
                   match holdsKeyword (toLowerCase keyword) (snd plan) with
                   | Ok true => true
                   | _ => false
                   end) (listPlans cwd listing fs)
  /\ (forall name planFile request,
        In (name, planFile) (listPlans cwd listing fs) ->
        getProperty planFile "userRequest" = Some (VStr request) ->
        includes (toLowerCase request) (toLowerCase keyword) = true ->
        In (name, planFile) found)
  /\ (keyword = "" -> found = listPlans cwd listing fs).
Proof.
  unfold searchPlans. intros Hsearch.
  apply filterThrowing_filter in Hsearch as [-> Hall].
  split; [reflexivity|]. split.
  - intros name planFile request Hin Hreq Hkw. apply filter_In. split; [exact Hin|].
    cbn [snd]. now rewrite (holdsKeyword_request _ request).
  - intros ->. apply filter_all. intros [name planFile] Hin.
    destruct (Hall _ Hin) as [keep Hkeep]. cbn [snd] in *.
    destruct (holdsKeyword_string_request _ _ _ Hkeep) as [request Hreq].
    cbn [toLowerCase] in *.
    now rewrite (holdsKeyword_request "" request planFile Hreq (includes_empty _)).
Qed.

Lemma searchPlans_filters_the_listing_witness :
  let fs := snd (savePlanFile "/home/alice" "/work/shop" samplePlan None emptyFileSystem) in
  let listing := Ok ["0b30557a9fc4.plan.json"] in
  exists found,
    searchPlans "/work/shop" "LOGIN" listing fs = Ok found
    /\ In ("0b30557a9fc4", PlanFile_properties samplePlan) found.
Proof.
  cbv zeta.
  set (fs := snd (savePlanFile "/home/alice" "/work/shop" samplePlan None emptyFileSystem)).
  set (listing := Ok ["0b30557a9fc4.plan.json"]).
  set (found := [("0b30557a9fc4", PlanFile_properties samplePlan)]).
  assert (Hsearch : searchPlans "/work/shop" "LOGIN" listing fs = Ok found)
    by (vm_compute; reflexivity).
  exists found. split; [exact Hsearch|].
  apply (proj1 (proj2 (searchPlans_filters_the_listing "/work/shop" "LOGIN" listing fs
                         found Hsearch))
           "0b30557a9fc4" (PlanFile_properties samplePlan) (userRequest samplePlan)).
  - vm_compute. now left.
  - reflexivity.
  - vm_compute. reflexivity.
Defined.

(** X24: one listed plan without a string under [userRequest] makes every
    search throw a [TypeError], whatever the keyword and whatever the other
    plans hold; [loadPlanFile] lets such sidecars through. *)
Theorem searchPlans_throws_on_a_plan_without_request (cwd keyword : string)
    (listing : Result (list string)) (fs : FileSystem) (name : string)
    (planFile : list (string * value)) :
  In (name, planFile) (listPlans cwd listing fs) ->
  (forall request, getProperty planFile "userRequest" <> Some (VStr request)) ->
  exists e,
    searchPlans cwd keyword listing fs = Throw e /\ errName e = "TypeError".
Proof.
  intros Hin Hreq. unfold searchPlans.
  destruct (filterThrowing_throws
              (fun plan => holdsKeyword (toLowerCase keyword) (snd plan))
              _ _ Hin (holdsKeyword_no_request _ _ Hreq))
    as (y & e & _ & Hy & ->).
  exists e. split; [reflexivity|]. exact (holdsKeyword_TypeError _ _ _ Hy).
Qed.

Lemma searchPlans_throws_on_a_plan_without_request_witness :
  let fs := {| files := {[ "/work/shop/.nanocoder/plans/x.plan.json" := "{}" ]};
               dirs := {[ "/work/shop/.nanocoder/plans" ]} |} in
  exists e,
    searchPlans "/work/shop" "login" (Ok ["x.plan.json"]) fs = Throw e
    /\ errName e = "TypeError".
Proof.
  cbv zeta.
  set (fs := {| files := {[ "/work/shop/.nanocoder/plans/x.plan.json" := "{}" ]};
                dirs := {[ "/work/shop/.nanocoder/plans" ]} |}).
  set (loaded := [("createdAt", VDate InvalidDate); ("updatedAt", VDate InvalidDate)]).
  assert (Hin : In ("x", loaded) (listPlans "/work/shop" (Ok ["x.plan.json"]) fs))
    by (vm_compute; now left).
  apply (searchPlans_throws_on_a_plan_without_request "/work/shop" "login"
           (Ok ["x.plan.json"]) fs "x" loaded Hin).
  intros request. vm_compute. discriminate.
Defined.

End ListingFacts.
